(** * Archi Designer: image geometry, edit requests, history and sessions

  A shallow embedding of the TypeScript sources

  - [services/geminiService]: [cropToOriginalAspectRatio], [resizeImage],
    [fileToPart], [fileToDataUrl], [redesignRoom], [generateRotatedView];
  - [services/storageService]: [openDB], [saveSessionsToDB],
    [loadSessionsFromDB];
  - [types]: [DesignSession];
  - [App.tsx]: the state slots of [App] and its handlers.

  JavaScript numbers that take part in arithmetic are binary64 floats
  ([PrimFloat.float]); indices, lengths and clock readings are [Z];
  strings are [String.string], one character per code unit; promises that
  may reject are values of [result]. *)

From Stdlib Require Import ZArith List String Ascii Bool Lia.
From Stdlib Require Import Floats DecimalString DecimalZ.
From Stdlib Require Import Sorted Permutation.
Import ListNotations.

(** ** JavaScript values *)

Module Js.

(** A JavaScript [number]. *)
Definition number : Type := float.

(** What a rejected promise or a [throw] carries: an [Error] object with
    its message, or any other value (a DOM event, a [DOMException]) shown
    by its string conversion. *)
Inductive Thrown : Type :=
| JsError (message : string)
| JsOther (shown : string).

(** [`${err}`] *)
Definition showThrown (e : Thrown) : string :=
  match e with
  | JsError m => ("Error: " ++ m)%string
  | JsOther s => s
  end.

(** A promise that has settled: resolved with a value or rejected. *)
Inductive result (A : Type) : Type :=
| Ok (a : A)
| Err (e : Thrown).
Arguments Ok {A} a.
Arguments Err {A} e.

Definition bind {A B : Type} (m : result A) (k : A -> result B) : result B :=
  match m with
  | Ok a => k a
  | Err e => Err e
  end.

Definition isOk {A : Type} (m : result A) : bool :=
  match m with Ok _ => true | Err _ => false end.

(** [a.slice(0, end)] on an array. A negative [end] counts from the end
    of the array; both cases are clamped to the array's bounds. *)
Definition slice0 {A : Type} (a : list A) (e : Z) : list A :=
  let len := Z.of_nat (List.length a) in
  let k := if (e <? 0)%Z then Z.max (len + e) 0 else Z.min e len in
  firstn (Z.to_nat k) a.

(** [a[i] ?? null] *)
Definition at_index {A : Type} (a : list A) (i : Z) : option A :=
  if (i <? 0)%Z then None else nth_error a (Z.to_nat i).

(** [a.length] *)
Definition len {A : Type} (a : list A) : Z := Z.of_nat (List.length a).

(** [x || y] on nullable objects. *)
Definition orElse {A : Type} (x y : option A) : option A :=
  match x with Some _ => x | None => y end.

(** [!!x] on a nullable object. *)
Definition truthy {A : Type} (x : option A) : bool :=
  match x with Some _ => true | None => false end.

(** [!!s] on a string: the empty string is falsy. *)
Definition nonEmpty (s : string) : bool :=
  match s with EmptyString => false | String _ _ => true end.

(** [!!x] on a nullable string: null and the empty string are falsy. *)
Definition truthyString (x : option string) : bool :=
  match x with
  | Some s => nonEmpty s
  | None => false
  end.

(** The double quote character, for template literals that contain it. *)
Definition dquote : string := String (ascii_of_nat 34) EmptyString.

End Js.

Import Js.

Declare Scope js_scope.
Delimit Scope js_scope with js.
Notation "x <- m ;; k" := (bind m (fun x => k))
  (at level 61, m at next level, right associativity) : js_scope.
Open Scope js_scope.
Open Scope string_scope.

(** ** The canvas boundary

  The 2D canvas is kept symbolic: a canvas is its pixel size and the
  drawing calls made on it, and an image element is the source it was
  loaded from with its decoded size. *)

Module Canvas.

(** An [HTMLImageElement] after [onload]. *)
Record Image : Type := mkImage {
  src : string;
  width : Z;
  height : Z
}.

(** A rectangle as [drawImage] takes it. *)
Record Rect : Type := mkRect {
  rx : number;
  ry : number;
  rw : number;
  rh : number
}.

Inductive Op : Type :=
| FillRect (fillStyle : string) (r : Rect)
    (** [ctx.fillStyle = style; ctx.fillRect(x, y, w, h)] *)
| DrawImage (img : Image) (dst : Rect)
    (** [ctx.drawImage(img, dx, dy, dw, dh)] *)
| DrawImageSub (img : Image) (source dst : Rect)
    (** [ctx.drawImage(img, sx, sy, sw, sh, dx, dy, dw, dh)] *).

Record t : Type := mkCanvas {
  cwidth : Z;
  cheight : Z;
  ops : list Op
}.

(** The integer part of a finite float, towards zero; NaN and the
    infinities give 0. *)
Definition truncate (x : number) : Z :=
  match Prim2SF x with
  | S754_finite s m e =>
      let a := if (0 <=? e)%Z then (Zpos m * 2 ^ e)%Z
               else (Zpos m / 2 ^ (- e))%Z in
      if s then (- a)%Z else a
  | _ => 0%Z
  end.

(** Assigning a number to [canvas.width] or [canvas.height]: the Web IDL
    conversion to [unsigned long] (truncate, then modulo 2^32); a value
    above 2^31 - 1 falls back to the attribute's default. *)
Definition toDimension (dflt : Z) (x : number) : Z :=
  let u := (truncate x mod 2 ^ 32)%Z in
  if (u <=? 2147483647)%Z then u else dflt.

Definition defaultWidth : Z := 300.
Definition defaultHeight : Z := 150.

(** An integer attribute read as a JavaScript number. *)
Definition toNumber (z : Z) : number := PrimFloat.of_uint63 (Uint63.of_Z z).

End Canvas.

(** ** Geometry of [geminiService] *)

Module Geometry.

Import Canvas.
Local Open Scope float_scope.

(** The body of [img.onload] in [cropToOriginalAspectRatio] up to
    [drawImage]: a canvas of the content area's size onto which the content
    area of the square image is drawn at the origin. *)
Definition cropCanvas (img : Image) (originalWidth originalHeight targetDimension : number)
  : Canvas.t :=
  let aspectRatio := originalWidth / originalHeight in
  let '(contentWidth, contentHeight) :=
    if 1 <? aspectRatio
    then (targetDimension, targetDimension / aspectRatio)
    else (targetDimension * aspectRatio, targetDimension)
  in
  let x := (targetDimension - contentWidth) / 2 in
  let y := (targetDimension - contentHeight) / 2 in
  mkCanvas (toDimension defaultWidth contentWidth)
           (toDimension defaultHeight contentHeight)
           [DrawImageSub img (mkRect x y contentWidth contentHeight)
                             (mkRect 0 0 contentWidth contentHeight)].

(** The body of [img.onload] in [resizeImage] up to [toBlob]: a square
    canvas filled with black onto which the image is drawn, scaled and
    centred. *)
Definition resizeCanvas (img : Image) (targetDimension : number) : Canvas.t :=
  let aspectRatio := toNumber (width img) / toNumber (height img) in
  let '(newWidth, newHeight) :=
    if 1 <? aspectRatio
    then (targetDimension, targetDimension / aspectRatio)
    else (targetDimension * aspectRatio, targetDimension)
  in
  let x := (targetDimension - newWidth) / 2 in
  let y := (targetDimension - newHeight) / 2 in
  mkCanvas (toDimension defaultWidth targetDimension)
           (toDimension defaultHeight targetDimension)
           [FillRect "black" (mkRect 0 0 targetDimension targetDimension);
            DrawImage img (mkRect x y newWidth newHeight)].

(** Where a canvas drew its last image, and from where. *)
Definition lastDrawn (c : Canvas.t) : option Rect :=
  match last (ops c) (FillRect "" (mkRect 0 0 0 0)) with
  | DrawImage _ dst => Some dst
  | DrawImageSub _ _ dst => Some dst
  | FillRect _ _ => None
  end.

Definition lastSource (c : Canvas.t) : option Rect :=
  match last (ops c) (FillRect "" (mkRect 0 0 0 0)) with
  | DrawImageSub _ source _ => Some source
  | _ => None
  end.

(** [MAX_DIMENSION] of [redesignRoom] and [generateRotatedView]. *)
Definition MAX_DIMENSION : number := 1024.

(** The image element the browser decodes from the square canvas's
    encoding. *)
Definition squareImage (url : string) (c : Canvas.t) : Image :=
  mkImage url (cwidth c) (cheight c).

(** [restore (normalize img S) w h S] on the canvas level: the canvas
    [cropToOriginalAspectRatio] produces from the square image that
    [resizeImage] rendered. *)
Definition roundTrip (url : string) (img : Image) (targetDimension : number) : Canvas.t :=
  cropCanvas (squareImage url (resizeCanvas img targetDimension))
             (toNumber (width img)) (toNumber (height img)) targetDimension.

End Geometry.

(** ** Files and the browser boundary *)

Module Browser.

(** A [File]: the fields the program reads. *)
Record File : Type := mkFile {
  file_name : string;
  file_type : string;
  file_bits : string
}.

(** A part of a request to the model. *)
Inductive Part : Type :=
| InlineDataPart (mimeType data : string)
| TextPart (text : string).

(** The response of [generateContent], with the optional chaining of
    [response.candidates?.[0]?.content?.parts] made explicit. *)
Record InlineData : Type := mkInlineData {
  mimeType : string;
  data : string
}.

Record ResponsePart : Type := mkResponsePart {
  inlineData : option InlineData;
  text : option string
}.

Record Content : Type := mkContent {
  parts : option (list ResponsePart)
}.

Record Candidate : Type := mkCandidate {
  content : option Content
}.

Record GenerateContentResponse : Type := mkResponse {
  candidates : option (list Candidate)
}.

(** What the program calls outside itself. Each call is a function of its
    arguments: a [FileReader], an image element, a canvas, the model and
    [fetch] answer the same question the same way. *)
Record Env : Type := mkEnv {
  (** [reader.readAsDataURL(file)]: [onload] with [reader.result], or
      [onerror]. *)
  readAsDataURL : File -> result string;
  (** [img.src = url]: [onload] with the decoded element, or [onerror]. *)
  loadImage : string -> result Canvas.Image;
  (** whether [canvas.getContext('2d')] is not null *)
  getContext2d : bool;
  (** [canvas.toBlob(cb, type, quality)]: the blob's bytes, or null *)
  toBlob : Canvas.t -> string -> number -> option string;
  (** [canvas.toDataURL(type, quality)] *)
  toDataURL : Canvas.t -> string -> number -> string;
  (** [ai.models.generateContent({ model, contents: { parts }, ... })] *)
  generateContent : string -> list Part -> result GenerateContentResponse;
  (** [await fetch(url)]: [response.ok] and the bytes of
      [response.blob()], or a rejection *)
  fetch : string -> result (bool * string)
}.

(** [(await fetch(url)).blob()] *)
Definition fetchBlob (B : Env) (url : string) : result string :=
  response <- fetch B url ;;
  Ok (snd response).

End Browser.

(** ** [services/geminiService] *)

Module GeminiService.

Import Canvas Geometry Browser.

(** The quality argument [0.95], as the nearest binary64 value. *)
Definition quality : number := 0x1.e666666666666p-1%float.

Definition cropToOriginalAspectRatio (B : Env) (imageDataUrl : string)
    (originalWidth originalHeight targetDimension : number) : result string :=
  match loadImage B imageDataUrl with
  | Err err => Err (JsError ("Image load error during cropping: " ++ showThrown err))
  | Ok img =>
      if negb (getContext2d B)
      then Err (JsError "Could not get canvas context for cropping.")
      else Ok (toDataURL B (cropCanvas img originalWidth originalHeight targetDimension)
                         "image/jpeg" quality)
  end.

Definition resizeImage (B : Env) (file : File) (targetDimension : number) : result File :=
  match readAsDataURL B file with
  | Err err => Err (JsError ("File reader error: " ++ showThrown err))
  | Ok result =>
      if negb (nonEmpty result) then Err (JsError "Failed to read file.") else
      match loadImage B result with
      | Err err => Err (JsError ("Image load error: " ++ showThrown err))
      | Ok img =>
          if negb (getContext2d B) then Err (JsError "Could not get canvas context.") else
          match toBlob B (resizeCanvas img targetDimension) "image/jpeg" quality with
          | Some blob => Ok (mkFile (file_name file) "image/jpeg" blob)
          | None => Err (JsError "Canvas to Blob conversion failed.")
          end
      end
  end.

(** [s.split(',')] *)
Fixpoint splitComma (s : string) : list string :=
  match s with
  | EmptyString => [EmptyString]
  | String c r =>
      if Ascii.eqb c ","%char then EmptyString :: splitComma r
      else match splitComma r with
           | h :: t => String c h :: t
           | [] => [String c EmptyString]
           end
  end.

(** The lazy group of [/:(.*?);/] from the character after a colon: the
    text up to the first semicolon, if no line break comes before it. *)
Fixpoint uptoSemicolon (s : string) : option string :=
  match s with
  | EmptyString => None
  | String c r =>
      if Ascii.eqb c ";"%char then Some EmptyString
      else if Ascii.eqb c (ascii_of_nat 10) || Ascii.eqb c (ascii_of_nat 13) then None
      else option_map (String c) (uptoSemicolon r)
  end.

(** [s.match(/:(.*?);/)]: the group of the leftmost match. *)
Fixpoint matchMime (s : string) : option string :=
  match s with
  | EmptyString => None
  | String c r =>
      if Ascii.eqb c ":"%char
      then match uptoSemicolon r with
           | Some m => Some m
           | None => matchMime r
           end
      else matchMime r
  end.

Definition fileToPart (B : Env) (file : File) : result Part :=
  dataUrl <- readAsDataURL B file ;;
  match splitComma dataUrl with
  | arr0 :: arr1 :: _ =>
      match matchMime arr0 with
      | Some mimeType =>
          if nonEmpty mimeType then Ok (InlineDataPart mimeType arr1)
          else Err (JsError "Could not parse MIME type from data URL")
      | None => Err (JsError "Could not parse MIME type from data URL")
      end
  | _ => Err (JsError "Invalid data URL")
  end.

Definition fileToDataUrl (B : Env) (file : File) : result string :=
  readAsDataURL B file.

(** The opening block of [redesignRoom]'s prompt, which quotes the user's instructions. *)
Definition promptBase (userPrompt : string) : string :=
  "**Role and Goal:**
You are an expert AI photo-editor specializing in realistic architectural and landscape modifications. Your task is to edit the provided image based on the user's instructions.

**Primary Directive: EDIT, DO NOT REPLACE.**
This is your most important instruction. You must treat this as an image editing task, not an image generation task.
-   **Preserve the Original:** Maintain the original image's composition, camera angle, lighting, and core structures.
-   **Do Not Alter:** Do not change the fundamental shape of the house, roofline, window placements, door placements, or any other element not explicitly mentioned in the user's request.
-   **Ignore Padding:** The base image may have black padding around it; this padding should be ignored and is not part of the scene to be edited.

**User's Edit Instructions:**
Apply the following changes to the image: "
  ++ dquote
  ++ userPrompt
  ++ dquote
  ++ "
".

(** Appended when [isSketched]. *)
Definition sketchBlock : string :=
  "
**Critical Instruction: Sketch-Based Editing ONLY.**
The user has provided a sketch on top of the image. This sketch indicates the *only* areas you are allowed to modify.
-   You MUST confine ALL edits *exclusively* to the areas indicated by the sketch.
-   Do NOT alter any other part of the image. The rest of the image must remain identical to the original.
-   The user's text prompt should be interpreted as instructions for *what* to do within the sketched areas. For example, if the prompt says "
  ++ dquote
  ++ "add a flowerbed"
  ++ dquote
  ++ " and the user has drawn a circle on the lawn, you must create the flowerbed only inside that circle.
-   Integrate these sketched elements realistically into the scene, matching the existing style and lighting.
".

(** Appended when a product image is supplied. *)
Definition productBlock : string :=
  "
**Product Placement Instructions:**
The user has provided a second image containing a specific element to add.
-   You MUST photorealistically integrate this exact element into the main scene.
-   Ensure the added element's scale, lighting, and perspective are seamlessly blended into the scene to look natural.
".

(** Appended when a background image is supplied; it quotes the user's instructions again. *)
Definition backgroundBlock (userPrompt : string) : string :=
  "
**Critical Task: Background Replacement**
The user has provided a new background image. Your primary task is to perform a professional-grade photo composition.

**Image Roles:**
-   **Main Image (first image):** Contains the primary subject (e.g., a house, a person, an object).
-   **Background Image (third image provided):** This is the new environment.

**Step-by-Step Composition Directive:**
1.  **Isolate the Subject:** Accurately identify and isolate the main subject from the first image. Ignore its original background.
2.  **Analyze the New Environment:** Scrutinize the provided background image. Pay close attention to:
    -   **Lighting Source & Direction:** Where is the sun or primary light? What direction are the shadows falling?
    -   **Color Temperature:** Is the light warm (golden hour) or cool (overcast day)?
    -   **Atmosphere:** Is it sunny, foggy, nighttime?
3.  **Integrate and Harmonize:**
    -   Place the isolated subject realistically into the new background.
    -   **Crucially, you MUST re-light the subject.** Adjust its highlights, shadows, and color grading to perfectly match the lighting conditions of the new background. The subject must look like it truly belongs in the new scene, not like it was cut and pasted.
    -   Ensure shadows cast *by* the subject onto the new background are consistent with the environment's light source.
4.  **Scale and Perspective:** Adjust the subject's size and perspective to be believable within the new scene.
5.  **Final Blend:** Seamlessly blend the edges of the subject into the background to create a photorealistic final image. The user's text prompt ("
  ++ dquote
  ++ userPrompt
  ++ dquote
  ++ ") should guide any additional stylistic modifications *after* the composition is complete.
".

(** The closing block. *)
Definition finalBlock : string :=
  "
**Final Output Requirements:**
-   The output must be a single, high-quality, photorealistic image that is an edited version of the original.
-   It should ONLY contain the modified image. No text, logos, or other artifacts.
".

(** The prompt of [generateRotatedView]. *)
Definition rotationPrompt (direction : string) : string :=
  "**Role and Goal:** You are an expert AI architectural visualizer. Your function is to generate a photorealistic rendering of a building from a different camera angle, maintaining absolute fidelity to the design shown in the input image.

**Core Task: Incremental Camera Rotation**
The input image is a single viewpoint of a building. Your task is to generate a new photorealistic image showing the *exact same building and its surroundings*, but with the camera viewpoint rotated **precisely 45 degrees to the "
  ++ direction
  ++ "** from the current view.

**Critical Directives for Continuity and Accuracy:**
-   **Treat Input as Ground Truth:** The provided image is the current state. Your output must be a direct continuation of this view. If the input image is already a rotated view, your task is to rotate it *further*.
-   **Unalterable Architecture:** The building's design, style, materials, textures, and colors are immutable. You MUST NOT alter any existing architectural elements (walls, rooflines, windows, doors, etc.).
-   **Realistic Extrapolation:** The primary challenge is to realistically render the parts of the building and environment that become visible after the 45-degree rotation. These newly visible sections MUST be a logical and consistent extension of the visible architecture. For example, a brick wall must continue as a brick wall. A window pattern should continue logically.
-   **Consistent Environment:** Maintain the identical lighting conditions (time of day, shadow direction), weather, and landscaping style from the input image. The world around the building does not change, only the camera's position.
-   **Ignore Padding:** The input image may have black padding. This is an artifact and must be completely ignored. It is not part of the scene.

**Final Output Requirements:**
-   The output MUST be a single, high-quality, photorealistic image of the building from the new 45-degree viewpoint.
-   The image should be clean, without any text, watermarks, or other artifacts.
-   Ensure the perspective shift is accurate and feels like a real camera movement.
".

(** What [redesignRoom] has built when it calls the model: the debug
    image, the parts and the prompt (steps 1 and 2 of the source). *)
Record RedesignRequest : Type := mkRequest {
  req_debugImageUrl : string;
  req_parts : list Part;
  req_prompt : string
}.

Definition redesignRequest (B : Env) (imageToProcess : File) (userPrompt : string)
    (productImage backgroundImage : option File) (isSketched : bool)
  : result RedesignRequest :=
  resizedRoomImage <- resizeImage B imageToProcess MAX_DIMENSION ;;
  debugImageUrl <- fileToDataUrl B resizedRoomImage ;;
  part0 <- fileToPart B resizedRoomImage ;;
  let parts := [part0] in
  let prompt := promptBase userPrompt in
  let prompt := if isSketched then prompt ++ sketchBlock else prompt in
  st <- match productImage with
        | Some file =>
            p <- fileToPart B file ;;
            Ok ((parts ++ [p])%list, prompt ++ productBlock)
        | None => Ok (parts, prompt)
        end ;;
  let '(parts, prompt) := st in
  st <- match backgroundImage with
        | Some file =>
            p <- fileToPart B file ;;
            Ok ((parts ++ [p])%list, prompt ++ backgroundBlock userPrompt)
        | None => Ok (parts, prompt)
        end ;;
  let '(parts, prompt) := st in
  let prompt := prompt ++ finalBlock in
  let textPart := TextPart prompt in
  let parts := (parts ++ [textPart])%list in
  Ok (mkRequest debugImageUrl parts prompt).

(** [response.candidates?.[0]?.content?.parts?.find(part => part.inlineData)]
    followed by [imagePartFromResponse?.inlineData]. *)
Definition imagePartFromResponse (response : GenerateContentResponse) : option InlineData :=
  match candidates response with
  | Some (candidate :: _) =>
      match content candidate with
      | Some c =>
          match parts c with
          | Some ps =>
              match find (fun part => truthy (inlineData part)) ps with
              | Some part => inlineData part
              | None => None
              end
          | None => None
          end
      | None => None
      end
  | _ => None
  end.

Definition model : string := "gemini-2.5-flash-image".

Record RedesignResult : Type := mkRedesignResult {
  finalImageUrl : string;
  debugImageUrl : string;
  finalPrompt : string
}.

Definition noImageMessage : string :=
  "The AI model did not return an image. Please try again.".

Definition redesignRoom (B : Env) (imageToProcess : File)
    (originalWidth originalHeight : number) (userPrompt : string)
    (productImage backgroundImage : option File) (isSketched : bool)
  : result RedesignResult :=
  req <- redesignRequest B imageToProcess userPrompt productImage backgroundImage isSketched ;;
  response <- generateContent B model (req_parts req) ;;
  match imagePartFromResponse response with
  | Some i =>
      let generatedSquareImageUrl := "data:" ++ mimeType i ++ ";base64," ++ data i in
      finalImageUrl <- cropToOriginalAspectRatio B generatedSquareImageUrl
                         originalWidth originalHeight MAX_DIMENSION ;;
      Ok (mkRedesignResult finalImageUrl (req_debugImageUrl req) (req_prompt req))
  | None => Err (JsError noImageMessage)
  end.

Definition noRotatedImageMessage : string :=
  "The AI model did not return an image for rotation.".

(** [direction] is ['left'] or ['right']. *)
Inductive Direction : Type := left | right.

Definition showDirection (d : Direction) : string :=
  match d with left => "left" | right => "right" end.

Definition generateRotatedView (B : Env) (currentImage : File)
    (originalWidth originalHeight : number) (direction : Direction)
  : result string :=
  resizedImage <- resizeImage B currentImage MAX_DIMENSION ;;
  imagePart <- fileToPart B resizedImage ;;
  let prompt := rotationPrompt (showDirection direction) in
  let textPart := TextPart prompt in
  response <- generateContent B model [imagePart; textPart] ;;
  match imagePartFromResponse response with
  | Some i =>
      let generatedSquareImageUrl := "data:" ++ mimeType i ++ ";base64," ++ data i in
      cropToOriginalAspectRatio B generatedSquareImageUrl
        originalWidth originalHeight MAX_DIMENSION
  | None => Err (JsError noRotatedImageMessage)
  end.

End GeminiService.

(** ** [types] *)

Module Types.

Import Browser.

Record Dimensions : Type := mkDimensions {
  width : number;
  height : number
}.

Record DesignSession : Type := mkSession {
  id : string;
  name : string;
  timestamp : Z;
  thumbnail : string;
  sceneImage : File;
  originalDimensions : Dimensions;
  generations : list File
}.

End Types.

(** ** [services/storageService] *)

Module StorageService.

Import Types.

Definition DB_NAME : string := "ArchiDesignerDB".
Definition DB_VERSION : Z := 1.
Definition SESSIONS_STORE_NAME : string := "sessions".

(** The IndexedDB boundary. *)
Inductive StoreOp : Type :=
| Clear
| Put (session : DesignSession).

Record Transaction : Type := mkTransaction {
  (** [store.getAll()]: [onsuccess] with [request.result] (which may be
      missing), or [onerror] with [request.error] *)
  getAll : result (option (list DesignSession));
  (** the requests of a read-write transaction: [oncomplete] or [onerror] *)
  complete : list StoreOp -> result unit
}.

Record Database : Type := mkDatabase {
  (** [db.transaction(storeName, mode)], which throws when the store does
      not exist *)
  transaction : string -> string -> result Transaction
}.

Record IndexedDB : Type := mkIndexedDB {
  (** [window.indexedDB] is defined *)
  supported : bool;
  (** [indexedDB.open(name, version)]: [onsuccess] with the database, or
      [onerror] with [request.error] *)
  open : string -> Z -> result Database
}.

Definition openDB (idb : IndexedDB) : result Database :=
  if negb (supported idb)
  then Err (JsError "IndexedDB is not supported by this browser.")
  else open idb DB_NAME DB_VERSION.

(** [sessions.forEach(session => store.put(session))] after [store.clear()] *)
Definition writes (sessions : list DesignSession) : list StoreOp :=
  Clear :: map Put sessions.

(** The [try] block awaits only [openDB]; the promise it returns is not
    awaited inside it, so the [catch] sees a failure to open the store or
    to start the transaction, and a transaction error rejects the
    result. *)
Definition saveSessionsToDB (idb : IndexedDB) (sessions : list DesignSession)
  : result unit :=
  match (db <- openDB idb ;; transaction db SESSIONS_STORE_NAME "readwrite") with
  | Err error => Ok tt
  | Ok tx => complete tx (writes sessions)
  end.

(** [result.sort((a, b) => b.timestamp - a.timestamp)]: a stable sort,
    newest first. *)
Fixpoint insertNewestFirst (a : DesignSession) (l : list DesignSession)
  : list DesignSession :=
  match l with
  | [] => [a]
  | b :: l' =>
      if (timestamp b - timestamp a >? 0)%Z
      then b :: insertNewestFirst a l'
      else a :: l
  end.

Definition sortNewestFirst (l : list DesignSession) : list DesignSession :=
  fold_right insertNewestFirst [] l.

Definition loadSessionsFromDB (idb : IndexedDB) : result (list DesignSession) :=
  match (db <- openDB idb ;; transaction db SESSIONS_STORE_NAME "readonly") with
  | Err error => Ok []
  | Ok tx =>
      match getAll tx with
      | Ok (Some result) => Ok (sortNewestFirst result)
      | Ok None => Ok []
      | Err error => Err error
      end
  end.

End StorageService.

(** ** [App.tsx] *)

Module App.

Import Browser Types.

(** [n.toString()] for an integer [n]. *)
Definition toString (n : Z) : string := NilZero.string_of_int (Z.to_int n).

(** The state slots of [App] ([useState]) that its handlers read and
    write. The slots that only open and close panels ([isSidebarOpen], the
    modal flags, [loadingMessageIndex], [sessionsLoaded]) are left out. *)
Record AppState : Type := mkState {
  sessions : list DesignSession;
  activeSessionId : option string;
  sceneImage : option File;
  productImage : option File;
  backgroundImage : option File;
  sketchedImage : option File;
  history : list File;
  historyIndex : Z;
  prompt : string;
  originalDimensions : option Dimensions;
  isLoading : bool;
  error : option string;
  debugImageUrl : option string;
  debugPrompt : option string
}.

Definition setSessions (v : list DesignSession) (s : AppState) : AppState :=
  mkState v (activeSessionId s) (sceneImage s) (productImage s) (backgroundImage s)
    (sketchedImage s) (history s) (historyIndex s) (prompt s) (originalDimensions s)
    (isLoading s) (error s) (debugImageUrl s) (debugPrompt s).

Definition setActiveSessionId (v : option string) (s : AppState) : AppState :=
  mkState (sessions s) v (sceneImage s) (productImage s) (backgroundImage s)
    (sketchedImage s) (history s) (historyIndex s) (prompt s) (originalDimensions s)
    (isLoading s) (error s) (debugImageUrl s) (debugPrompt s).

Definition setSceneImage (v : option File) (s : AppState) : AppState :=
  mkState (sessions s) (activeSessionId s) v (productImage s) (backgroundImage s)
    (sketchedImage s) (history s) (historyIndex s) (prompt s) (originalDimensions s)
    (isLoading s) (error s) (debugImageUrl s) (debugPrompt s).

Definition setProductImage (v : option File) (s : AppState) : AppState :=
  mkState (sessions s) (activeSessionId s) (sceneImage s) v (backgroundImage s)
    (sketchedImage s) (history s) (historyIndex s) (prompt s) (originalDimensions s)
    (isLoading s) (error s) (debugImageUrl s) (debugPrompt s).

Definition setBackgroundImage (v : option File) (s : AppState) : AppState :=
  mkState (sessions s) (activeSessionId s) (sceneImage s) (productImage s) v
    (sketchedImage s) (history s) (historyIndex s) (prompt s) (originalDimensions s)
    (isLoading s) (error s) (debugImageUrl s) (debugPrompt s).

Definition setSketchedImage (v : option File) (s : AppState) : AppState :=
  mkState (sessions s) (activeSessionId s) (sceneImage s) (productImage s)
    (backgroundImage s) v (history s) (historyIndex s) (prompt s)
    (originalDimensions s) (isLoading s) (error s) (debugImageUrl s) (debugPrompt s).

Definition setHistory (v : list File) (s : AppState) : AppState :=
  mkState (sessions s) (activeSessionId s) (sceneImage s) (productImage s)
    (backgroundImage s) (sketchedImage s) v (historyIndex s) (prompt s)
    (originalDimensions s) (isLoading s) (error s) (debugImageUrl s) (debugPrompt s).

Definition setHistoryIndex (v : Z) (s : AppState) : AppState :=
  mkState (sessions s) (activeSessionId s) (sceneImage s) (productImage s)
    (backgroundImage s) (sketchedImage s) (history s) v (prompt s)
    (originalDimensions s) (isLoading s) (error s) (debugImageUrl s) (debugPrompt s).

Definition setPrompt (v : string) (s : AppState) : AppState :=
  mkState (sessions s) (activeSessionId s) (sceneImage s) (productImage s)
    (backgroundImage s) (sketchedImage s) (history s) (historyIndex s) v
    (originalDimensions s) (isLoading s) (error s) (debugImageUrl s) (debugPrompt s).

Definition setOriginalDimensions (v : option Dimensions) (s : AppState) : AppState :=
  mkState (sessions s) (activeSessionId s) (sceneImage s) (productImage s)
    (backgroundImage s) (sketchedImage s) (history s) (historyIndex s) (prompt s) v
    (isLoading s) (error s) (debugImageUrl s) (debugPrompt s).

Definition setIsLoading (v : bool) (s : AppState) : AppState :=
  mkState (sessions s) (activeSessionId s) (sceneImage s) (productImage s)
    (backgroundImage s) (sketchedImage s) (history s) (historyIndex s) (prompt s)
    (originalDimensions s) v (error s) (debugImageUrl s) (debugPrompt s).

Definition setError (v : option string) (s : AppState) : AppState :=
  mkState (sessions s) (activeSessionId s) (sceneImage s) (productImage s)
    (backgroundImage s) (sketchedImage s) (history s) (historyIndex s) (prompt s)
    (originalDimensions s) (isLoading s) v (debugImageUrl s) (debugPrompt s).

Definition setDebugImageUrl (v : option string) (s : AppState) : AppState :=
  mkState (sessions s) (activeSessionId s) (sceneImage s) (productImage s)
    (backgroundImage s) (sketchedImage s) (history s) (historyIndex s) (prompt s)
    (originalDimensions s) (isLoading s) (error s) v (debugPrompt s).

Definition setDebugPrompt (v : option string) (s : AppState) : AppState :=
  mkState (sessions s) (activeSessionId s) (sceneImage s) (productImage s)
    (backgroundImage s) (sketchedImage s) (history s) (historyIndex s) (prompt s)
    (originalDimensions s) (isLoading s) (error s) (debugImageUrl s) v.

Definition initialState : AppState :=
  mkState [] None None None None None [] (-1) "" None false None None None.

(** What [App] calls outside itself besides the services' boundary:
    [getImageDimensions] of [utils/fileUtils]. *)
Record AppEnv : Type := mkAppEnv {
  browser : Env;
  getImageDimensions : File -> result Dimensions
}.

(** Values derived in the body of the component. Every handler below takes
    the render [c] whose values its closure captured and the state [s] its
    setters act on; a handler invoked from the current render has
    [c = s]. *)
Definition currentGeneratedImage (c : AppState) : option File :=
  at_index (history c) (historyIndex c).

Definition currentWorkingImage (c : AppState) : option File :=
  orElse (sketchedImage c) (orElse (currentGeneratedImage c) (sceneImage c)).

(** The image behind [displayImageUrl]. *)
Definition displayImage (c : AppState) : option File :=
  orElse (currentGeneratedImage c) (orElse (sketchedImage c) (sceneImage c)).

Definition canUndo (c : AppState) : bool := (historyIndex c >=? 0)%Z.
Definition canRedo (c : AppState) : bool := (historyIndex c <? len (history c) - 1)%Z.

(** [err instanceof Error ? err.message : 'An unknown error occurred.'] *)
Definition errorMessage (err : Thrown) : string :=
  match err with
  | JsError message => message
  | JsOther _ => "An unknown error occurred."
  end.

Definition clearWorkingState (s : AppState) : AppState :=
  let s := setSceneImage None s in
  let s := setProductImage None s in
  let s := setBackgroundImage None s in
  let s := setSketchedImage None s in
  let s := setHistory [] s in
  let s := setHistoryIndex (-1) s in
  let s := setPrompt "" s in
  let s := setError None s in
  let s := setIsLoading false s in
  let s := setDebugImageUrl None s in
  let s := setDebugPrompt None s in
  setOriginalDimensions None s.

Definition handleNewProject (s : AppState) : AppState :=
  let s := clearWorkingState s in
  setActiveSessionId None s.

Definition handleSelectSession (c : AppState) (sessionId : string) (s : AppState)
  : AppState :=
  match find (fun x => String.eqb (id x) sessionId) (sessions c) with
  | Some session =>
      let s := clearWorkingState s in
      let s := setSceneImage (Some (Types.sceneImage session)) s in
      let s := setOriginalDimensions (Some (Types.originalDimensions session)) s in
      let s := setHistory (generations session) s in
      let s := setHistoryIndex (len (generations session) - 1) s in
      setActiveSessionId (Some (id session)) s
  | None => s
  end.

(** [activeSessionId === sessionId] *)
Definition isActive (active : option string) (sessionId : string) : bool :=
  match active with
  | Some a => String.eqb a sessionId
  | None => false
  end.

Definition handleDeleteSession (c : AppState) (sessionId : string) (s : AppState)
  : AppState :=
  let remainingSessions :=
    filter (fun x => negb (String.eqb (id x) sessionId)) (sessions c) in
  let s := setSessions remainingSessions s in
  if isActive (activeSessionId c) sessionId then
    match remainingSessions with
    | first :: _ => handleSelectSession c (id first) s
    | [] => handleNewProject s
    end
  else s.

(** [thumbnailReader.onload] in [handleSceneImageUpload]. The two calls of
    [Date.now()] are the readings [nowId] and [nowTimestamp]. *)
Definition thumbnailOnload (c : AppState) (file : File) (dimensions : Dimensions)
    (thumbnail : string) (nowId nowTimestamp : Z) (s : AppState) : AppState :=
  let newSession :=
    mkSession (toString nowId)
              ("Design " ++ toString (len (sessions c) + 1))
              nowTimestamp
              thumbnail
              file
              dimensions
              [] in
  let s := setSessions (newSession :: sessions s) s in
  let s := setActiveSessionId (Some (id newSession)) s in
  let s := setSceneImage (Some file) s in
  let s := setOriginalDimensions (Some dimensions) s in
  let s := setHistory [] s in
  let s := setHistoryIndex (-1) s in
  let s := setPrompt "" s in
  let s := setSketchedImage None s in
  let s := setProductImage None s in
  let s := setBackgroundImage None s in
  setError None s.

(** [thumbnailReader] has no [onerror]: when the thumbnail cannot be read
    nothing more happens. *)
Definition handleSceneImageUpload (E : AppEnv) (nowId nowTimestamp : Z)
    (c : AppState) (file : File) (s : AppState) : AppState :=
  match getImageDimensions E file with
  | Ok dimensions =>
      match readAsDataURL (browser E) file with
      | Ok thumbnail => thumbnailOnload c file dimensions thumbnail nowId nowTimestamp s
      | Err _ => s
      end
  | Err err =>
      setError (Some "Could not read image dimensions. Please try a different image.") s
  end.

Definition defaultImageUrl : string :=
  "https://storage.googleapis.com/aistudio-web-public-prod/prompts/v1/exterior.jpeg".

Definition defaultPrompt : string :=
  "Add a modern stone pathway, plant vibrant flowerbeds along the front, and add a large oak tree on the right.".

(** [handleSceneImageUpload] returns once the thumbnail reader is started,
    so the default prompt is set before [thumbnailReader.onload] runs. *)
Definition handleInstantStart (E : AppEnv) (nowId nowTimestamp : Z)
    (c : AppState) (s : AppState) : AppState :=
  let s := setError None s in
  let failed err :=
    setError (Some ("Could not load default image. Details: " ++ errorMessage err)) s in
  match fetch (browser E) defaultImageUrl with
  | Err err => failed err
  | Ok (false, _) => failed (JsError "Failed to load default image")
  | Ok (true, blob) =>
      let file := mkFile "exterior.jpeg" "image/jpeg" blob in
      match getImageDimensions E file with
      | Ok dimensions =>
          let s := setPrompt defaultPrompt s in
          match readAsDataURL (browser E) file with
          | Ok thumbnail =>
              thumbnailOnload c file dimensions thumbnail nowId nowTimestamp s
          | Err _ => s
          end
      | Err err =>
          let s :=
            setError
              (Some "Could not read image dimensions. Please try a different image.") s in
          setPrompt defaultPrompt s
      end
  end.

Definition addImageToHistory (c : AppState) (newImage : File) (s : AppState)
  : AppState :=
  let newHistory := (slice0 (history c) (historyIndex c + 1) ++ [newImage])%list in
  let s := setHistory newHistory s in
  let s := setHistoryIndex (len newHistory - 1) s in
  match activeSessionId c with
  | Some active =>
      if nonEmpty active then
        setSessions
          (map (fun x =>
                  if String.eqb (id x) active
                  then mkSession (id x) (name x) (timestamp x) (thumbnail x)
                                 (Types.sceneImage x) (Types.originalDimensions x)
                                 newHistory
                  else x)
               (sessions s))
          s
      else s
  | None => s
  end.

(** The [try] block of [handleGenerate] from the point where
    [redesignRoom] has settled with [outcome], and its [catch] block. *)
Definition afterRedesign (E : AppEnv) (now : Z) (c : AppState)
    (outcome : result GeminiService.RedesignResult) (s : AppState) : AppState :=
  match
    (r <- outcome ;;
     blob <- fetchBlob (browser E) (GeminiService.finalImageUrl r) ;;
     Ok (r, mkFile ("generated-scene-" ++ toString now ++ ".jpeg") "image/jpeg" blob))
  with
  | Ok (r, newGeneratedFile) =>
      let s := addImageToHistory c newGeneratedFile s in
      let s := setSketchedImage None s in
      let s := setProductImage None s in
      let s := setBackgroundImage None s in
      let s := setPrompt "" s in
      let s := setDebugImageUrl (Some (GeminiService.debugImageUrl r)) s in
      setDebugPrompt (Some (GeminiService.finalPrompt r)) s
  | Err err =>
      setError (Some ("Failed to generate the image. " ++ errorMessage err)) s
  end.

Definition handleGenerate (E : AppEnv) (now : Z) (c : AppState) (s : AppState)
  : AppState :=
  match currentWorkingImage c, nonEmpty (prompt c), originalDimensions c with
  | Some imageToProcess, true, Some dims =>
      let s := setIsLoading true s in
      let s := setError None s in
      let s :=
        afterRedesign E now c
          (GeminiService.redesignRoom (browser E) imageToProcess
             (width dims) (height dims) (prompt c)
             (productImage c) (backgroundImage c)
             (truthy (sketchedImage c)))
          s in
      setIsLoading false s
  | _, _, _ =>
      setError
        (Some "Please upload an image of your property and provide a design prompt.") s
  end.

Definition handleRotateView (E : AppEnv) (now : Z) (c : AppState)
    (direction : GeminiService.Direction) (s : AppState) : AppState :=
  match currentWorkingImage c, originalDimensions c with
  | Some imageToRotate, Some dims =>
      let s := setIsLoading true s in
      let s := setError None s in
      let s :=
        match
          (finalImageUrl <- GeminiService.generateRotatedView (browser E) imageToRotate
                              (width dims) (height dims) direction ;;
           blob <- fetchBlob (browser E) finalImageUrl ;;
           Ok (mkFile ("rotated-scene-" ++ toString now ++ ".jpeg") "image/jpeg" blob))
        with
        | Ok newRotatedFile => addImageToHistory c newRotatedFile s
        | Err err =>
            setError
              (Some ("Failed to generate the rotated view. " ++ errorMessage err)) s
        end in
      setIsLoading false s
  | _, _ => setError (Some "An image must be present to create a rotated view.") s
  end.

Definition handleRevertToOriginal (c : AppState) (s : AppState) : AppState :=
  let s := setHistory [] s in
  let s := setHistoryIndex (-1) s in
  let s := setSketchedImage None s in
  match activeSessionId c with
  | Some active =>
      if nonEmpty active then
        setSessions
          (map (fun x =>
                  if String.eqb (id x) active
                  then mkSession (id x) (name x) (timestamp x) (thumbnail x)
                                 (Types.sceneImage x) (Types.originalDimensions x)
                                 []
                  else x)
               (sessions s))
          s
      else s
  | None => s
  end.

(** A failed [fetch] rejects the handler's promise and nothing is set. *)
Definition handleSaveSketch (E : AppEnv) (now : Z) (dataUrl : string) (s : AppState)
  : AppState :=
  match fetchBlob (browser E) dataUrl with
  | Ok blob =>
      setSketchedImage
        (Some (mkFile ("sketch-" ++ toString now ++ ".png") "image/png" blob)) s
  | Err _ => s
  end.

Definition handleSaveCanvasEdit (E : AppEnv) (c : AppState) (newFile : File)
    (s : AppState) : AppState :=
  match getImageDimensions E newFile with
  | Ok dimensions =>
      let s := setSceneImage (Some newFile) s in
      let s := setOriginalDimensions (Some dimensions) s in
      let s := setSketchedImage None s in
      let s := setHistory [] s in
      let s := setHistoryIndex (-1) s in
      match activeSessionId c with
      | Some active =>
          if nonEmpty active then
            setSessions
              (map (fun x =>
                      if String.eqb (id x) active
                      then mkSession (id x) (name x) (timestamp x) (thumbnail x)
                                     newFile dimensions []
                      else x)
                   (sessions s))
              s
          else s
      | None => s
      end
  | Err e => setError (Some "Failed to process edited image.") s
  end.

Definition handleUndo (c : AppState) (s : AppState) : AppState :=
  if (historyIndex c >=? 0)%Z then setHistoryIndex (historyIndex c - 1) s else s.

Definition handleRedo (c : AppState) (s : AppState) : AppState :=
  if (historyIndex c <? len (history c) - 1)%Z
  then setHistoryIndex (historyIndex c + 1) s
  else s.

Definition handleRemoveSketch (s : AppState) : AppState := setSketchedImage None s.
Definition handleRemoveProduct (s : AppState) : AppState := setProductImage None s.
Definition handleRemoveBackground (s : AppState) : AppState := setBackgroundImage None s.

Definition handleAddCustomProduct (file : File) (s : AppState) : AppState :=
  setProductImage (Some file) s.

Definition handleAddCustomBackground (file : File) (s : AppState) : AppState :=
  setBackgroundImage (Some file) s.

(** The [then] of [loadSessionsFromDB()] in the mount effect. A rejected
    load has no handler. *)
Definition sessionsLoaded (c : AppState) (loaded : result (list DesignSession))
    (s : AppState) : AppState :=
  match loaded with
  | Ok loadedSessions =>
      let s := setSessions loadedSessions s in
      match loadedSessions with
      | first :: _ => handleSelectSession c (id first) s
      | [] => s
      end
  | Err _ => s
  end.

(** ** The component as a transition system *)

Inductive Event : Type :=
| SessionsLoaded (idb : StorageService.IndexedDB)
| NewProject
| SelectSession (sessionId : string)
| DeleteSession (sessionId : string)
| SceneImageUpload (file : File) (nowId nowTimestamp : Z)
| InstantStart (nowId nowTimestamp : Z)
| PromptChange (value : string)
| Generate (now : Z)
| RotateView (direction : GeminiService.Direction) (now : Z)
| RevertToOriginal
| SaveSketch (dataUrl : string) (now : Z)
| SaveCanvasEdit (newFile : File)
| Undo
| Redo
| RemoveSketch
| RemoveProduct
| RemoveBackground
| AddCustomProduct (file : File)
| AddCustomBackground (file : File).

(** The handler of an event, created in render [c], run on state [s]. *)
Definition dispatch (E : AppEnv) (ev : Event) (c : AppState) (s : AppState)
  : AppState :=
  match ev with
  | SessionsLoaded idb => sessionsLoaded c (StorageService.loadSessionsFromDB idb) s
  | NewProject => handleNewProject s
  | SelectSession sessionId => handleSelectSession c sessionId s
  | DeleteSession sessionId => handleDeleteSession c sessionId s
  | SceneImageUpload file nowId nowTimestamp =>
      handleSceneImageUpload E nowId nowTimestamp c file s
  | InstantStart nowId nowTimestamp => handleInstantStart E nowId nowTimestamp c s
  | PromptChange value => setPrompt value s
  | Generate now => handleGenerate E now c s
  | RotateView direction now => handleRotateView E now c direction s
  | RevertToOriginal => handleRevertToOriginal c s
  | SaveSketch dataUrl now => handleSaveSketch E now dataUrl s
  | SaveCanvasEdit newFile => handleSaveCanvasEdit E c newFile s
  | Undo => handleUndo c s
  | Redo => handleRedo c s
  | RemoveSketch => handleRemoveSketch s
  | RemoveProduct => handleRemoveProduct s
  | RemoveBackground => handleRemoveBackground s
  | AddCustomProduct file => handleAddCustomProduct file s
  | AddCustomBackground file => handleAddCustomBackground file s
  end.

(** [handleUndo] and [handleRedo] are created anew in every render and run
    at once, so they always see the current state. The other handlers are
    memoised ([useCallback]) or finish after an [await], and may act on the
    current state with values captured in an earlier render. *)
Definition seesCurrentRender (ev : Event) : bool :=
  match ev with
  | Undo | Redo => true
  | _ => false
  end.

Inductive reachable : AppState -> Prop :=
| reach_initial : reachable initialState
| reach_current (E : AppEnv) (ev : Event) (s : AppState) :
    reachable s -> reachable (dispatch E ev s s)
| reach_captured (E : AppEnv) (ev : Event) (c s : AppState) :
    seesCurrentRender ev = false ->
    reachable c -> reachable s -> reachable (dispatch E ev c s).

End App.

(** ** A concrete browser, for running the model *)

Module Demo.

Import Browser Types App.

Definition sceneFile : File := mkFile "house.png" "image/png" "SE9VU0U=".
Definition sketchFile : File := mkFile "sketch-7.png" "image/png" "U0tFVENI".
Definition productFile : File := mkFile "bench.png" "image/png" "QkVOQ0g=".
Definition backgroundFile : File := mkFile "beach.jpeg" "image/jpeg" "QkVBQ0g=".
Definition fileA : File := mkFile "a.jpeg" "image/jpeg" "QQ==".
Definition fileB : File := mkFile "b.jpeg" "image/jpeg" "Qg==".
Definition fileC : File := mkFile "c.jpeg" "image/jpeg" "Qw==".
Definition fileD : File := mkFile "d.jpeg" "image/jpeg" "RA==".

(** A response that carries one inline image after a text part. *)
Definition imageResponse : GenerateContentResponse :=
  mkResponse (Some [mkCandidate (Some (mkContent (Some
    [mkResponsePart None (Some "Here is the edit.");
     mkResponsePart (Some (mkInlineData "image/png" "R0VORVJBVEVE")) None])))]).

(** A response whose only part is text. *)
Definition textResponse : GenerateContentResponse :=
  mkResponse (Some [mkCandidate (Some (mkContent (Some
    [mkResponsePart None (Some "I cannot edit this image.")])))]).

(** A browser in which every read, decode and encode succeeds and the
    model answers with [response]. *)
Definition browserAnswering (response : GenerateContentResponse) : Env :=
  mkEnv (fun file => Ok ("data:" ++ file_type file ++ ";base64," ++ file_bits file))
        (fun url => Ok (Canvas.mkImage url 512 256))
        true
        (fun _ _ _ => Some "U1FVQVJF")
        (fun _ _ _ => "data:image/jpeg;base64,Q1JPUFBFRA==")
        (fun _ _ => Ok response)
        (fun _ => Ok (true, "RkVUQ0hFRA==")).

Definition dims512 : Dimensions := mkDimensions 512%float 256%float.

Definition envAnswering (response : GenerateContentResponse) : AppEnv :=
  mkAppEnv (browserAnswering response) (fun _ => Ok dims512).

Definition demoEnv : AppEnv := envAnswering imageResponse.
Definition silentEnv : AppEnv := envAnswering textResponse.

(** A working state with the scene loaded, three generated images and the
    cursor on the last. *)
Definition threeEdits : AppState :=
  mkState [] None (Some sceneFile) None None None [fileA; fileB; fileC] 2 ""
          (Some dims512) false None None None.

(** After an upload at clock reading 1000, a prompt and one generation. *)
Definition afterOneEdit : AppState :=
  let s0 := initialState in
  let s1 := dispatch demoEnv (SceneImageUpload sceneFile 1000 1000) s0 s0 in
  let s2 := dispatch demoEnv (PromptChange "Add a pool") s1 s1 in
  dispatch demoEnv (Generate 2000) s2 s2.

(** A session with a sketch drawn and a product and a background chosen. *)
Definition sketching : AppState :=
  let s0 := initialState in
  let s1 := dispatch demoEnv (SceneImageUpload sceneFile 1000 1000) s0 s0 in
  let s2 := dispatch demoEnv (SaveSketch "data:image/png;base64,U0tFVENI" 7) s1 s1 in
  let s3 := dispatch demoEnv (AddCustomProduct productFile) s2 s2 in
  dispatch demoEnv (AddCustomBackground backgroundFile) s3 s3.

(** The same with a prompt typed in. *)
Definition prompted : AppState :=
  dispatch demoEnv (PromptChange "Add a pool") sketching sketching.

(** Two uploads at the same clock reading, with a new project started in
    between. *)
Definition twoUploads : AppState :=
  let s0 := initialState in
  let s1 := dispatch demoEnv (SceneImageUpload sceneFile 1000 1000) s0 s0 in
  let s2 := dispatch demoEnv NewProject s1 s1 in
  dispatch demoEnv (SceneImageUpload backgroundFile 1000 1000) s2 s2.

(** A browser whose IndexedDB cannot be opened. *)
Definition brokenStore : StorageService.IndexedDB :=
  StorageService.mkIndexedDB true
    (fun _ _ => Err (JsOther "UnknownError: Internal error opening backing store.")).

End Demo.

(** ** The properties stated about the model *)

Module Properties.

Import Browser Types App.

(** The cursor is within [-1, length - 1]. *)
Definition cursorInBounds (s : AppState) : Prop :=
  (-1 <= historyIndex s <= len (history s) - 1)%Z.

(** How a handler may leave the pair of history and cursor: untouched, or
    set together to a list and its last index. *)
Definition historyStep (s s' : AppState) : Prop :=
  (history s' = history s /\ historyIndex s' = historyIndex s) \/
  historyIndex s' = (len (history s') - 1)%Z.

(** The content rectangle of an image in the 1024 square: the whole width
    and a centred band for a landscape image, the whole height and a
    centred column otherwise. *)
Definition contentRect (img : Canvas.Image) : Canvas.Rect :=
  let aspectRatio :=
    (Canvas.toNumber (Canvas.width img) / Canvas.toNumber (Canvas.height img))%float in
  if (1 <? aspectRatio)%float
  then Canvas.mkRect 0%float ((1024 - 1024 / aspectRatio) / 2)%float
                     1024%float (1024 / aspectRatio)%float
  else Canvas.mkRect ((1024 - 1024 * aspectRatio) / 2)%float 0%float
                     (1024 * aspectRatio)%float 1024%float.

(** Nothing was appended: history, cursor and the session list are as
    before. *)
Definition nothingAppended (s s' : AppState) : Prop :=
  history s' = history s /\
  historyIndex s' = historyIndex s /\
  sessions s' = sessions s.

(** [block] occurs in [text]. *)
Definition contains (block text : string) : Prop :=
  exists pre post : string, text = pre ++ block ++ post.

Definition isImagePart (p : Part) : bool :=
  match p with
  | InlineDataPart _ _ => true
  | TextPart _ => false
  end.

(** The image parts of a request, in order. *)
Definition imageParts (ps : list Part) : list Part := filter isImagePart ps.

(** All content parts of a response, over all its candidates. *)
Definition responseParts (response : GenerateContentResponse) : list ResponsePart :=
  match candidates response with
  | Some cs =>
      flat_map (fun candidate =>
                  match content candidate with
                  | Some c => match parts c with Some ps => ps | None => [] end
                  | None => []
                  end)
               cs
  | None => []
  end.

(** How many content parts of a response carry inline image data. *)
Definition inlineImageCount (response : GenerateContentResponse) : nat :=
  List.length (filter (fun part => truthy (inlineData part)) (responseParts response)).

(** The part an optional auxiliary image contributes to a request. *)
Definition auxiliaryPart (B : Env) (image : option File) : result (list Part) :=
  match image with
  | Some file => p <- GeminiService.fileToPart B file ;; Ok [p]
  | None => Ok []
  end.

(** The text [redesignRoom] composes, by which optional inputs are
    present. *)
Definition redesignPrompt (userPrompt : string) (isSketched hasProduct hasBackground : bool)
  : string :=
  let prompt := GeminiService.promptBase userPrompt in
  let prompt := if isSketched then prompt ++ GeminiService.sketchBlock else prompt in
  let prompt := if hasProduct then prompt ++ GeminiService.productBlock else prompt in
  let prompt :=
    if hasBackground then prompt ++ GeminiService.backgroundBlock userPrompt
    else prompt in
  prompt ++ GeminiService.finalBlock.

(** How [handleSaveCanvasEdit] rewrites one stored session. *)
Definition rebased (active : option string) (newFile : File) (dimensions : Dimensions)
    (x x' : DesignSession) : Prop :=
  id x' = id x /\ name x' = name x /\
  timestamp x' = timestamp x /\ thumbnail x' = thumbnail x /\
  if truthyString active && isActive active (id x)
  then Types.sceneImage x' = newFile /\
       Types.originalDimensions x' = dimensions /\
       generations x' = []
  else x' = x.

(** The session ids of a state, in list order. *)
Definition sessionIds (s : AppState) : list string := map id (sessions s).

End Properties.

(** ** Further notions used to state what the code does *)

Module Coverage.

Import Browser Types App.

(** The object store [sessions] is created with [keyPath: 'id']: a record is
    kept under its id, [put] replaces the record that has the same id and
    [clear] removes every record. The list is the store's content. *)
Definition applyOp (store : list DesignSession) (op : StorageService.StoreOp)
  : list DesignSession :=
  match op with
  | StorageService.Clear => []
  | StorageService.Put session =>
      (filter (fun x => negb (String.eqb (id x) (id session))) store ++ [session])%list
  end.

Definition replay (ops : list StorageService.StoreOp) (store : list DesignSession)
  : list DesignSession :=
  fold_left applyOp ops store.

(** Newest first: timestamps never increase along the list. *)
Definition newestFirst (l : list DesignSession) : Prop :=
  Sorted.StronglySorted (fun a b => (timestamp b <= timestamp a)%Z) l.

(** Strictly newest first: timestamps decrease along the list. *)
Definition strictlyNewestFirst (l : list DesignSession) : Prop :=
  Sorted.StronglySorted (fun a b => (timestamp b < timestamp a)%Z) l.

(** Every character of a string passes a test. *)
Fixpoint allChars (f : ascii -> bool) (s : string) : bool :=
  match s with
  | EmptyString => true
  | String c r => f c && allChars f r
  end.

Definition isComma (c : ascii) : bool := Ascii.eqb c ","%char.

Definition noComma (c : ascii) : bool := negb (isComma c).

(** A character that may stand in the MIME type of a data URL header as
    [fileToPart] reads it: no comma, no semicolon, no line break. *)
Definition mimeChar (c : ascii) : bool :=
  negb (Ascii.eqb c ","%char) && negb (Ascii.eqb c ";"%char)
  && negb (Ascii.eqb c (ascii_of_nat 10)) && negb (Ascii.eqb c (ascii_of_nat 13)).

(** The data URL of a payload of a given MIME type. *)
Definition dataUrl (mime payload : string) : string :=
  "data:" ++ mime ++ ";base64," ++ payload.

(** [p] is a prefix of [s]: what follows it. *)
Fixpoint dropPrefix (p s : string) : option string :=
  match p, s with
  | EmptyString, _ => Some s
  | String a p', String b s' => if Ascii.eqb a b then dropPrefix p' s' else None
  | String _ _, EmptyString => None
  end.

(** The first occurrence of [block] in [s]: what stands before and after. *)
Fixpoint splitAt (block s : string) : option (string * string) :=
  match dropPrefix block s with
  | Some post => Some (EmptyString, post)
  | None =>
      match s with
      | EmptyString => None
      | String c s' =>
          match splitAt block s' with
          | Some (pre, post) => Some (String c pre, post)
          | None => None
          end
      end
  end.

(** The parts of the first candidate of a response, which is all that
    [imagePartFromResponse] looks at. *)
Definition firstCandidateParts (response : GenerateContentResponse) : list ResponsePart :=
  match candidates response with
  | Some (candidate :: _) =>
      match content candidate with
      | Some c => match parts c with Some ps => ps | None => [] end
      | None => []
      end
  | _ => []
  end.

(** ** Memoised handlers and the runs of the component *)

(** The mount effect is the only place that runs [sessionsLoaded], once and
    with the first render's closure. *)
Definition isMount (ev : Event) : bool :=
  match ev with
  | SessionsLoaded _ => true
  | _ => false
  end.

(** The dependency lists of the two memoised generation handlers:
    [handleRotateView] lists [currentWorkingImage], [originalDimensions] and
    [activeSessionId], but neither [history] nor [historyIndex], which
    [addImageToHistory] reads; [handleGenerate] lists them. *)
Definition rotateViewDeps (s : AppState)
  : option File * option Dimensions * option string :=
  (currentWorkingImage s, originalDimensions s, activeSessionId s).

Definition generateDeps (s : AppState)
  : option File * string * option File * option File * option Dimensions
    * list File * Z * option string :=
  (currentWorkingImage s, prompt s, productImage s, backgroundImage s,
   originalDimensions s, history s, historyIndex s, activeSessionId s).

(** Which render a handler's values come from. [useCallback(f, deps)] hands
    out the [f] of an earlier render for as long as the values listed in
    [deps] stay the same, so in render [s] the handler of [ev] can be the
    one created in a render [c] only if [c] and [s] agree on that list
    (equal objects have equal contents); nothing more is asked of [c]. A
    handler that is not memoised is the one of the current render. The
    handlers for which nothing is asked read no value of their render:
    they only call setters. [handleDeleteSession] also lists the two
    handlers it calls, of which [handleSelectSession] changes only with
    [sessions]; the mount effect runs once, with the first render. *)
Definition closureOf (ev : Event) (c s : AppState) : Prop :=
  match ev with
  | SessionsLoaded _ => c = initialState
  | SelectSession _ | InstantStart _ _ => sessions c = sessions s
  | DeleteSession _ =>
      activeSessionId c = activeSessionId s /\ sessions c = sessions s
  | Generate _ => generateDeps c = generateDeps s
  | RotateView _ _ => rotateViewDeps c = rotateViewDeps s
  | RevertToOriginal => activeSessionId c = activeSessionId s
  | SceneImageUpload _ _ _ | SaveCanvasEdit _ | Undo | Redo => c = s
  | NewProject | PromptChange _ | SaveSketch _ _
  | RemoveSketch | RemoveProduct | RemoveBackground
  | AddCustomProduct _ | AddCustomBackground _ => True
  end.

(** The states of the component when the stored sessions are installed
    before the first event and the events are handled one at a time, each
    handler finishing before the next event: the mount effect, then any
    event whose handler comes from a render that [useCallback] can have
    kept. *)
Inductive run : AppState -> Prop :=
| run_mount (loaded : result (list DesignSession)) :
    run (sessionsLoaded initialState loaded initialState)
| run_step (E : AppEnv) (ev : Event) (c s : AppState) :
    isMount ev = false -> closureOf ev c s -> run s -> run (dispatch E ev c s).

(** An upload at clock reading 1000, three rotations at 2000, 3000 and
    4000, then a sketch: the render in which [handleRotateView] is created
    anew, with three images in the history and the cursor on the last. *)
Definition sketchedAfterThree : AppState :=
  let s0 := initialState in
  let s1 := dispatch Demo.demoEnv (SceneImageUpload Demo.sceneFile 1000 1000) s0 s0 in
  let s2 := dispatch Demo.demoEnv (RotateView GeminiService.right 2000) s1 s1 in
  let s3 := dispatch Demo.demoEnv (RotateView GeminiService.right 3000) s2 s2 in
  let s4 := dispatch Demo.demoEnv (RotateView GeminiService.right 4000) s3 s3 in
  dispatch Demo.demoEnv (SaveSketch "data:image/png;base64,U0tFVENI" 5000) s4 s4.

(** Two undos in that session. *)
Definition undoneTwice : AppState :=
  let s1 := dispatch Demo.demoEnv Undo sketchedAfterThree sketchedAfterThree in
  dispatch Demo.demoEnv Undo s1 s1.

(** The rotation that follows: its handler is still the one of the render
    in which the sketch was saved. *)
Definition rotatedAfterUndo : AppState :=
  dispatch Demo.demoEnv (RotateView GeminiService.left 9000)
           sketchedAfterThree undoneTwice.

(** The files the concrete browser makes of a rotation at clock reading
    [now]. *)
Definition rotatedFile (now : Z) : File :=
  mkFile ("rotated-scene-" ++ toString now ++ ".jpeg") "image/jpeg" "RkVUQ0hFRA==".

(** A sketch saved on a fresh upload, a rotation, and a second rotation
    whose handler is still the one of the render with the sketch and no
    history. *)
Definition rotatedTwiceOverSketch : AppState :=
  let s0 := initialState in
  let s1 := dispatch Demo.demoEnv (SceneImageUpload Demo.sceneFile 1000 1000) s0 s0 in
  let s2 := dispatch Demo.demoEnv (SaveSketch "data:image/png;base64,U0tFVENI" 7) s1 s1 in
  let s3 := dispatch Demo.demoEnv (RotateView GeminiService.right 2000) s2 s2 in
  dispatch Demo.demoEnv (RotateView GeminiService.right 3000) s2 s3.

(** What is stored for the active session is what undo and redo walk
    through: some session with the active id holds the working history as its
    generations. An empty id counts as no active session, as in the
    handlers' [if (activeSessionId)]. *)
Definition storedMatchesHistory (s : AppState) : Prop :=
  match activeSessionId s with
  | Some active =>
      nonEmpty active = true ->
      exists x, In x (sessions s) /\ id x = active /\ generations x = history s
  | None => True
  end.

(** A store that opens and holds [stored], read back in that order. *)
Definition storeHolding (stored : list DesignSession) : StorageService.IndexedDB :=
  StorageService.mkIndexedDB true
    (fun _ _ => Ok (StorageService.mkDatabase
       (fun _ _ => Ok (StorageService.mkTransaction (Ok (Some stored))
                                                    (fun _ => Ok tt))))).

(** Three sessions created at the clock readings 1000, 2000 and 3000,
    newest first as [App] keeps them. *)
Definition threeSessions : list DesignSession :=
  [mkSession "3000" "Design 3" 3000 "" Demo.fileC Demo.dims512 [];
   mkSession "2000" "Design 2" 2000 "" Demo.fileB Demo.dims512 [Demo.fileD];
   mkSession "1000" "Design 1" 1000 "" Demo.fileA Demo.dims512 []].

(** A response whose first candidate is text only and whose second
    candidate carries an inline image. *)
Definition lateImageResponse : GenerateContentResponse :=
  mkResponse (Some
    [mkCandidate (Some (mkContent (Some
       [mkResponsePart None (Some "Option one is described in words.")])));
     mkCandidate (Some (mkContent (Some
       [mkResponsePart (Some (mkInlineData "image/png" "U0VDT05E")) None])))]).

(** The request built in the concrete browser for a sketched scene with a
    background image and no product image. *)
Definition backgroundOnlyRequest : GeminiService.RedesignRequest :=
  let t := GeminiService.promptBase "Add a pool" ++ GeminiService.sketchBlock
           ++ GeminiService.backgroundBlock "Add a pool" ++ GeminiService.finalBlock in
  GeminiService.mkRequest "data:image/jpeg;base64,U1FVQVJF"
    [InlineDataPart "image/jpeg" "U1FVQVJF";
     InlineDataPart "image/jpeg" "QkVBQ0g=";
     TextPart t] t.

(** The phrase by which the background block names the background image. *)
Definition thirdImagePhrase : string := "**Background Image (third image provided):**".

(** A sketch saved on top of a generated image. *)
Definition sketchOverEdit : AppState :=
  dispatch Demo.demoEnv (SaveSketch "data:image/png;base64,U0tFVENI" 9)
           Demo.afterOneEdit Demo.afterOneEdit.

(** What [handleGenerate] and [handleRotateView] show when their inputs are
    missing. *)
Definition generateGuardMessage : string :=
  "Please upload an image of your property and provide a design prompt.".

Definition rotateGuardMessage : string :=
  "An image must be present to create a rotated view.".

(** The working slots that one request consumes. *)
Definition inputsCleared (s : AppState) : Prop :=
  sketchedImage s = None /\ productImage s = None /\
  backgroundImage s = None /\ prompt s = "".

End Coverage.

(** ** The model on small inputs *)

Module ModelChecks.

Import Canvas Geometry Browser Types App GeminiService.

Example slice0_prefix : slice0 [1; 2; 3]%Z 1 = [1]%Z.
Proof. reflexivity. Qed.

Example slice0_zero : slice0 [1; 2; 3]%Z 0 = [].
Proof. reflexivity. Qed.

Example slice0_negative : slice0 [1; 2; 3]%Z (-1) = [1; 2]%Z.
Proof. reflexivity. Qed.

Example slice0_beyond : slice0 [1; 2; 3]%Z 7 = [1; 2; 3]%Z.
Proof. reflexivity. Qed.

Example at_index_cursor : at_index [1; 2; 3]%Z (-1) = None /\ at_index [1; 2; 3]%Z 2 = Some 3%Z.
Proof. split; reflexivity. Qed.

Example truncate_fraction : truncate 682.5%float = 682%Z.
Proof. vm_compute. reflexivity. Qed.

Example truncate_nan : truncate (0 / 0)%float = 0%Z.
Proof. vm_compute. reflexivity. Qed.

Example splitComma_dataUrl :
  splitComma "data:image/png;base64,AAAA" = ["data:image/png;base64"; "AAAA"].
Proof. reflexivity. Qed.

Example splitComma_none : splitComma "AAAA" = ["AAAA"].
Proof. reflexivity. Qed.

Example matchMime_dataUrl : matchMime "data:image/png;base64" = Some "image/png".
Proof. reflexivity. Qed.

Example matchMime_missing : matchMime "data;image/png" = None.
Proof. reflexivity. Qed.

Example toString_reading : App.toString 1700000000000 = "1700000000000".
Proof. reflexivity. Qed.

Example toString_zero : App.toString 0 = "0".
Proof. reflexivity. Qed.

Example fileToPart_scene :
  fileToPart (browser Demo.demoEnv) Demo.sceneFile
  = Ok (InlineDataPart "image/png" "SE9VU0U=").
Proof. reflexivity. Qed.

Example resizeCanvas_landscape :
  resizeCanvas (mkImage "u" 800 600) MAX_DIMENSION
  = mkCanvas 1024 1024
      [FillRect "black" (mkRect 0 0 1024 1024);
       DrawImage (mkImage "u" 800 600) (mkRect 0 128 1024 768)]%float.
Proof. vm_compute. reflexivity. Qed.

Example resizeCanvas_portrait :
  resizeCanvas (mkImage "u" 600 800) MAX_DIMENSION
  = mkCanvas 1024 1024
      [FillRect "black" (mkRect 0 0 1024 1024);
       DrawImage (mkImage "u" 600 800) (mkRect 128 0 768 1024)]%float.
Proof. vm_compute. reflexivity. Qed.

Example sortNewestFirst_stable :
  map id (StorageService.sortNewestFirst
            [mkSession "a" "" 1 "" Demo.fileA Demo.dims512 [];
             mkSession "b" "" 3 "" Demo.fileA Demo.dims512 [];
             mkSession "c" "" 1 "" Demo.fileA Demo.dims512 [];
             mkSession "d" "" 2 "" Demo.fileA Demo.dims512 []])
  = ["b"; "d"; "a"; "c"].
Proof. reflexivity. Qed.

Example generate_appends :
  map file_name (history Demo.afterOneEdit) = ["generated-scene-2000.jpeg"] /\
  historyIndex Demo.afterOneEdit = 0%Z /\
  sketchedImage Demo.afterOneEdit = None.
Proof. repeat split; vm_compute; reflexivity. Qed.

End ModelChecks.

(** ** Round trip of the geometry *)

Module GeometryFacts.

Import Canvas Geometry Properties.

(** C1, as stated, fails: a 512 x 256 image fits the 1024 square, and the
    restored canvas is 1024 x 512, not 512 x 256. *)
Lemma roundTrip_size_counterexample :
  let img := mkImage "data:image/png;base64,AAAA" 512 256 in
  let out := roundTrip "data:image/jpeg;base64,BBBB" img MAX_DIMENSION in
  (Z.max (width img) (height img) <= 1024)%Z /\
  cwidth out = 1024%Z /\ cheight out = 512%Z /\
  ~ (cwidth out = width img /\ cheight out = height img).
Proof.
  cbv zeta. repeat split; try (vm_compute; congruence).
  intros [H _]. vm_compute in H. congruence.
Qed.

(** C1, amended: for every image and the square edge 1024, the square
    canvas of [resizeImage] is 1024 x 1024 and holds the image in its
    content rectangle; the crop of [cropToOriginalAspectRatio] reads
    exactly that rectangle (so no padding is left) and draws it at the
    origin of a canvas whose pixel size is the rectangle's size truncated
    to integers. The longer edge of the result is 1024 (the width when
    [w / h > 1], the height otherwise): it has the original aspect ratio
    at the square's scale, not the original size. *)
Theorem roundTrip_geometry (url : string) (img : Image) :
  let r := contentRect img in
  let sq := resizeCanvas img MAX_DIMENSION in
  let out := roundTrip url img MAX_DIMENSION in
  (cwidth sq = 1024%Z /\ cheight sq = 1024%Z /\ lastDrawn sq = Some r) /\
  lastSource out = Some r /\
  lastDrawn out = Some (mkRect 0%float 0%float (rw r) (rh r)) /\
  cwidth out = toDimension defaultWidth (rw r) /\
  cheight out = toDimension defaultHeight (rh r) /\
  (if (1 <? toNumber (width img) / toNumber (height img))%float
   then cwidth out = 1024%Z else cheight out = 1024%Z).
Proof.
  cbv zeta. unfold roundTrip, cropCanvas, resizeCanvas, contentRect.
  destruct (1 <? toNumber (width img) / toNumber (height img))%float;
    cbn [lastDrawn lastSource ops last cwidth cheight rw rh];
    repeat split; reflexivity.
Qed.

End GeometryFacts.

(** ** The history stack *)

Module HistoryFacts.

Import Browser Types App Properties.
Local Open Scope Z_scope.

Lemma historyStep_bounds (s s' : AppState) :
  cursorInBounds s -> historyStep s s' -> cursorInBounds s'.
Proof.
  unfold cursorInBounds, historyStep, len.
  intros Hs [[Hh Hi] | Hi]; rewrite ?Hh, ?Hi; lia.
Qed.

Lemma historyStep_refl (s : AppState) : historyStep s s.
Proof. left; split; reflexivity. Qed.

Ltac break_match :=
  match goal with
  | |- context [match ?x with _ => _ end] => destruct x eqn:?
  end.

Ltac history_step :=
  repeat break_match;
  first [ left; split; reflexivity | right; reflexivity ].

Lemma handleSelectSession_step (c : AppState) (sessionId : string) (s : AppState) :
  historyStep s (handleSelectSession c sessionId s).
Proof. unfold handleSelectSession. history_step. Qed.

Lemma handleDeleteSession_step (c : AppState) (sessionId : string) (s : AppState) :
  historyStep s (handleDeleteSession c sessionId s).
Proof.
  unfold handleDeleteSession, handleSelectSession.
  generalize (filter (fun x => negb (String.eqb (id x) sessionId)) (sessions c)).
  intros l. history_step.
Qed.

Lemma addImageToHistory_cursor (c : AppState) (newImage : File) (s : AppState) :
  historyIndex (addImageToHistory c newImage s)
  = len (history (addImageToHistory c newImage s)) - 1.
Proof.
  unfold addImageToHistory.
  destruct (activeSessionId c) as [active | ]; [destruct (nonEmpty active) | ];
    reflexivity.
Qed.

Lemma addImageToHistory_history (c : AppState) (newImage : File) (s : AppState) :
  history (addImageToHistory c newImage s)
  = (slice0 (history c) (historyIndex c + 1) ++ [newImage])%list.
Proof.
  unfold addImageToHistory.
  destruct (activeSessionId c) as [active | ]; [destruct (nonEmpty active) | ];
    reflexivity.
Qed.

Lemma thumbnailOnload_step c file dimensions thumbnail nowId nowTimestamp s :
  historyStep s (thumbnailOnload c file dimensions thumbnail nowId nowTimestamp s).
Proof. right; reflexivity. Qed.

Lemma handleGenerate_step E now c s : historyStep s (handleGenerate E now c s).
Proof.
  unfold handleGenerate, afterRedesign.
  repeat break_match; try (left; split; reflexivity).
  right. cbn. apply addImageToHistory_cursor.
Qed.

Lemma handleRotateView_step E now c direction s :
  historyStep s (handleRotateView E now c direction s).
Proof.
  unfold handleRotateView.
  repeat break_match; try (left; split; reflexivity).
  right. cbn. apply addImageToHistory_cursor.
Qed.

Lemma dispatch_captured_step (E : AppEnv) (ev : Event) (c s : AppState) :
  seesCurrentRender ev = false -> historyStep s (dispatch E ev c s).
Proof.
  destruct ev; cbn [seesCurrentRender dispatch]; intros Hev; try discriminate;
    try (left; split; reflexivity).
  - unfold sessionsLoaded, handleSelectSession.
    generalize (StorageService.loadSessionsFromDB idb). intros loaded.
    history_step.
  - right; reflexivity.
  - apply handleSelectSession_step.
  - apply handleDeleteSession_step.
  - unfold handleSceneImageUpload. history_step.
  - unfold handleInstantStart. history_step.
  - apply handleGenerate_step.
  - apply handleRotateView_step.
  - unfold handleRevertToOriginal. history_step.
  - unfold handleSaveSketch. history_step.
  - unfold handleSaveCanvasEdit. history_step.
Qed.

Lemma handleUndo_bounds (s : AppState) :
  cursorInBounds s -> cursorInBounds (handleUndo s s).
Proof.
  unfold cursorInBounds, handleUndo.
  destruct (Z.geb_spec (historyIndex s) 0); cbn; lia.
Qed.

Lemma handleRedo_bounds (s : AppState) :
  cursorInBounds s -> cursorInBounds (handleRedo s s).
Proof.
  unfold cursorInBounds, handleRedo.
  destruct (Z.ltb_spec (historyIndex s) (len (history s) - 1)); cbn; lia.
Qed.

Lemma reachable_bounds (s : AppState) : reachable s -> cursorInBounds s.
Proof.
  induction 1 as [ | E ev s Hs IH | E ev c s Hev Hc IHc Hs IHs ].
  - unfold cursorInBounds; cbn; lia.
  - destruct (seesCurrentRender ev) eqn:Hev.
    + destruct ev; try discriminate; cbn [dispatch].
      * now apply handleUndo_bounds.
      * now apply handleRedo_bounds.
    + eapply historyStep_bounds; [exact IH | now apply dispatch_captured_step].
  - eapply historyStep_bounds; [exact IHs | now apply dispatch_captured_step].
Qed.

(** C7. In every reachable state the cursor is within [-1, length - 1];
    there, undo does nothing when the cursor is -1 and otherwise moves it
    down by one, redo does nothing when the cursor is the last index and
    otherwise moves it up by one, and both leave it within bounds. *)
Theorem cursor_bounds (s : AppState) :
  reachable s ->
  cursorInBounds s /\
  (historyIndex s = -1 -> handleUndo s s = s) /\
  (historyIndex s <> -1 ->
     handleUndo s s = setHistoryIndex (historyIndex s - 1) s) /\
  (historyIndex s = len (history s) - 1 -> handleRedo s s = s) /\
  (historyIndex s <> len (history s) - 1 ->
     handleRedo s s = setHistoryIndex (historyIndex s + 1) s) /\
  cursorInBounds (handleUndo s s) /\
  cursorInBounds (handleRedo s s).
Proof.
  intros Hr. pose proof (reachable_bounds s Hr) as Hb.
  split; [exact Hb | ].
  repeat match goal with |- _ /\ _ => split end;
    try (now apply handleUndo_bounds); try (now apply handleRedo_bounds);
    unfold cursorInBounds in Hb; unfold handleUndo, handleRedo; intros H.
  - rewrite H. reflexivity.
  - destruct (Z.geb_spec (historyIndex s) 0); [reflexivity | exfalso; lia].
  - destruct (Z.ltb_spec (historyIndex s) (len (history s) - 1));
      [exfalso; lia | reflexivity].
  - destruct (Z.ltb_spec (historyIndex s) (len (history s) - 1));
      [reflexivity | exfalso; lia].
Qed.

Lemma afterOneEdit_reachable : reachable Demo.afterOneEdit.
Proof.
  unfold Demo.afterOneEdit. cbv zeta.
  repeat apply reach_current. apply reach_initial.
Defined.

Lemma cursor_bounds_witness :
  cursorInBounds Demo.afterOneEdit /\
  handleUndo Demo.afterOneEdit Demo.afterOneEdit
  = setHistoryIndex (-1) Demo.afterOneEdit /\
  handleRedo Demo.afterOneEdit Demo.afterOneEdit = Demo.afterOneEdit.
Proof.
  pose proof (cursor_bounds Demo.afterOneEdit afterOneEdit_reachable) as H.
  destruct H as [Hb [_ [Hu [Hr _]]]].
  split; [exact Hb | split].
  - apply Hu. vm_compute. discriminate.
  - apply Hr. vm_compute. reflexivity.
Defined.

End HistoryFacts.

(** ** Appending through a handler that [useCallback] kept *)

Module ClosureFacts.

Import Browser Types App Properties Coverage.
Local Open Scope Z_scope.

(** A rotation that succeeds appends to the history of the render its
    handler was created in. *)
Lemma handleRotateView_appends (E : AppEnv) (now : Z) (c : AppState)
    (direction : GeminiService.Direction) (s : AppState)
    (image : File) (dims : Dimensions) (url blob : string) :
  currentWorkingImage c = Some image ->
  originalDimensions c = Some dims ->
  GeminiService.generateRotatedView (browser E) image (width dims) (height dims)
                                    direction = Ok url ->
  fetchBlob (browser E) url = Ok blob ->
  let rotated :=
    mkFile ("rotated-scene-" ++ toString now ++ ".jpeg") "image/jpeg" blob in
  history (handleRotateView E now c direction s)
  = (slice0 (history c) (historyIndex c + 1) ++ [rotated])%list /\
  historyIndex (handleRotateView E now c direction s)
  = len (slice0 (history c) (historyIndex c + 1) ++ [rotated])%list - 1.
Proof.
  intros Hw Hd Hg Hf. cbv zeta. unfold handleRotateView.
  rewrite Hw, Hd, Hg. cbn [bind]. rewrite Hf. cbn [bind].
  cbn [history historyIndex setIsLoading].
  rewrite HistoryFacts.addImageToHistory_cursor, HistoryFacts.addImageToHistory_history.
  split; reflexivity.
Qed.

Lemma sketchedAfterThree_run : run sketchedAfterThree.
Proof.
  unfold sketchedAfterThree. cbv zeta.
  apply run_step; [reflexivity | exact I | ].
  do 3 (apply run_step; [reflexivity | reflexivity | ]).
  apply run_step; [reflexivity | reflexivity | ].
  exact (run_mount (Ok [])).
Qed.

Lemma undoneTwice_run : run undoneTwice.
Proof.
  unfold undoneTwice. cbv zeta.
  do 2 (apply run_step; [reflexivity | reflexivity | ]).
  exact sketchedAfterThree_run.
Qed.

(** C2 fails for a rotation made while a sketch is in place. Take a render
    with history [A; B; C], the cursor at 2 and a sketch. Two undos bring
    the cursor to 0 and change nothing that [handleRotateView] lists as a
    dependency (the working image is the sketch throughout), so the
    handler in use is still the one of that render; a successful rotation
    then appends to the history and cursor it captured and gives
    [A; B; C; D] with the cursor at 3: [B] and [C] are kept. A handler
    created in the current render would give [A; D] and cursor 1. The
    second part is such a run of the component in the concrete browser:
    an upload, three rotations, a sketch (the render in which the handler
    is created), two undos and a rotation leave four images in the
    history and in the active session's stored generations. *)
Theorem stale_rotation_keeps_redo_tail :
  (forall (E : AppEnv) (now : Z) (direction : GeminiService.Direction)
          (A B C sketch : File) (dims : Dimensions) (url blob : string)
          (s : AppState),
      history s = [A; B; C] ->
      historyIndex s = 2 ->
      sketchedImage s = Some sketch ->
      originalDimensions s = Some dims ->
      GeminiService.generateRotatedView (browser E) sketch (width dims) (height dims)
                                        direction = Ok url ->
      fetchBlob (browser E) url = Ok blob ->
      let s1 := handleUndo s s in
      let s2 := handleUndo s1 s1 in
      let D := mkFile ("rotated-scene-" ++ toString now ++ ".jpeg") "image/jpeg" blob in
      let kept := handleRotateView E now s direction s2 in
      let fresh := handleRotateView E now s2 direction s2 in
      (history s2 = [A; B; C] /\ historyIndex s2 = 0) /\
      closureOf (RotateView direction now) s s2 /\
      (history kept = [A; B; C; D] /\ historyIndex kept = 3) /\
      (history fresh = [A; D] /\ historyIndex fresh = 1)) /\
  (run sketchedAfterThree /\
   history sketchedAfterThree = [rotatedFile 2000; rotatedFile 3000; rotatedFile 4000] /\
   historyIndex sketchedAfterThree = 2 /\
   run undoneTwice /\
   history undoneTwice = [rotatedFile 2000; rotatedFile 3000; rotatedFile 4000] /\
   historyIndex undoneTwice = 0 /\
   closureOf (RotateView GeminiService.left 9000) sketchedAfterThree undoneTwice /\
   run rotatedAfterUndo /\
   history rotatedAfterUndo
   = [rotatedFile 2000; rotatedFile 3000; rotatedFile 4000; rotatedFile 9000] /\
   historyIndex rotatedAfterUndo = 3 /\
   error rotatedAfterUndo = None /\
   map generations (sessions rotatedAfterUndo)
   = [[rotatedFile 2000; rotatedFile 3000; rotatedFile 4000; rotatedFile 9000]]).
Proof.
  split.
  - intros E now direction A B C sketch dims url blob s Hh Hi Hsk Hd Hg Hf.
    cbv zeta.
    assert (H1 : handleUndo s s = setHistoryIndex 1 s).
    { unfold handleUndo. rewrite Hi. reflexivity. }
    rewrite H1.
    assert (H2 : handleUndo (setHistoryIndex 1 s) (setHistoryIndex 1 s)
                 = setHistoryIndex 0 s).
    { reflexivity. }
    rewrite H2.
    assert (Hw : currentWorkingImage s = Some sketch).
    { unfold currentWorkingImage. rewrite Hsk. reflexivity. }
    assert (Hw0 : currentWorkingImage (setHistoryIndex 0 s) = Some sketch).
    { unfold currentWorkingImage. cbn [sketchedImage setHistoryIndex].
      rewrite Hsk. reflexivity. }
    split; [split; [exact Hh | reflexivity] | ].
    split.
    { cbn [closureOf]. unfold rotateViewDeps. rewrite Hw, Hw0. reflexivity. }
    split.
    + destruct (handleRotateView_appends E now s direction (setHistoryIndex 0 s)
                  sketch dims url blob Hw Hd Hg Hf) as [Ha Hb].
      rewrite Ha, Hb, Hh, Hi. split; reflexivity.
    + destruct (handleRotateView_appends E now (setHistoryIndex 0 s) direction
                  (setHistoryIndex 0 s) sketch dims url blob Hw0 Hd Hg Hf)
        as [Ha Hb].
      rewrite Ha, Hb. cbn [history historyIndex setHistoryIndex].
      rewrite Hh. split; reflexivity.
  - assert (Hc : closureOf (RotateView GeminiService.left 9000)
                           sketchedAfterThree undoneTwice).
    { cbn [closureOf]. vm_compute. reflexivity. }
    repeat match goal with |- _ /\ _ => split end;
      try exact sketchedAfterThree_run; try exact undoneTwice_run; try exact Hc;
      try (vm_compute; reflexivity).
    unfold rotatedAfterUndo.
    apply run_step; [reflexivity | exact Hc | exact undoneTwice_run].
Qed.

End ClosureFacts.



(** ** Requests to the model and its answers *)

Module RequestFacts.

Import Geometry Browser Types App Properties GeminiService.

Lemma append_assoc (a b c : string) : (a ++ b) ++ c = a ++ (b ++ c).
Proof. induction a as [ | x a IH]; cbn; [reflexivity | now rewrite IH]. Qed.

Lemma contains_middle (pre block post : string) :
  contains block ((pre ++ block) ++ post).
Proof. exists pre, post. apply append_assoc. Qed.

Lemma append_empty (a : string) : a ++ "" = a.
Proof. induction a as [ | x a IH]; cbn; [reflexivity | now rewrite IH]. Qed.

Lemma contains_end (pre block : string) : contains block (pre ++ block).
Proof. exists pre, "". now rewrite append_empty. Qed.

Lemma contains_append (block text post : string) :
  contains block text -> contains block (text ++ post).
Proof.
  intros [pre [post' ->]]. exists pre, (post' ++ post).
  now rewrite !append_assoc.
Qed.

Lemma fileToPart_image (B : Env) (file : File) (p : Part) :
  fileToPart B file = Ok p -> isImagePart p = true.
Proof.
  unfold fileToPart, bind.
  destruct (readAsDataURL B file) as [dataUrl | e]; [ | discriminate].
  destruct (splitComma dataUrl) as [ | arr0 [ | arr1 rest]]; try discriminate.
  destruct (matchMime arr0) as [m | ]; [ | discriminate].
  destruct (nonEmpty m); [ | discriminate].
  intros [= <-]. reflexivity.
Qed.

Lemma auxiliaryPart_image (B : Env) (image : option File) (ps : list Part) :
  auxiliaryPart B image = Ok ps ->
  imageParts ps = ps /\ List.length ps = (if truthy image then 1 else 0)%nat.
Proof.
  destruct image as [file | ]; cbn [auxiliaryPart truthy bind].
  - destruct (fileToPart B file) as [p | e] eqn:Hp; [ | discriminate].
    intros [= <-]. apply fileToPart_image in Hp.
    unfold imageParts. cbn [filter]. rewrite Hp. split; reflexivity.
  - intros [= <-]. split; reflexivity.
Qed.

(** What [redesignRoom] sends when every read succeeds: the primary part,
    then the product's part if any, then the background's part if any,
    then the text. *)
Lemma redesignRequest_built (B : Env) (imageToProcess : File) (userPrompt : string)
    (productImage backgroundImage : option File) (isSketched : bool)
    (resized : File) (debug : string) (p0 : Part) (ps1 ps2 : list Part) :
  resizeImage B imageToProcess MAX_DIMENSION = Ok resized ->
  fileToDataUrl B resized = Ok debug ->
  fileToPart B resized = Ok p0 ->
  auxiliaryPart B productImage = Ok ps1 ->
  auxiliaryPart B backgroundImage = Ok ps2 ->
  let t := redesignPrompt userPrompt isSketched
                          (truthy productImage) (truthy backgroundImage) in
  redesignRequest B imageToProcess userPrompt productImage backgroundImage isSketched
  = Ok (mkRequest debug ([p0] ++ ps1 ++ ps2 ++ [TextPart t])%list t).
Proof.
  intros Hr Hd Hp0 H1 H2. cbv zeta. unfold redesignRequest, redesignPrompt.
  rewrite Hr; cbn [bind]. rewrite Hd; cbn [bind]. rewrite Hp0; cbn [bind].
  destruct productImage as [product | ]; cbn [auxiliaryPart bind truthy] in *.
  - destruct (fileToPart B product) as [p1 | e]; [ | discriminate].
    injection H1 as <-. cbn [bind].
    destruct backgroundImage as [background | ]; cbn [auxiliaryPart bind truthy] in *.
    + destruct (fileToPart B background) as [p2 | e]; [ | discriminate].
      injection H2 as <-. reflexivity.
    + injection H2 as <-. reflexivity.
  - injection H1 as <-.
    destruct backgroundImage as [background | ]; cbn [auxiliaryPart bind truthy] in *.
    + destruct (fileToPart B background) as [p2 | e]; [ | discriminate].
      injection H2 as <-. reflexivity.
    + injection H2 as <-. reflexivity.
Qed.

(** C3. When the reads of a redesign request succeed: with
    [isSketched] and neither product nor background, the request is the
    primary image part followed by the text, its only image part is the
    primary one, and the text contains the sketch block; with a product
    and a background, the request is the parts of the primary, the
    product and the background image in this order followed by the text
    last, these three are its image parts, and the text contains the
    product block and, after it, the background block. *)
Theorem conditional_composition (B : Env) (imageToProcess : File) (userPrompt : string)
    (product background resized : File) (debug : string) (p0 p1 p2 : Part) :
  resizeImage B imageToProcess MAX_DIMENSION = Ok resized ->
  fileToDataUrl B resized = Ok debug ->
  fileToPart B resized = Ok p0 ->
  fileToPart B product = Ok p1 ->
  fileToPart B background = Ok p2 ->
  (exists t : string,
      redesignRequest B imageToProcess userPrompt None None true
      = Ok (mkRequest debug [p0; TextPart t] t) /\
      imageParts [p0; TextPart t] = [p0] /\
      contains sketchBlock t) /\
  (forall isSketched : bool, exists t : string,
      redesignRequest B imageToProcess userPrompt (Some product) (Some background)
                      isSketched
      = Ok (mkRequest debug [p0; p1; p2; TextPart t] t) /\
      imageParts [p0; p1; p2; TextPart t] = [p0; p1; p2] /\
      contains productBlock t /\
      contains (backgroundBlock userPrompt) t /\
      exists pre post : string,
        t = pre ++ productBlock ++ backgroundBlock userPrompt ++ post).
Proof.
  intros Hr Hd Hp0 Hp1 Hp2.
  pose proof (fileToPart_image _ _ _ Hp0) as I0.
  pose proof (fileToPart_image _ _ _ Hp1) as I1.
  pose proof (fileToPart_image _ _ _ Hp2) as I2.
  split.
  - eexists. split; [ | split].
    + apply (redesignRequest_built B imageToProcess userPrompt None None true
               resized debug p0 [] [] Hr Hd Hp0 eq_refl eq_refl).
    + unfold imageParts. cbn [filter isImagePart]. rewrite I0. reflexivity.
    + unfold redesignPrompt. cbn [truthy]. apply contains_middle.
  - intros isSketched. eexists. split; [ | split; [ | split; [ | split]]].
    + apply (redesignRequest_built B imageToProcess userPrompt
               (Some product) (Some background) isSketched
               resized debug p0 [p1] [p2] Hr Hd Hp0).
      * cbn [auxiliaryPart bind]. rewrite Hp1. reflexivity.
      * cbn [auxiliaryPart bind]. rewrite Hp2. reflexivity.
    + unfold imageParts. cbn [filter isImagePart]. rewrite I0, I1, I2. reflexivity.
    + unfold redesignPrompt. cbn [truthy].
      apply contains_append, contains_append, contains_end.
    + unfold redesignPrompt. cbn [truthy].
      apply contains_middle.
    + unfold redesignPrompt. cbn [truthy].
      exists (if isSketched then promptBase userPrompt ++ sketchBlock
              else promptBase userPrompt), finalBlock.
      rewrite !append_assoc. reflexivity.
Qed.

Lemma conditional_composition_witness :
  let B := Demo.browserAnswering Demo.imageResponse in
  exists t : string,
    redesignRequest B Demo.sceneFile "Add a pool"
                    (Some Demo.productFile) (Some Demo.backgroundFile) false
    = Ok (mkRequest "data:image/jpeg;base64,U1FVQVJF"
            [InlineDataPart "image/jpeg" "U1FVQVJF";
             InlineDataPart "image/png" "QkVOQ0g=";
             InlineDataPart "image/jpeg" "QkVBQ0g=";
             TextPart t] t).
Proof.
  cbv zeta.
  destruct (proj2 (conditional_composition
              (Demo.browserAnswering Demo.imageResponse) Demo.sceneFile "Add a pool"
              Demo.productFile Demo.backgroundFile
              (mkFile "house.png" "image/jpeg" "U1FVQVJF")
              "data:image/jpeg;base64,U1FVQVJF"
              (InlineDataPart "image/jpeg" "U1FVQVJF")
              (InlineDataPart "image/png" "QkVOQ0g=")
              (InlineDataPart "image/jpeg" "QkVBQ0g=")
              eq_refl eq_refl eq_refl eq_refl eq_refl) false) as [t [Ht _]].
  exists t. exact Ht.
Defined.

Lemma find_none_of_filter {A : Type} (f : A -> bool) (l r : list A) :
  filter f (l ++ r) = [] -> find f l = None.
Proof.
  induction l as [ | a l IH]; cbn; [reflexivity | ].
  destruct (f a); [discriminate | exact IH].
Qed.

Lemma imagePartFromResponse_none (response : GenerateContentResponse) :
  inlineImageCount response = 0%nat -> imagePartFromResponse response = None.
Proof.
  unfold inlineImageCount, responseParts, imagePartFromResponse.
  destruct (candidates response) as [[ | candidate cs] | ]; try reflexivity.
  cbn [flat_map].
  destruct (content candidate) as [c | ]; [ | reflexivity].
  destruct (parts c) as [ps | ]; [ | reflexivity].
  intros H. apply length_zero_iff_nil in H.
  rewrite (find_none_of_filter _ _ _ H). reflexivity.
Qed.

Lemma redesignRoom_no_image (B : Env) (response : GenerateContentResponse)
    imageToProcess w h userPrompt productImage backgroundImage isSketched :
  (forall ps, generateContent B model ps = Ok response) ->
  inlineImageCount response = 0%nat ->
  exists e : Thrown,
    redesignRoom B imageToProcess w h userPrompt productImage backgroundImage isSketched
    = Err e /\
    (isOk (redesignRequest B imageToProcess userPrompt productImage backgroundImage
                           isSketched) = true ->
     e = JsError noImageMessage).
Proof.
  intros Hg Hn. unfold redesignRoom.
  destruct (redesignRequest B imageToProcess userPrompt productImage backgroundImage
                            isSketched) as [req | e]; cbn [bind isOk].
  - rewrite Hg. cbn [bind]. rewrite (imagePartFromResponse_none _ Hn).
    eexists; split; reflexivity.
  - exists e. split; [reflexivity | discriminate].
Qed.

Lemma generateRotatedView_no_image (B : Env) (response : GenerateContentResponse)
    currentImage w h direction :
  (forall ps, generateContent B model ps = Ok response) ->
  inlineImageCount response = 0%nat ->
  exists e : Thrown,
    generateRotatedView B currentImage w h direction = Err e /\
    (isOk (resized <- resizeImage B currentImage MAX_DIMENSION ;; fileToPart B resized)
     = true ->
     e = JsError noRotatedImageMessage).
Proof.
  intros Hg Hn. unfold generateRotatedView.
  destruct (resizeImage B currentImage MAX_DIMENSION) as [resized | e]; cbn [bind isOk].
  - destruct (fileToPart B resized) as [p | e]; cbn [bind isOk].
    + rewrite Hg. cbn [bind]. rewrite (imagePartFromResponse_none _ Hn).
      eexists; split; reflexivity.
    + exists e. split; [reflexivity | discriminate].
  - exists e. split; [reflexivity | discriminate].
Qed.

(** C4. When the model answers with a response that has no inline image
    part, [redesignRoom] and [generateRotatedView] reject; once the
    request has been built and sent, the error is the one that says no
    image was returned; and [handleGenerate] and [handleRotateView] leave
    the history, the cursor and the session list as they were. *)
Theorem no_image_failure (E : AppEnv) (response : GenerateContentResponse)
    (now : Z) (c s : AppState) (direction : Direction) :
  (forall ps, generateContent (browser E) model ps = Ok response) ->
  inlineImageCount response = 0%nat ->
  (forall imageToProcess w h userPrompt productImage backgroundImage isSketched,
      isOk (redesignRequest (browser E) imageToProcess userPrompt
                            productImage backgroundImage isSketched) = true ->
      redesignRoom (browser E) imageToProcess w h userPrompt
                   productImage backgroundImage isSketched
      = Err (JsError noImageMessage)) /\
  (forall currentImage w h d,
      isOk (resized <- resizeImage (browser E) currentImage MAX_DIMENSION ;;
            fileToPart (browser E) resized) = true ->
      generateRotatedView (browser E) currentImage w h d
      = Err (JsError noRotatedImageMessage)) /\
  nothingAppended s (handleGenerate E now c s) /\
  nothingAppended s (handleRotateView E now c direction s).
Proof.
  intros Hg Hn. split; [ | split; [ | split]].
  - intros img w h up pr bg sk Hok.
    destruct (redesignRoom_no_image (browser E) response img w h up pr bg sk Hg Hn) as [e [He Hm]].
    rewrite He, (Hm Hok). reflexivity.
  - intros img w h d Hok.
    destruct (generateRotatedView_no_image (browser E) response img w h d Hg Hn) as [e [He Hm]].
    rewrite He, (Hm Hok). reflexivity.
  - unfold handleGenerate.
    destruct (currentWorkingImage c) as [img | ]; [ | repeat split].
    destruct (nonEmpty (prompt c)); [ | repeat split].
    destruct (originalDimensions c) as [dims | ]; [ | repeat split].
    destruct (redesignRoom_no_image (browser E) response img (width dims) (height dims) (prompt c)
                (productImage c) (backgroundImage c) (truthy (sketchedImage c)) Hg Hn)
      as [e [He _]].
    rewrite He. repeat split.
  - unfold handleRotateView.
    destruct (currentWorkingImage c) as [img | ]; [ | repeat split].
    destruct (originalDimensions c) as [dims | ]; [ | repeat split].
    destruct (generateRotatedView_no_image (browser E) response img (width dims) (height dims) direction Hg Hn)
      as [e [He _]].
    rewrite He. repeat split.
Qed.

Lemma no_image_failure_witness :
  redesignRoom (browser Demo.silentEnv) Demo.sceneFile 512%float 256%float "Add a pool"
               None None false
  = Err (JsError noImageMessage) /\
  nothingAppended Demo.prompted
    (handleGenerate Demo.silentEnv 3000 Demo.prompted Demo.prompted).
Proof.
  pose proof (no_image_failure Demo.silentEnv Demo.textResponse 3000
                Demo.prompted Demo.prompted left
                (fun _ => eq_refl) eq_refl) as [H1 [_ [H3 _]]].
  split; [apply H1; reflexivity | exact H3].
Defined.

(** C10. Reverting to the original empties the history, puts the cursor
    at -1 and clears the sketch, and leaves the selected product and
    background images in place; the next [handleGenerate] passes them to
    [redesignRoom] with the base image, and when the reads succeed the
    request it builds carries a part and an instruction block for each of
    them. *)
Theorem revert_keeps_selections (E : AppEnv) (now : Z) (c s : AppState) :
  let s' := handleRevertToOriginal c s in
  (history s' = [] /\ historyIndex s' = (-1)%Z /\ sketchedImage s' = None) /\
  (productImage s' = productImage s /\ backgroundImage s' = backgroundImage s) /\
  (forall (base : File) (dims : Dimensions),
      sceneImage s = Some base ->
      originalDimensions s = Some dims ->
      nonEmpty (prompt s) = true ->
      handleGenerate E now s' s'
      = setIsLoading false
          (afterRedesign E now s'
             (redesignRoom (browser E) base (width dims) (height dims) (prompt s)
                           (productImage s) (backgroundImage s) false)
             (setError None (setIsLoading true s')))) /\
  (forall (base resized : File) (debug : string) (p0 : Part) (ps1 ps2 : list Part),
      resizeImage (browser E) base MAX_DIMENSION = Ok resized ->
      fileToDataUrl (browser E) resized = Ok debug ->
      fileToPart (browser E) resized = Ok p0 ->
      auxiliaryPart (browser E) (productImage s) = Ok ps1 ->
      auxiliaryPart (browser E) (backgroundImage s) = Ok ps2 ->
      exists t : string,
        redesignRequest (browser E) base (prompt s)
                        (productImage s') (backgroundImage s') false
        = Ok (mkRequest debug ([p0] ++ ps1 ++ ps2 ++ [TextPart t])%list t) /\
        List.length ps1 = (if truthy (productImage s) then 1 else 0)%nat /\
        List.length ps2 = (if truthy (backgroundImage s) then 1 else 0)%nat /\
        (truthy (productImage s) = true -> contains productBlock t) /\
        (truthy (backgroundImage s) = true ->
         contains (backgroundBlock (prompt s)) t)).
Proof.
  cbv zeta.
  assert (Hf : forall x, productImage (handleRevertToOriginal c x) = productImage x
                      /\ backgroundImage (handleRevertToOriginal c x) = backgroundImage x
                      /\ history (handleRevertToOriginal c x) = []
                      /\ historyIndex (handleRevertToOriginal c x) = (-1)%Z
                      /\ sketchedImage (handleRevertToOriginal c x) = None
                      /\ sceneImage (handleRevertToOriginal c x) = sceneImage x
                      /\ prompt (handleRevertToOriginal c x) = prompt x
                      /\ originalDimensions (handleRevertToOriginal c x)
                         = originalDimensions x).
  { intros x. unfold handleRevertToOriginal.
    destruct (activeSessionId c) as [active | ]; [destruct (nonEmpty active) | ];
      repeat split. }
  destruct (Hf s) as [Hp [Hb [Hh [Hi [Hk [Hs [Hpr Hd]]]]]]].
  split; [ repeat split; assumption | ].
  split; [ split; assumption | ].
  split.
  - intros base dims Hbase Hdims Hprompt.
    unfold handleGenerate, currentWorkingImage, currentGeneratedImage.
    rewrite Hk, Hh, Hi, Hs, Hpr, Hd, Hp, Hb, Hbase, Hdims, Hprompt.
    reflexivity.
  - intros base resized debug p0 ps1 ps2 Hr Hdb Hp0 H1 H2.
    rewrite Hp, Hb. eexists. split.
    + apply (redesignRequest_built (browser E) base (prompt s)
               (productImage s) (backgroundImage s) false
               resized debug p0 ps1 ps2 Hr Hdb Hp0 H1 H2).
    + split; [exact (proj2 (auxiliaryPart_image _ _ _ H1)) | ].
      split; [exact (proj2 (auxiliaryPart_image _ _ _ H2)) | ].
      unfold redesignPrompt. cbn [truthy]. split.
      * intros ->. destruct (truthy (backgroundImage s)).
        -- apply contains_append, contains_append, contains_end.
        -- apply contains_middle.
      * intros ->. apply contains_middle.
Qed.

Lemma revert_keeps_selections_witness :
  let s' := handleRevertToOriginal Demo.prompted Demo.prompted in
  exists t : string,
    redesignRequest (browser Demo.demoEnv) Demo.sceneFile "Add a pool"
                    (productImage s') (backgroundImage s') false
    = Ok (mkRequest "data:image/jpeg;base64,U1FVQVJF"
            [InlineDataPart "image/jpeg" "U1FVQVJF";
             InlineDataPart "image/png" "QkVOQ0g=";
             InlineDataPart "image/jpeg" "QkVBQ0g=";
             TextPart t] t) /\
    contains productBlock t /\ contains (backgroundBlock "Add a pool") t.
Proof.
  cbv zeta.
  destruct (proj2 (proj2 (proj2
             (revert_keeps_selections Demo.demoEnv 3000 Demo.prompted Demo.prompted)))
             Demo.sceneFile
             (mkFile "house.png" "image/jpeg" "U1FVQVJF")
             "data:image/jpeg;base64,U1FVQVJF"
             (InlineDataPart "image/jpeg" "U1FVQVJF")
             [InlineDataPart "image/png" "QkVOQ0g="]
             [InlineDataPart "image/jpeg" "QkVBQ0g="]
             eq_refl eq_refl eq_refl eq_refl eq_refl)
    as [t [Ht [_ [_ [Hp Hb]]]]].
  exists t. split; [exact Ht | split; [apply Hp | apply Hb]]; reflexivity.
Defined.

End RequestFacts.

(** ** Sessions, the overlay and the store *)

Module SessionFacts.

Import Browser Types App Properties.

(** A successful [handleGenerate] clears the overlay. *)
Lemma generate_clears_overlay (E : AppEnv) (now : Z) (c s : AppState)
    (r : GeminiService.RedesignResult) (blob : string) :
  fetchBlob (browser E) (GeminiService.finalImageUrl r) = Ok blob ->
  sketchedImage (afterRedesign E now c (Ok r) s) = None.
Proof. intros H. unfold afterRedesign. cbn [bind]. rewrite H. reflexivity. Qed.

Lemma rotate_keeps_overlay (E : AppEnv) (now : Z) (c : AppState)
    (direction : GeminiService.Direction) (s : AppState) :
  sketchedImage (handleRotateView E now c direction s) = sketchedImage s.
Proof.
  unfold handleRotateView, addImageToHistory.
  repeat match goal with
         | |- context [match ?x with _ => _ end] => destruct x
         end; reflexivity.
Qed.

(** C5 fails for rotations. [handleRotateView] never writes the overlay
    slot; in the session [Demo.sketching] a rotation to the right
    succeeds (its image is appended and shown), and the sketch is still
    there and still the working image of the next request. *)
Theorem rotation_leaves_overlay :
  (forall E now c direction s,
      sketchedImage (handleRotateView E now c direction s) = sketchedImage s) /\
  let s := Demo.sketching in
  let s' := handleRotateView Demo.demoEnv 3000 s GeminiService.right s in
  let rotated := mkFile "rotated-scene-3000.jpeg" "image/jpeg" "RkVUQ0hFRA==" in
  history s = [] /\
  history s' = [rotated] /\ historyIndex s' = 0%Z /\ error s' = None /\
  displayImage s' = Some rotated /\
  sketchedImage s' = Some (mkFile "sketch-7.png" "image/png" "RkVUQ0hFRA==") /\
  currentWorkingImage s' = sketchedImage s'.
Proof.
  split; [exact rotate_keeps_overlay | ].
  cbv zeta. repeat split; vm_compute; reflexivity.
Qed.

(** C6. Replacing the base image sets the new base image and its
    dimensions, clears the overlay, empties the history and puts the
    cursor at -1; every other working slot is as before; and in the
    session list every session keeps its id, name, timestamp and
    thumbnail, the active one gets the new base image, the new dimensions
    and no generations, and the others are unchanged. *)
Theorem replace_base_resets_history (E : AppEnv) (c : AppState) (newFile : File)
    (dimensions : Dimensions) (s : AppState) :
  getImageDimensions E newFile = Ok dimensions ->
  let s' := handleSaveCanvasEdit E c newFile s in
  (history s' = [] /\ historyIndex s' = (-1)%Z) /\
  (sceneImage s' = Some newFile /\ originalDimensions s' = Some dimensions /\
   sketchedImage s' = None) /\
  (activeSessionId s' = activeSessionId s /\
   productImage s' = productImage s /\ backgroundImage s' = backgroundImage s /\
   prompt s' = prompt s /\ isLoading s' = isLoading s /\ error s' = error s /\
   debugImageUrl s' = debugImageUrl s /\ debugPrompt s' = debugPrompt s) /\
  Forall2 (rebased (activeSessionId c) newFile dimensions) (sessions s) (sessions s').
Proof.
  intros Hd. cbv zeta. unfold handleSaveCanvasEdit. rewrite Hd.
  assert (Hsame : Forall2 (rebased None newFile dimensions) (sessions s) (sessions s)).
  { induction (sessions s) as [ | x l IH]; constructor; [ | exact IH].
    unfold rebased. repeat split. }
  destruct (activeSessionId c) as [active | ] eqn:Ha.
  - destruct (nonEmpty active) eqn:Hne.
    + split; [split; reflexivity | ].
      split; [repeat split | ].
      split; [repeat split | ].
      cbn [sessions setSessions setHistoryIndex setHistory setSketchedImage
           setOriginalDimensions setSceneImage]. clear Hsame.
      induction (sessions s) as [ | x l IH]; cbn [map]; constructor; [ | exact IH].
      unfold rebased, isActive, truthyString. rewrite Hne.
      rewrite (String.eqb_sym active (id x)).
      destruct (String.eqb (id x) active); cbn; repeat split.
    + split; [split; reflexivity | ].
      split; [repeat split | ].
      split; [repeat split | ].
      cbn [sessions setSessions setHistoryIndex setHistory setSketchedImage
           setOriginalDimensions setSceneImage].
      unfold rebased, truthyString in *. rewrite Hne. exact Hsame.
  - split; [split; reflexivity | ].
    split; [repeat split | ].
    split; [repeat split | ].
    exact Hsame.
Qed.

Lemma replace_base_resets_history_witness :
  let s' := handleSaveCanvasEdit Demo.demoEnv Demo.afterOneEdit Demo.fileD
                                 Demo.afterOneEdit in
  history Demo.afterOneEdit <> [] /\
  history s' = [] /\ historyIndex s' = (-1)%Z /\
  map id (sessions s') = ["1000"] /\ map name (sessions s') = ["Design 1"] /\
  map generations (sessions s') = [[]].
Proof.
  cbv zeta.
  pose proof (replace_base_resets_history Demo.demoEnv Demo.afterOneEdit Demo.fileD
                Demo.dims512 Demo.afterOneEdit eq_refl) as [[Hh Hi] _].
  split; [vm_compute; discriminate | ].
  split; [exact Hh | split; [exact Hi | ]].
  repeat split; vm_compute; reflexivity.
Defined.

Lemma toString_inj (a b : Z) : toString a = toString b -> a = b.
Proof.
  unfold toString. intros H. apply DecimalZ.to_int_inj.
  assert (Hn : forall z, Z.to_int z <> Decimal.Pos Decimal.Nil
                      /\ Z.to_int z <> Decimal.Neg Decimal.Nil).
  { intros [ | q | q]; cbn; split; try discriminate;
      intros [= Hq]; exact (DecimalPos.Unsigned.to_uint_nonnil q Hq). }
  pose proof (NilZero.isi (Z.to_int a) (proj1 (Hn a)) (proj2 (Hn a))) as Ha.
  pose proof (NilZero.isi (Z.to_int b) (proj1 (Hn b)) (proj2 (Hn b))) as Hb.
  rewrite H in Ha. rewrite Ha in Hb. now injection Hb.
Qed.

(** What an upload does to the session list: nothing, or a new session
    whose id is the clock reading in decimal, at the front. *)
Lemma upload_sessions (E : AppEnv) (nowId nowTimestamp : Z) (c : AppState)
    (file : File) (s : AppState) :
  let s' := handleSceneImageUpload E nowId nowTimestamp c file s in
  sessions s' = sessions s \/
  exists new, sessions s' = new :: sessions s /\ id new = toString nowId.
Proof.
  cbv zeta. unfold handleSceneImageUpload.
  destruct (getImageDimensions E file); [ | left; reflexivity].
  destruct (readAsDataURL (browser E) file); [ | left; reflexivity].
  right. eexists. split; reflexivity.
Qed.

(** C8, as stated, fails: two sessions created at the same clock reading
    get the same id. *)
Lemma duplicate_ids_counterexample :
  reachable Demo.twoUploads /\
  exists a b : DesignSession,
    sessions Demo.twoUploads = [b; a] /\
    Types.sceneImage a <> Types.sceneImage b /\
    id a = id b.
Proof.
  split.
  - unfold Demo.twoUploads. cbv zeta. repeat apply reach_current. apply reach_initial.
  - eexists _, _. split; [vm_compute; reflexivity | ].
    split; [vm_compute; discriminate | reflexivity].
Qed.

(** C8, amended: the new session's id is the decimal string of the clock
    reading taken at its creation and is not compared with the existing
    ids; when those are pairwise distinct and each is the decimal string
    of a reading other than this one, the ids stay pairwise distinct. *)
Theorem fresh_reading_keeps_ids_distinct (E : AppEnv) (nowId nowTimestamp : Z)
    (c : AppState) (file : File) (s : AppState) :
  NoDup (sessionIds s) ->
  (forall x, In x (sessions s) -> exists t : Z, id x = toString t /\ t <> nowId) ->
  let s' := handleSceneImageUpload E nowId nowTimestamp c file s in
  NoDup (sessionIds s') /\
  (forall x, In x (sessions s') -> exists t : Z, id x = toString t).
Proof.
  intros Hnd Hfresh. cbv zeta. unfold sessionIds in *.
  destruct (upload_sessions E nowId nowTimestamp c file s) as [-> | [new [-> Hid]]].
  - split; [exact Hnd | ].
    intros x Hx. destruct (Hfresh x Hx) as [t [Ht _]]. now exists t.
  - split.
    + cbn [map]. constructor; [ | exact Hnd].
      rewrite Hid. intros Hin. apply in_map_iff in Hin.
      destruct Hin as [x [Hx Hin]].
      destruct (Hfresh x Hin) as [t [Ht Hne]].
      rewrite Ht in Hx. apply toString_inj in Hx. contradiction.
    + intros x [<- | Hx]; [now exists nowId | ].
      destruct (Hfresh x Hx) as [t [Ht _]]. now exists t.
Qed.

Lemma fresh_reading_keeps_ids_distinct_witness :
  let s := Demo.afterOneEdit in
  let s' := handleSceneImageUpload Demo.demoEnv 5000 5000 s Demo.fileD s in
  sessionIds s' = ["5000"; "1000"] /\ NoDup (sessionIds s').
Proof.
  cbv zeta. split; [vm_compute; reflexivity | ].
  refine (proj1 (fresh_reading_keeps_ids_distinct Demo.demoEnv 5000 5000
                   Demo.afterOneEdit Demo.fileD Demo.afterOneEdit _ _)).
  - vm_compute. constructor; [intros [] | constructor].
  - intros x Hx. exists 1000%Z.
    assert (Hids : map id (sessions Demo.afterOneEdit) = ["1000"])
      by (vm_compute; reflexivity).
    apply (in_map id) in Hx. rewrite Hids in Hx.
    destruct Hx as [Hx | []]. split; [symmetry; exact Hx | discriminate].
Defined.

(** C9, as stated, fails: when the store cannot be opened,
    [loadSessionsFromDB] resolves with the empty list. *)
Lemma load_swallows_open_failure_counterexample :
  isOk (StorageService.openDB Demo.brokenStore) = false /\
  StorageService.loadSessionsFromDB Demo.brokenStore = Ok [].
Proof. split; reflexivity. Qed.

(** C9, amended: a failure to open the store during load (or to start the
    read transaction) is caught inside [loadSessionsFromDB], which then
    resolves with the empty session list, and the mount effect installs
    that list without setting an error; only a failure of the [getAll]
    request itself rejects the load. *)
Theorem load_failure_policy (idb : StorageService.IndexedDB) (e : Thrown) :
  StorageService.openDB idb = Err e ->
  StorageService.loadSessionsFromDB idb = Ok [] /\
  (forall c s,
      sessionsLoaded c (StorageService.loadSessionsFromDB idb) s = setSessions [] s /\
      error (sessionsLoaded c (StorageService.loadSessionsFromDB idb) s) = error s) /\
  (forall (idb' : StorageService.IndexedDB) db tx,
      StorageService.openDB idb' = Ok db ->
      StorageService.transaction db StorageService.SESSIONS_STORE_NAME "readonly"
      = Ok tx ->
      StorageService.getAll tx = Err e ->
      StorageService.loadSessionsFromDB idb' = Err e).
Proof.
  intros Ho.
  assert (Hl : StorageService.loadSessionsFromDB idb = Ok []).
  { unfold StorageService.loadSessionsFromDB. rewrite Ho. reflexivity. }
  split; [exact Hl | split].
  - intros c s. rewrite Hl. split; reflexivity.
  - intros idb' db tx Ho' Ht Hg.
    unfold StorageService.loadSessionsFromDB. rewrite Ho'. cbn [bind].
    rewrite Ht, Hg. reflexivity.
Qed.

Lemma load_failure_policy_witness :
  StorageService.loadSessionsFromDB Demo.brokenStore = Ok [].
Proof.
  exact (proj1 (load_failure_policy Demo.brokenStore
                  (JsOther "UnknownError: Internal error opening backing store.")
                  eq_refl)).
Defined.

End SessionFacts.

(** ** The session store: what is written and what is read back *)

Module StoreFacts.

Import Browser Types StorageService Coverage.
Local Open Scope Z_scope.

Ltac compare_timestamps :=
  repeat match goal with
         | |- context [(?a >? ?b)%Z] => destruct (Z.gtb_spec a b)
         end.

Lemma insert_perm (a : DesignSession) (l : list DesignSession) :
  Permutation (insertNewestFirst a l) (a :: l).
Proof.
  induction l as [ | b l IH]; cbn [insertNewestFirst]; [reflexivity | ].
  destruct (timestamp b - timestamp a >? 0); [ | reflexivity].
  rewrite IH. apply perm_swap.
Qed.

Lemma sort_perm (l : list DesignSession) : Permutation (sortNewestFirst l) l.
Proof.
  induction l as [ | a l IH]; cbn; [reflexivity | ].
  rewrite insert_perm. now constructor.
Qed.

Lemma insert_sorted (a : DesignSession) (l : list DesignSession) :
  newestFirst l -> newestFirst (insertNewestFirst a l).
Proof.
  unfold newestFirst. induction 1 as [ | b l Hl IH Hb]; cbn [insertNewestFirst].
  - constructor; constructor.
  - destruct (Z.gtb_spec (timestamp b - timestamp a) 0) as [Hgt | Hle].
    + constructor; [exact IH | ].
      apply (Permutation_Forall (Permutation_sym (insert_perm a l))).
      constructor; [lia | exact Hb].
    + constructor; [now constructor | ].
      constructor; [lia | ].
      eapply Forall_impl; [ | exact Hb]. cbn. intros x Hx. lia.
Qed.

Lemma sort_sorted (l : list DesignSession) : newestFirst (sortNewestFirst l).
Proof.
  induction l as [ | a l IH]; cbn; [constructor | now apply insert_sorted].
Qed.

Lemma sort_id (l : list DesignSession) : newestFirst l -> sortNewestFirst l = l.
Proof.
  unfold newestFirst. induction 1 as [ | a l Hl IH Ha]; [reflexivity | ].
  change (sortNewestFirst (a :: l)) with (insertNewestFirst a (sortNewestFirst l)).
  rewrite IH.
  destruct l as [ | b l]; [reflexivity | ]. cbn [insertNewestFirst].
  inversion Ha; subst.
  destruct (Z.gtb_spec (timestamp b - timestamp a) 0); [lia | reflexivity].
Qed.

Lemma insert_comm (x y : DesignSession) (l : list DesignSession) :
  timestamp x <> timestamp y ->
  insertNewestFirst x (insertNewestFirst y l)
  = insertNewestFirst y (insertNewestFirst x l).
Proof.
  intros Hne. induction l as [ | b l IH]; cbn [insertNewestFirst].
  - compare_timestamps; try reflexivity; lia.
  - compare_timestamps; cbn [insertNewestFirst]; compare_timestamps;
      try reflexivity; try lia.
    now rewrite IH.
Qed.

Lemma sort_perm_inv (l1 l2 : list DesignSession) :
  Permutation l1 l2 -> NoDup (map timestamp l1) ->
  sortNewestFirst l1 = sortNewestFirst l2.
Proof.
  induction 1 as [ | a l l' Hp IH | a b l | l l' l'' Hp1 IH1 Hp2 IH2]; intros Hnd.
  - reflexivity.
  - unfold sortNewestFirst in *. cbn [fold_right map] in *.
    inversion Hnd; subst. now rewrite IH.
  - unfold sortNewestFirst. cbn [fold_right map] in *.
    apply insert_comm. inversion Hnd as [ | ? ? Hin _]; subst.
    intros Heq. apply Hin. left. now symmetry.
  - rewrite IH1 by exact Hnd. apply IH2.
    eapply Permutation_NoDup; [ | exact Hnd]. now apply Permutation_map.
Qed.

Lemma strict_timestamps_distinct (l : list DesignSession) :
  strictlyNewestFirst l -> NoDup (map timestamp l) /\ newestFirst l.
Proof.
  unfold strictlyNewestFirst, newestFirst.
  induction 1 as [ | a l Hl [IHn IHs] Ha]; cbn; split; try constructor; auto.
  - intros Hin. apply in_map_iff in Hin. destruct Hin as [x [Hx Hin]].
    rewrite Forall_forall in Ha. specialize (Ha x Hin). lia.
  - eapply Forall_impl; [ | exact Ha]. cbn. intros; lia.
Qed.

(** X1. When the store opens and [getAll] succeeds, [loadSessionsFromDB]
    resolves with the stored sessions rearranged newest first: a permutation
    of what was read with timestamps that never increase, and the very list
    that was read when that was newest first already. *)
Theorem load_sorts_newest_first (idb : IndexedDB) (db : Database) (tx : Transaction)
    (stored : list DesignSession) :
  openDB idb = Ok db ->
  transaction db SESSIONS_STORE_NAME "readonly" = Ok tx ->
  getAll tx = Ok (Some stored) ->
  exists loaded : list DesignSession,
    loadSessionsFromDB idb = Ok loaded /\
    Permutation loaded stored /\
    newestFirst loaded /\
    (newestFirst stored -> loaded = stored).
Proof.
  intros Ho Ht Hg. exists (sortNewestFirst stored).
  unfold loadSessionsFromDB. rewrite Ho. cbn [bind]. rewrite Ht, Hg.
  split; [reflexivity | ].
  split; [apply sort_perm | ].
  split; [apply sort_sorted | apply sort_id].
Qed.

Lemma load_sorts_newest_first_witness :
  exists loaded : list DesignSession,
    loadSessionsFromDB (storeHolding (rev threeSessions)) = Ok loaded /\
    Permutation loaded (rev threeSessions) /\
    newestFirst loaded.
Proof.
  destruct (load_sorts_newest_first (storeHolding (rev threeSessions))
              (mkDatabase (fun _ _ => Ok (mkTransaction (Ok (Some (rev threeSessions)))
                                                        (fun _ => Ok tt))))
              (mkTransaction (Ok (Some (rev threeSessions))) (fun _ => Ok tt))
              (rev threeSessions) eq_refl eq_refl eq_refl)
    as [loaded [Hl [Hp [Hs _]]]].
  exists loaded. repeat split; assumption.
Defined.

Lemma filter_other_ids (i : string) (store : list DesignSession) :
  ~ In i (map id store) ->
  filter (fun x => negb (String.eqb (id x) i)) store = store.
Proof.
  induction store as [ | x store IH]; cbn; [reflexivity | ].
  intros Hn. destruct (String.eqb_spec (id x) i) as [Heq | Hne]; cbn.
  - exfalso. apply Hn. now left.
  - rewrite IH; [reflexivity | ]. intros Hin. apply Hn. now right.
Qed.

Lemma filter_ids_absent (i : string) (store : list DesignSession) :
  ~ In i (map id (filter (fun x => negb (String.eqb (id x) i)) store)).
Proof.
  intros Hin. apply in_map_iff in Hin. destruct Hin as [x [Hx Hin]].
  apply filter_In in Hin. destruct Hin as [_ Hne].
  rewrite Hx, String.eqb_refl in Hne. discriminate.
Qed.

Lemma filter_ids_nodup (f : DesignSession -> bool) (store : list DesignSession) :
  NoDup (map id store) -> NoDup (map id (filter f store)).
Proof.
  induction store as [ | x store IH]; cbn; [intros; constructor | ].
  intros Hnd. inversion Hnd as [ | ? ? Hin Hrest]; subst.
  destruct (f x); cbn; [ | now apply IH].
  constructor; [ | now apply IH].
  intros H. apply Hin. apply in_map_iff in H. destruct H as [y [Hy Hf]].
  apply in_map_iff. exists y. split; [exact Hy | ].
  now apply filter_In in Hf.
Qed.

Lemma put_nodup (store : list DesignSession) (a : DesignSession) :
  NoDup (map id store) -> NoDup (map id (applyOp store (Put a))).
Proof.
  intros Hnd. cbn [applyOp]. rewrite map_app. cbn [map].
  apply NoDup_app; [now apply filter_ids_nodup | repeat constructor; intros [] | ].
  intros i Hi [<- | []]. exact (filter_ids_absent _ _ Hi).
Qed.

Lemma put_keeps_ids (store : list DesignSession) (a : DesignSession) (i : string) :
  In i (map id store) -> In i (map id (applyOp store (Put a))).
Proof.
  intros Hin. cbn [applyOp]. rewrite map_app. apply in_or_app.
  destruct (String.eqb_spec i (id a)) as [-> | Hne]; [right; now left | left].
  apply in_map_iff in Hin. destruct Hin as [x [Hx Hin]].
  apply in_map_iff. exists x. split; [exact Hx | ].
  apply filter_In. split; [exact Hin | ].
  destruct (String.eqb_spec (id x) (id a)); [congruence | reflexivity].
Qed.

Lemma puts_spec (sessions store : list DesignSession) :
  NoDup (map id store) ->
  let stored := fold_left applyOp (map Put sessions) store in
  NoDup (map id stored) /\
  (forall x, In x stored -> In x store \/ In x sessions) /\
  (forall i, In i (map id store) \/ In i (map id sessions) -> In i (map id stored)).
Proof.
  revert store. induction sessions as [ | a l IH]; intros store Hnd; cbn [map fold_left].
  - split; [exact Hnd | split]; [now left | intros i [H | []]; exact H].
  - destruct (IH (applyOp store (Put a)) (put_nodup store a Hnd)) as [H1 [H2 H3]].
    split; [exact H1 | split].
    + intros x Hx. destruct (H2 x Hx) as [Hs | Hs]; [ | right; now right].
      cbn [applyOp] in Hs. apply in_app_or in Hs. destruct Hs as [Hs | [<- | []]].
      * left. now apply filter_In in Hs.
      * right. now left.
    + intros i [Hi | [<- | Hi]]; apply H3.
      * left. now apply put_keeps_ids.
      * left. cbn [applyOp]. rewrite map_app. apply in_or_app. right. now left.
      * now right.
Qed.

Lemma puts_distinct (sessions store : list DesignSession) :
  NoDup (map id (store ++ sessions)) ->
  fold_left applyOp (map Put sessions) store = (store ++ sessions)%list.
Proof.
  revert store. induction sessions as [ | a l IH]; intros store Hnd; cbn [map fold_left].
  - now rewrite app_nil_r.
  - cbn [applyOp]. rewrite filter_other_ids.
    + rewrite IH; rewrite <- app_assoc; [reflexivity | exact Hnd].
    + rewrite map_app in Hnd. cbn [map] in Hnd.
      apply NoDup_remove_2 in Hnd. intros Hin. apply Hnd.
      apply in_or_app. now left.
Qed.

(** X2. [saveSessionsToDB] writes [clear] and then one [put] per session.
    Read by an object store keyed on [id], this replaces whatever was stored
    before: the result does not depend on the earlier content, holds one
    record per id, holds only sessions of the list and an entry for every id
    of the list; it is the list itself when its ids are pairwise distinct,
    and otherwise sessions that share an id overwrite one another. *)
Theorem save_overwrites_store (sessions before : list DesignSession) :
  let stored := replay (writes sessions) before in
  stored = replay (writes sessions) [] /\
  NoDup (map id stored) /\
  (forall x, In x stored -> In x sessions) /\
  (forall x, In x sessions -> In (id x) (map id stored)) /\
  (NoDup (map id sessions) -> stored = sessions).
Proof.
  cbv zeta. unfold replay, writes. cbn [fold_left applyOp].
  destruct (puts_spec sessions [] (NoDup_nil _)) as [H1 [H2 H3]].
  split; [reflexivity | split; [exact H1 | split; [ | split]]].
  - intros x Hx. destruct (H2 x Hx) as [[] | H]; exact H.
  - intros x Hx. apply H3. right. now apply in_map.
  - intros Hnd. now apply (puts_distinct sessions []).
Qed.

(** X3. Saving and loading again gives back the session list: when the ids
    are pairwise distinct and the timestamps strictly decrease along the
    list (newest first, as uploads at increasing clock readings leave it),
    loading from a store that returns, in any order, what the writes of
    [saveSessionsToDB] left resolves with the list that was saved. *)
Theorem save_then_load (idb : IndexedDB) (db : Database) (tx : Transaction)
    (sessions before stored : list DesignSession) :
  openDB idb = Ok db ->
  transaction db SESSIONS_STORE_NAME "readonly" = Ok tx ->
  getAll tx = Ok (Some stored) ->
  Permutation stored (replay (writes sessions) before) ->
  NoDup (map id sessions) ->
  strictlyNewestFirst sessions ->
  loadSessionsFromDB idb = Ok sessions.
Proof.
  intros Ho Ht Hg Hp Hid Hts.
  destruct (strict_timestamps_distinct sessions Hts) as [Hnd Hs].
  unfold loadSessionsFromDB. rewrite Ho. cbn [bind]. rewrite Ht, Hg. f_equal.
  assert (Hr : replay (writes sessions) before = sessions).
  { unfold replay, writes. cbn [fold_left applyOp].
    now apply (puts_distinct sessions []). }
  rewrite Hr in Hp.
  rewrite <- (sort_perm_inv sessions stored (Permutation_sym Hp) Hnd).
  now apply sort_id.
Qed.

Lemma save_then_load_witness :
  loadSessionsFromDB (storeHolding (rev threeSessions)) = Ok threeSessions.
Proof.
  refine (save_then_load (storeHolding (rev threeSessions))
            (mkDatabase (fun _ _ => Ok (mkTransaction (Ok (Some (rev threeSessions)))
                                                      (fun _ => Ok tt))))
            (mkTransaction (Ok (Some (rev threeSessions))) (fun _ => Ok tt))
            threeSessions [] (rev threeSessions) eq_refl eq_refl eq_refl _ _ _).
  - apply Permutation_sym, Permutation_rev.
  - cbn. repeat constructor; cbn; intuition discriminate.
  - unfold strictlyNewestFirst, threeSessions.
    repeat constructor; cbn; lia.
Defined.

(** X4. [saveSessionsToDB] does not reject when the store cannot be opened
    or the transaction cannot be started: the [catch] logs and the promise
    resolves. Once the transaction exists the promise settles as the
    transaction does, so a transaction error does reject. *)
Theorem save_failure_policy (idb : IndexedDB) (sessions : list DesignSession) :
  (forall e, openDB idb = Err e -> saveSessionsToDB idb sessions = Ok tt) /\
  (forall db e,
      openDB idb = Ok db ->
      transaction db SESSIONS_STORE_NAME "readwrite" = Err e ->
      saveSessionsToDB idb sessions = Ok tt) /\
  (forall db tx,
      openDB idb = Ok db ->
      transaction db SESSIONS_STORE_NAME "readwrite" = Ok tx ->
      saveSessionsToDB idb sessions = complete tx (Clear :: map Put sessions)).
Proof.
  unfold saveSessionsToDB. repeat split.
  - intros e ->. reflexivity.
  - intros db e -> H. cbn [bind]. rewrite H. reflexivity.
  - intros db tx -> H. cbn [bind]. rewrite H. reflexivity.
Qed.

End StoreFacts.

(** ** Data URLs, requests and responses *)

Module ParseFacts.

Import Geometry Browser Types App Properties Coverage GeminiService.

Lemma allChars_app (f : ascii -> bool) (a b : string) :
  allChars f (a ++ b) = allChars f a && allChars f b.
Proof.
  induction a as [ | c a IH]; cbn; [reflexivity | ].
  rewrite IH. now rewrite andb_assoc.
Qed.

Lemma splitComma_plain (s : string) :
  allChars noComma s = true -> splitComma s = [s].
Proof.
  induction s as [ | c s IH]; cbn [allChars splitComma]; [reflexivity | ].
  intros H. apply andb_prop in H. destruct H as [Hc Hs].
  unfold noComma, isComma in Hc.
  destruct (Ascii.eqb c ","); [discriminate | ].
  now rewrite (IH Hs).
Qed.

Lemma splitComma_app (s t : string) :
  allChars noComma s = true ->
  splitComma (s ++ String "," t) = s :: splitComma t.
Proof.
  induction s as [ | c s IH]; cbn [allChars splitComma append]; [reflexivity | ].
  intros H. apply andb_prop in H. destruct H as [Hc Hs].
  unfold noComma, isComma in Hc.
  destruct (Ascii.eqb c ","); [discriminate | ].
  now rewrite (IH Hs).
Qed.

Lemma uptoSemicolon_app (m r : string) :
  allChars mimeChar m = true -> uptoSemicolon (m ++ String ";" r) = Some m.
Proof.
  induction m as [ | c m IH]; cbn [allChars uptoSemicolon append]; [reflexivity | ].
  intros H. apply andb_prop in H. destruct H as [Hc Hm].
  unfold mimeChar in Hc.
  destruct (Ascii.eqb c ","), (Ascii.eqb c ";"),
           (Ascii.eqb c (ascii_of_nat 10)), (Ascii.eqb c (ascii_of_nat 13));
    try discriminate.
  cbn [orb]. rewrite (IH Hm). reflexivity.
Qed.

Lemma mimeChar_noComma (m : string) :
  allChars mimeChar m = true -> allChars noComma m = true.
Proof.
  induction m as [ | c m IH]; cbn [allChars]; [reflexivity | ].
  intros H. apply andb_prop in H. destruct H as [Hc Hm].
  rewrite (IH Hm). unfold mimeChar in Hc. unfold noComma, isComma.
  destruct (Ascii.eqb c ","); [discriminate | reflexivity].
Qed.

Lemma dataUrl_split (mime payload : string) :
  dataUrl mime payload = ("data:" ++ mime ++ ";base64") ++ String "," payload.
Proof.
  unfold dataUrl. cbn [append]. do 5 f_equal.
  induction mime as [ | c m IH]; cbn; [reflexivity | now rewrite IH].
Qed.

(** X5. A file whose data URL is [data:<mime>;base64,<payload>], with a
    non-empty MIME type free of commas, semicolons and line breaks and a
    payload free of commas, becomes the part that carries exactly this MIME
    type and this payload. *)
Theorem fileToPart_reads_dataUrl (B : Env) (file : File) (mime payload : string) :
  readAsDataURL B file = Ok (dataUrl mime payload) ->
  nonEmpty mime = true ->
  allChars mimeChar mime = true ->
  allChars noComma payload = true ->
  fileToPart B file = Ok (InlineDataPart mime payload).
Proof.
  intros Hr Hne Hm Hp. unfold fileToPart. rewrite Hr. cbn [bind].
  rewrite dataUrl_split, splitComma_app, (splitComma_plain payload Hp).
  - cbn [append matchMime Ascii.eqb Bool.eqb].
    rewrite (uptoSemicolon_app mime "base64" Hm), Hne. reflexivity.
  - rewrite !allChars_app, (mimeChar_noComma mime Hm). reflexivity.
Qed.

Lemma fileToPart_reads_dataUrl_witness :
  fileToPart (browser Demo.demoEnv) Demo.backgroundFile
  = Ok (InlineDataPart "image/jpeg" "QkVBQ0g=").
Proof.
  exact (fileToPart_reads_dataUrl (browser Demo.demoEnv) Demo.backgroundFile
           "image/jpeg" "QkVBQ0g=" eq_refl eq_refl eq_refl eq_refl).
Defined.

(** X6. What [fileToPart] does with a read it cannot use: a data URL without
    a comma is rejected as invalid, and a failed read is passed on as it is,
    not wrapped in an [Error], so that [handleGenerate] can only show it as
    an unknown error when it is not an [Error] object. *)
Theorem fileToPart_failures (B : Env) (file : File) :
  (forall url, readAsDataURL B file = Ok url -> allChars noComma url = true ->
               fileToPart B file = Err (JsError "Invalid data URL")) /\
  (forall e, readAsDataURL B file = Err e ->
             fileToPart B file = Err e /\
             (forall shown, e = JsOther shown ->
                            errorMessage e = "An unknown error occurred.")).
Proof.
  unfold fileToPart. split.
  - intros url -> Hn. cbn [bind]. now rewrite (splitComma_plain url Hn).
  - intros e ->. split; [reflexivity | ]. intros shown ->. reflexivity.
Qed.

Lemma find_first {A : Type} (f : A -> bool) (l : list A) :
  match find f l with
  | Some p => exists pre post, l = (pre ++ p :: post)%list /\ f p = true /\
                               Forall (fun q => f q = false) pre
  | None => Forall (fun q => f q = false) l
  end.
Proof.
  induction l as [ | a l IH]; cbn; [constructor | ].
  destruct (f a) eqn:Ha.
  - exists [], l. repeat split; [exact Ha | constructor].
  - destruct (find f l) as [p | ].
    + destruct IH as [pre [post [-> [Hp Hpre]]]].
      exists (a :: pre), post. repeat split; [exact Hp | now constructor].
    + now constructor.
Qed.

Lemma truthy_false {A : Type} (x : option A) : truthy x = false -> x = None.
Proof. destruct x; [discriminate | reflexivity]. Qed.

Lemma imagePartFromResponse_spec (response : GenerateContentResponse) :
  match imagePartFromResponse response with
  | Some i =>
      exists pre p post,
        firstCandidateParts response = (pre ++ p :: post)%list /\
        inlineData p = Some i /\
        Forall (fun q => inlineData q = None) pre
  | None => Forall (fun q => inlineData q = None) (firstCandidateParts response)
  end.
Proof.
  unfold imagePartFromResponse, firstCandidateParts.
  destruct (candidates response) as [[ | candidate cs] | ]; try constructor.
  destruct (content candidate) as [c | ]; [ | constructor].
  destruct (parts c) as [ps | ]; [ | constructor].
  pose proof (find_first (fun part => truthy (inlineData part)) ps) as H.
  destruct (find (fun part => truthy (inlineData part)) ps) as [p | ].
  - destruct H as [pre [post [-> [Hp Hpre]]]].
    destruct (inlineData p) as [i | ] eqn:Hi; [ | discriminate].
    exists pre, p, post. repeat split; [exact Hi | ].
    eapply Forall_impl; [ | exact Hpre]. cbn. intros q. apply truthy_false.
  - eapply Forall_impl; [ | exact H]. cbn. intros q. apply truthy_false.
Qed.

(** X7. The image [redesignRoom] and [generateRotatedView] take from a
    response is the first inline part of the first candidate: the parts
    before it in that candidate carry no inline data, and when that
    candidate has no inline part (or there is no candidate) nothing is
    found, whatever the other candidates hold. *)
Theorem first_inline_part_of_first_candidate (response : GenerateContentResponse) :
  match imagePartFromResponse response with
  | Some i =>
      exists pre p post,
        firstCandidateParts response = (pre ++ p :: post)%list /\
        inlineData p = Some i /\
        Forall (fun q => inlineData q = None) pre
  | None => Forall (fun q => inlineData q = None) (firstCandidateParts response)
  end.
Proof. exact (imagePartFromResponse_spec response). Qed.

Lemma imagePartFromResponse_first_only (response : GenerateContentResponse) :
  Forall (fun q => inlineData q = None) (firstCandidateParts response) ->
  imagePartFromResponse response = None.
Proof.
  intros Hall.
  pose proof (imagePartFromResponse_spec response) as H.
  destruct (imagePartFromResponse response) as [i | ]; [ | reflexivity].
  destruct H as [pre [p [post [Heq [Hi _]]]]].
  rewrite Heq in Hall. apply Forall_app in Hall. destruct Hall as [_ Hall].
  inversion Hall; subst. congruence.
Qed.

End ParseFacts.

(** ** More on the requests of [geminiService] *)

Module RequestMore.

Import Geometry Browser Types App Properties Coverage GeminiService.

Lemma dropPrefix_sound (p s post : string) :
  dropPrefix p s = Some post -> s = p ++ post.
Proof.
  revert s. induction p as [ | a p IH]; intros s; cbn [dropPrefix].
  - intros [= ->]. reflexivity.
  - destruct s as [ | b s]; [discriminate | ].
    destruct (Ascii.eqb_spec a b) as [-> | _]; [ | discriminate].
    intros H. cbn. now rewrite (IH s H).
Qed.

Lemma splitAt_sound (block s pre post : string) :
  splitAt block s = Some (pre, post) -> s = pre ++ block ++ post.
Proof.
  revert pre. induction s as [ | c s IH]; intros pre; cbn [splitAt].
  - destruct (dropPrefix block "") as [r | ] eqn:Hd; [ | discriminate].
    intros [= <- <-]. exact (dropPrefix_sound block "" r Hd).
  - destruct (dropPrefix block (String c s)) as [r | ] eqn:Hd.
    + intros [= <- <-]. exact (dropPrefix_sound block (String c s) r Hd).
    + destruct (splitAt block s) as [[pre' post'] | ]; [ | discriminate].
      intros [= <- <-]. cbn. now rewrite (IH pre' eq_refl).
Qed.

Lemma splitAt_contains (block s : string) :
  truthy (splitAt block s) = true -> contains block s.
Proof.
  destruct (splitAt block s) as [[pre post] | ] eqn:H; [ | discriminate].
  intros _. exists pre, post. now apply splitAt_sound.
Qed.

Lemma contains_prepend (block pre text : string) :
  contains block text -> contains block (pre ++ text).
Proof.
  intros [a [b ->]]. exists (pre ++ a), b. now rewrite RequestFacts.append_assoc.
Qed.

Lemma backgroundBlock_says_third (userPrompt : string) :
  contains thirdImagePhrase (backgroundBlock userPrompt).
Proof.
  unfold backgroundBlock. apply RequestFacts.contains_append.
  apply splitAt_contains. vm_compute. reflexivity.
Qed.

(** X9. Every request [redesignRoom] builds is the part of the resized
    primary image, then one image part for each auxiliary image supplied
    (none, one or two), then exactly one text part, last; the text is the
    prompt composed from the options and is what is returned as
    [finalPrompt], and [debugImageUrl] is the data URL of the very file the
    first part was read from. *)
Theorem redesign_request_shape (B : Env) (imageToProcess : File) (userPrompt : string)
    (productImage backgroundImage : option File) (isSketched : bool)
    (req : RedesignRequest) :
  redesignRequest B imageToProcess userPrompt productImage backgroundImage isSketched
  = Ok req ->
  exists (resized : File) (p0 : Part) (aux : list Part),
    resizeImage B imageToProcess MAX_DIMENSION = Ok resized /\
    fileToDataUrl B resized = Ok (req_debugImageUrl req) /\
    fileToPart B resized = Ok p0 /\
    req_parts req = (p0 :: aux ++ [TextPart (req_prompt req)])%list /\
    imageParts (p0 :: aux) = p0 :: aux /\
    List.length aux
    = ((if truthy productImage then 1 else 0)
       + (if truthy backgroundImage then 1 else 0))%nat /\
    req_prompt req
    = redesignPrompt userPrompt isSketched (truthy productImage) (truthy backgroundImage).
Proof.
  unfold redesignRequest, redesignPrompt.
  destruct (resizeImage B imageToProcess MAX_DIMENSION) as [resized | e] eqn:Hr;
    cbn [bind]; [ | discriminate].
  destruct (fileToDataUrl B resized) as [debug | e] eqn:Hd; cbn [bind]; [ | discriminate].
  destruct (fileToPart B resized) as [p0 | e] eqn:Hp0; cbn [bind]; [ | discriminate].
  pose proof (RequestFacts.fileToPart_image B resized p0 Hp0) as I0.
  destruct productImage as [product | ]; cbn [bind truthy].
  - destruct (fileToPart B product) as [p1 | e] eqn:Hp1; cbn [bind]; [ | discriminate].
    pose proof (RequestFacts.fileToPart_image B product p1 Hp1) as I1.
    destruct backgroundImage as [background | ]; cbn [bind truthy].
    + destruct (fileToPart B background) as [p2 | e] eqn:Hp2; cbn [bind]; [ | discriminate].
      pose proof (RequestFacts.fileToPart_image B background p2 Hp2) as I2.
      intros [= <-]. exists resized, p0, [p1; p2]. cbn [req_debugImageUrl req_parts req_prompt].
      repeat split; try reflexivity; try assumption.
      unfold imageParts. cbn [filter]. now rewrite I0, I1, I2.
    + intros [= <-]. exists resized, p0, [p1]. cbn [req_debugImageUrl req_parts req_prompt].
      repeat split; try reflexivity; try assumption.
      unfold imageParts. cbn [filter]. now rewrite I0, I1.
  - destruct backgroundImage as [background | ]; cbn [bind truthy].
    + destruct (fileToPart B background) as [p2 | e] eqn:Hp2; cbn [bind]; [ | discriminate].
      pose proof (RequestFacts.fileToPart_image B background p2 Hp2) as I2.
      intros [= <-]. exists resized, p0, [p2]. cbn [req_debugImageUrl req_parts req_prompt].
      repeat split; try reflexivity; try assumption.
      unfold imageParts. cbn [filter]. now rewrite I0, I2.
    + intros [= <-]. exists resized, p0, []. cbn [req_debugImageUrl req_parts req_prompt].
      repeat split; try reflexivity; try assumption.
      unfold imageParts. cbn [filter]. now rewrite I0.
Qed.

Lemma redesign_request_shape_witness :
  exists aux : list Part,
    req_parts backgroundOnlyRequest
    = (InlineDataPart "image/jpeg" "U1FVQVJF" :: aux
       ++ [TextPart (req_prompt backgroundOnlyRequest)])%list /\
    List.length aux = 1%nat.
Proof.
  destruct (redesign_request_shape (browser Demo.demoEnv) Demo.sceneFile "Add a pool"
              None (Some Demo.backgroundFile) true backgroundOnlyRequest eq_refl)
    as [resized [p0 [aux [_ [_ [Hp0 [Hparts [_ [Hlen _]]]]]]]]].
  exists aux. split; [ | exact Hlen].
  rewrite Hparts. f_equal.
  unfold backgroundOnlyRequest in Hparts. cbn [req_parts] in Hparts.
  now injection Hparts.
Defined.

(** X10. With a background image and no product image the request holds
    exactly two image parts, the primary one and the background, yet its
    text names the background as the third image provided. *)
Theorem background_is_called_third (B : Env) (imageToProcess : File)
    (userPrompt : string) (background resized : File) (isSketched : bool)
    (debug : string) (p0 p2 : Part) :
  resizeImage B imageToProcess MAX_DIMENSION = Ok resized ->
  fileToDataUrl B resized = Ok debug ->
  fileToPart B resized = Ok p0 ->
  fileToPart B background = Ok p2 ->
  exists t : string,
    redesignRequest B imageToProcess userPrompt None (Some background) isSketched
    = Ok (mkRequest debug [p0; p2; TextPart t] t) /\
    imageParts [p0; p2; TextPart t] = [p0; p2] /\
    contains thirdImagePhrase t.
Proof.
  intros Hr Hd Hp0 Hp2.
  pose proof (RequestFacts.fileToPart_image _ _ _ Hp0) as I0.
  pose proof (RequestFacts.fileToPart_image _ _ _ Hp2) as I2.
  eexists. split; [ | split].
  - apply (RequestFacts.redesignRequest_built B imageToProcess userPrompt
             None (Some background) isSketched resized debug p0 [] [p2] Hr Hd Hp0 eq_refl).
    cbn [auxiliaryPart bind]. rewrite Hp2. reflexivity.
  - unfold imageParts. cbn [filter isImagePart]. rewrite I0, I2. reflexivity.
  - unfold redesignPrompt. cbn [truthy].
    apply RequestFacts.contains_append, contains_prepend, backgroundBlock_says_third.
Qed.

Lemma background_is_called_third_witness :
  exists t : string,
    redesignRequest (browser Demo.demoEnv) Demo.sceneFile "Add a pool"
                    None (Some Demo.backgroundFile) true
    = Ok (mkRequest "data:image/jpeg;base64,U1FVQVJF"
            [InlineDataPart "image/jpeg" "U1FVQVJF";
             InlineDataPart "image/jpeg" "QkVBQ0g=";
             TextPart t] t) /\
    contains thirdImagePhrase t.
Proof.
  destruct (background_is_called_third (browser Demo.demoEnv) Demo.sceneFile "Add a pool"
              Demo.backgroundFile (mkFile "house.png" "image/jpeg" "U1FVQVJF") true
              "data:image/jpeg;base64,U1FVQVJF"
              (InlineDataPart "image/jpeg" "U1FVQVJF")
              (InlineDataPart "image/jpeg" "QkVBQ0g=")
              eq_refl eq_refl eq_refl eq_refl) as [t [Ht [_ Hc]]].
  exists t. split; assumption.
Defined.

(** X11. [redesignRoom] resolves only when every step did: the request was
    built, the model answered, its first candidate held an inline image,
    and that image could be decoded and drawn. The result is then the crop
    of that image to the rectangle given by the original dimensions, with
    the debug image and the prompt of the request that was sent. *)
Theorem redesignRoom_resolves (B : Env) (imageToProcess : File)
    (originalWidth originalHeight : number) (userPrompt : string)
    (productImage backgroundImage : option File) (isSketched : bool)
    (r : RedesignResult) :
  redesignRoom B imageToProcess originalWidth originalHeight userPrompt
               productImage backgroundImage isSketched = Ok r ->
  exists (req : RedesignRequest) (response : GenerateContentResponse)
         (i : InlineData) (square : Canvas.Image),
    redesignRequest B imageToProcess userPrompt productImage backgroundImage isSketched
    = Ok req /\
    generateContent B model (req_parts req) = Ok response /\
    imagePartFromResponse response = Some i /\
    loadImage B (dataUrl (mimeType i) (data i)) = Ok square /\
    getContext2d B = true /\
    finalImageUrl r
    = toDataURL B (cropCanvas square originalWidth originalHeight MAX_DIMENSION)
                "image/jpeg" quality /\
    debugImageUrl r = req_debugImageUrl req /\
    finalPrompt r = req_prompt req.
Proof.
  unfold redesignRoom, cropToOriginalAspectRatio.
  destruct (redesignRequest B imageToProcess userPrompt productImage backgroundImage
                            isSketched) as [req | e]; cbn [bind]; [ | discriminate].
  destruct (generateContent B model (req_parts req)) as [response | e] eqn:Hg;
    cbn [bind]; [ | discriminate].
  destruct (imagePartFromResponse response) as [i | ] eqn:Hi; [ | discriminate].
  change ("data:" ++ mimeType i ++ ";base64," ++ data i)
    with (dataUrl (mimeType i) (data i)).
  destruct (loadImage B (dataUrl (mimeType i) (data i))) as [square | e] eqn:Hl;
    [ | discriminate].
  destruct (getContext2d B) eqn:Hc; cbn [negb bind]; [ | discriminate].
  intros [= <-]. exists req, response, i, square. repeat split; assumption.
Qed.

Lemma redesignRoom_resolves_witness :
  exists r : RedesignResult,
    redesignRoom (browser Demo.demoEnv) Demo.sceneFile 512%float 256%float "Add a pool"
                 None None false = Ok r /\
    finalImageUrl r = "data:image/jpeg;base64,Q1JPUFBFRA==" /\
    debugImageUrl r = "data:image/jpeg;base64,U1FVQVJF".
Proof.
  destruct (redesignRoom (browser Demo.demoEnv) Demo.sceneFile 512%float 256%float
              "Add a pool" None None false) as [r | e] eqn:Hr.
  - exists r. split; [reflexivity | ].
    destruct (redesignRoom_resolves (browser Demo.demoEnv) Demo.sceneFile 512%float
                256%float "Add a pool" None None false r Hr)
      as [req [response [i [square [Hq [_ [_ [_ [_ [Hf [Hd _]]]]]]]]]]].
    split; [exact Hf | ].
    rewrite Hd. injection Hq as <-. reflexivity.
  - exfalso. unfold redesignRoom in Hr. discriminate Hr.
Defined.

End RequestMore.

(** ** More on the history stack *)

Module HistoryMore.

Import Browser Types App Properties Coverage.
Local Open Scope Z_scope.

Lemma slice0_in_bounds {A : Type} (l : list A) (e : Z) :
  0 <= e <= len l -> slice0 l e = firstn (Z.to_nat e) l.
Proof.
  unfold slice0, len. intros H.
  destruct (Z.ltb_spec e 0); [lia | ].
  now rewrite Z.min_l by lia.
Qed.

Lemma at_index_last {A : Type} (l : list A) (x : A) :
  at_index (l ++ [x]) (len (l ++ [x]) - 1) = Some x.
Proof.
  unfold at_index, len. rewrite length_app. cbn [List.length].
  destruct (Z.ltb_spec (Z.of_nat (List.length l + 1) - 1) 0); [lia | ].
  replace (Z.to_nat (Z.of_nat (List.length l + 1) - 1)) with (List.length l) by lia.
  rewrite nth_error_app2 by lia. now rewrite Nat.sub_diag.
Qed.

(** X14. Appending in a state whose cursor is within bounds keeps the
    entries up to the cursor, drops the ones after it and puts the new image
    right after the cursor, where the cursor moves: the new image is the
    current generated image, nothing can be redone and one step can be
    undone. *)
Theorem append_truncates_after_cursor (c s : AppState) (newImage : File) :
  cursorInBounds c ->
  let s' := addImageToHistory c newImage s in
  history s' = (firstn (Z.to_nat (historyIndex c + 1)) (history c) ++ [newImage])%list /\
  len (history s') = historyIndex c + 2 /\
  historyIndex s' = historyIndex c + 1 /\
  (forall i, 0 <= i <= historyIndex c ->
             at_index (history s') i = at_index (history c) i) /\
  currentGeneratedImage s' = Some newImage /\
  canRedo s' = false /\ canUndo s' = true.
Proof.
  unfold cursorInBounds. intros Hb. cbv zeta.
  pose proof (HistoryFacts.addImageToHistory_history c newImage s) as Hh.
  pose proof (HistoryFacts.addImageToHistory_cursor c newImage s) as Hi.
  rewrite slice0_in_bounds in Hh by lia.
  assert (Hlen : len (history (addImageToHistory c newImage s)) = historyIndex c + 2).
  { rewrite Hh. unfold len in *. rewrite length_app, length_firstn. cbn [List.length]. lia. }
  split; [exact Hh | split; [exact Hlen | split; [lia | split; [ | split; [ | split]]]]].
  - intros i Hi'. rewrite Hh. unfold at_index.
    destruct (Z.ltb_spec i 0); [lia | ].
    unfold len in Hb.
    rewrite nth_error_app1 by (rewrite length_firstn; lia).
    rewrite nth_error_firstn.
    destruct (Nat.ltb_spec (Z.to_nat i) (Z.to_nat (historyIndex c + 1))); [reflexivity | lia].
  - unfold currentGeneratedImage. rewrite Hi, Hh. apply at_index_last.
  - unfold canRedo. rewrite Hi. apply Z.ltb_irrefl.
  - unfold canUndo. rewrite Hi, Hlen.
    destruct (Z.geb_spec (historyIndex c + 2 - 1) 0); [reflexivity | lia].
Qed.

Lemma append_truncates_after_cursor_witness :
  let c := setHistoryIndex 0 Demo.threeEdits in
  history (addImageToHistory c Demo.fileD c) = [Demo.fileA; Demo.fileD] /\
  canRedo (addImageToHistory c Demo.fileD c) = false.
Proof.
  cbv zeta.
  assert (Hb : cursorInBounds (setHistoryIndex 0 Demo.threeEdits)).
  { unfold cursorInBounds. cbn. lia. }
  destruct (append_truncates_after_cursor (setHistoryIndex 0 Demo.threeEdits)
              (setHistoryIndex 0 Demo.threeEdits) Demo.fileD Hb)
    as [Hh [_ [_ [_ [_ [Hr _]]]]]].
  split; [exact Hh | exact Hr].
Defined.

Lemma setHistoryIndex_same (k : Z) (s : AppState) :
  setHistoryIndex (historyIndex s) (setHistoryIndex k s) = s.
Proof. destruct s; reflexivity. Qed.

(** X15. In every reachable state undo and redo undo each other: when an
    undo is possible, undo followed by redo gives the state back, and when a
    redo is possible, redo followed by undo does. *)
Theorem undo_redo_inverse (s : AppState) :
  reachable s ->
  (canUndo s = true ->
   handleRedo (handleUndo s s) (handleUndo s s) = s) /\
  (canRedo s = true ->
   handleUndo (handleRedo s s) (handleRedo s s) = s).
Proof.
  intros Hr. pose proof (HistoryFacts.reachable_bounds s Hr) as Hb.
  unfold cursorInBounds in Hb. unfold canUndo, canRedo, handleUndo, handleRedo.
  split; intros H; rewrite H; cbn [historyIndex history setHistoryIndex].
  - destruct (Z.geb_spec (historyIndex s) 0); [ | discriminate].
    destruct (Z.ltb_spec (historyIndex s - 1) (len (history s) - 1)); [ | lia].
    replace (historyIndex s - 1 + 1) with (historyIndex s) by lia.
    destruct s; reflexivity.
  - destruct (Z.ltb_spec (historyIndex s) (len (history s) - 1)); [ | discriminate].
    destruct (Z.geb_spec (historyIndex s + 1) 0); [ | lia].
    replace (historyIndex s + 1 - 1) with (historyIndex s) by lia.
    destruct s; reflexivity.
Qed.

Lemma undo_redo_inverse_witness :
  handleRedo (handleUndo Demo.afterOneEdit Demo.afterOneEdit)
             (handleUndo Demo.afterOneEdit Demo.afterOneEdit)
  = Demo.afterOneEdit.
Proof.
  destruct (undo_redo_inverse Demo.afterOneEdit HistoryFacts.afterOneEdit_reachable)
    as [H _].
  apply H. vm_compute. reflexivity.
Defined.

End HistoryMore.

(** ** More on sessions and the working state *)

Module SessionMore.

Import Browser Types App Properties Coverage.
Local Open Scope Z_scope.

(** [storedMatchesHistory] looks at three slots only. *)
Lemma stored_matches_ext (s s' : AppState) :
  activeSessionId s' = activeSessionId s ->
  sessions s' = sessions s ->
  history s' = history s ->
  storedMatchesHistory s -> storedMatchesHistory s'.
Proof.
  unfold storedMatchesHistory. intros -> -> ->. exact (fun H => H).
Qed.

Lemma map_update_matches (a : string) (gens : list File)
    (u : DesignSession -> DesignSession) (l : list DesignSession) :
  (forall x, id (u x) = id x /\ generations (u x) = gens) ->
  (exists x, In x l /\ id x = a) ->
  exists x', In x' (map (fun x => if String.eqb (id x) a then u x else x) l) /\
             id x' = a /\ generations x' = gens.
Proof.
  intros Hu [x [Hin Hid]]. exists (u x). destruct (Hu x) as [H1 H2].
  split; [ | split; [congruence | exact H2]].
  apply in_map_iff. exists x. split; [ | exact Hin].
  rewrite Hid, String.eqb_refl. reflexivity.
Qed.

Lemma stored_has_active (s : AppState) (a : string) :
  storedMatchesHistory s -> activeSessionId s = Some a -> nonEmpty a = true ->
  exists x, In x (sessions s) /\ id x = a.
Proof.
  unfold storedMatchesHistory. intros H Ha Hne. rewrite Ha in H.
  destruct (H Hne) as [x [Hin [Hid _]]]. now exists x.
Qed.

Lemma addImageToHistory_matches (c s0 s : AppState) (newImage : File) :
  storedMatchesHistory s0 ->
  activeSessionId c = activeSessionId s0 ->
  activeSessionId s = activeSessionId s0 ->
  sessions s = sessions s0 ->
  storedMatchesHistory (addImageToHistory c newImage s).
Proof.
  intros H0 Hc Ha Hs. unfold addImageToHistory. rewrite Hc.
  destruct (activeSessionId s0) as [a | ] eqn:Hact.
  - destruct (nonEmpty a) eqn:Hne.
    + unfold storedMatchesHistory.
      cbn [activeSessionId sessions history setSessions setHistoryIndex setHistory].
      rewrite Ha. intros _. rewrite Hs.
      apply (map_update_matches a _
               (fun x => mkSession (id x) (name x) (timestamp x) (thumbnail x)
                                   (Types.sceneImage x) (Types.originalDimensions x) _)).
      * intros x. split; reflexivity.
      * exact (stored_has_active s0 a H0 Hact Hne).
    + unfold storedMatchesHistory.
      cbn [activeSessionId sessions history setSessions setHistoryIndex setHistory].
      rewrite Ha, Hne. discriminate.
  - unfold storedMatchesHistory.
    cbn [activeSessionId sessions history setSessions setHistoryIndex setHistory].
    now rewrite Ha.
Qed.

Lemma find_first_of_filter (sessionId : string) (l rest : list DesignSession)
    (first : DesignSession) :
  filter (fun x => negb (String.eqb (id x) sessionId)) l = first :: rest ->
  find (fun x => String.eqb (id x) (id first)) l = Some first.
Proof.
  induction l as [ | x l IH]; cbn [filter find]; [discriminate | ].
  destruct (String.eqb_spec (id x) sessionId) as [Heq | Hne]; cbn [negb].
  - intros H. pose proof (IH H) as Hf.
    assert (Hin : In first (filter (fun y => negb (String.eqb (id y) sessionId)) l)).
    { rewrite H. now left. }
    apply filter_In in Hin. destruct Hin as [_ Hfirst].
    destruct (String.eqb_spec (id x) (id first)) as [Hx | _]; [ | exact Hf].
    rewrite <- Hx, Heq, String.eqb_refl in Hfirst. discriminate.
  - intros [= -> _]. now rewrite String.eqb_refl.
Qed.

Lemma find_in {A : Type} (f : A -> bool) (l : list A) (x : A) :
  find f l = Some x -> In x l /\ f x = true.
Proof. apply find_some. Qed.

Lemma handleSelectSession_found (c : AppState) (sessionId : string) (s : AppState)
    (x : DesignSession) :
  find (fun y => String.eqb (id y) sessionId) (sessions c) = Some x ->
  let s' := handleSelectSession c sessionId s in
  activeSessionId s' = Some (id x) /\ id x = sessionId /\
  sessions s' = sessions s /\
  sceneImage s' = Some (Types.sceneImage x) /\
  originalDimensions s' = Some (Types.originalDimensions x) /\
  history s' = generations x /\
  historyIndex s' = len (generations x) - 1 /\
  inputsCleared s' /\ error s' = None /\ isLoading s' = false.
Proof.
  intros Hf. cbv zeta. unfold handleSelectSession. rewrite Hf.
  apply find_in in Hf. destruct Hf as [_ Hid]. apply String.eqb_eq in Hid.
  unfold inputsCleared. repeat split; try reflexivity. exact Hid.
Qed.

Lemma handleSelectSession_deps (c : AppState) (sessionId : string) (s s' : AppState) :
  sessions c = sessions s ->
  handleSelectSession c sessionId s' = handleSelectSession s sessionId s'.
Proof. intros H. unfold handleSelectSession. rewrite H. reflexivity. Qed.

Lemma handleDeleteSession_deps (c : AppState) (sessionId : string) (s : AppState) :
  activeSessionId c = activeSessionId s -> sessions c = sessions s ->
  handleDeleteSession c sessionId s = handleDeleteSession s sessionId s.
Proof.
  intros Ha Hs. unfold handleDeleteSession. rewrite Ha, Hs.
  destruct (isActive (activeSessionId s) sessionId); [ | reflexivity].
  destruct (filter _ (sessions s)) as [ | first rest]; [reflexivity | ].
  now apply handleSelectSession_deps.
Qed.

Ltac same_slots s Hs :=
  apply (stored_matches_ext s); [reflexivity | reflexivity | reflexivity | exact Hs].

(** Every handler keeps the match, from whichever render [useCallback] can
    have kept it. *)
Lemma dispatch_keeps_match (E : AppEnv) (ev : Event) (c s : AppState) :
  isMount ev = false -> closureOf ev c s ->
  storedMatchesHistory s -> storedMatchesHistory (dispatch E ev c s).
Proof.
  intros Hev Hc Hs.
  destruct ev; cbn [isMount dispatch closureOf] in *; try discriminate;
    try (same_slots s Hs).
  - (* NewProject *) exact I.
  - (* SelectSession *)
    rewrite (handleSelectSession_deps c sessionId s s Hc).
    destruct (find (fun y => String.eqb (id y) sessionId) (sessions s)) as [x | ] eqn:Hf.
    + destruct (handleSelectSession_found s sessionId s x Hf)
        as [Ha [_ [Hss [_ [_ [Hh _]]]]]].
      unfold storedMatchesHistory. rewrite Ha, Hss, Hh. intros _.
      exists x. apply find_in in Hf. repeat split. exact (proj1 Hf).
    + unfold handleSelectSession. rewrite Hf. exact Hs.
  - (* DeleteSession *)
    destruct Hc as [Hca Hcs].
    rewrite (handleDeleteSession_deps c sessionId s Hca Hcs).
    unfold handleDeleteSession.
    destruct (isActive (activeSessionId s) sessionId) eqn:Hact.
    + destruct (filter (fun x => negb (String.eqb (id x) sessionId)) (sessions s))
        as [ | first rest] eqn:Hfil; [exact I | ].
      pose proof (find_first_of_filter sessionId (sessions s) rest first Hfil) as Hf.
      destruct (handleSelectSession_found s (id first) (setSessions (first :: rest) s)
                  first Hf) as [Ha [_ [Hss [_ [_ [Hh _]]]]]].
      unfold storedMatchesHistory. rewrite Ha, Hss, Hh. intros _.
      exists first. repeat split. now left.
    + unfold storedMatchesHistory in *.
      cbn [activeSessionId sessions history setSessions].
      destruct (activeSessionId s) as [a | ]; [ | exact I].
      intros Hne. destruct (Hs Hne) as [x [Hin [Hid Hg]]].
      exists x. repeat split; try assumption.
      apply filter_In. split; [exact Hin | ].
      cbn [isActive] in Hact. rewrite <- Hid in Hact. rewrite Hact. reflexivity.
  - (* SceneImageUpload *)
    subst c. unfold handleSceneImageUpload.
    destruct (getImageDimensions E file); [ | same_slots s Hs].
    destruct (readAsDataURL (browser E) file); [ | exact Hs].
    unfold storedMatchesHistory, thumbnailOnload. cbn. intros _.
    eexists. split; [left; reflexivity | split; reflexivity].
  - (* InstantStart *)
    unfold handleInstantStart.
    destruct (fetch (browser E) defaultImageUrl) as [[[ | ] blob] | e];
      try (same_slots s Hs).
    destruct (getImageDimensions E _); [ | same_slots s Hs].
    destruct (readAsDataURL (browser E) _); [ | same_slots s Hs].
    unfold storedMatchesHistory, thumbnailOnload. cbn. intros _.
    eexists. split; [left; reflexivity | split; reflexivity].
  - (* Generate *)
    assert (Hca : activeSessionId c = activeSessionId s).
    { unfold generateDeps in Hc. congruence. }
    unfold handleGenerate.
    destruct (currentWorkingImage c); [ | same_slots s Hs].
    destruct (nonEmpty (prompt c)); [ | same_slots s Hs].
    destruct (originalDimensions c); [ | same_slots s Hs].
    unfold afterRedesign.
    match goal with
    | |- context [match ?m with Ok _ => _ | Err _ => _ end] => destruct m as [[r f0] | e]
    end; [ | same_slots s Hs].
    eapply stored_matches_ext;
      [ | | | apply (addImageToHistory_matches c s
                      (setError None (setIsLoading true s)) f0 Hs Hca eq_refl eq_refl)];
      reflexivity.
  - (* RotateView *)
    assert (Hca : activeSessionId c = activeSessionId s).
    { unfold rotateViewDeps in Hc. congruence. }
    unfold handleRotateView.
    destruct (currentWorkingImage c); [ | same_slots s Hs].
    destruct (originalDimensions c); [ | same_slots s Hs].
    match goal with
    | |- context [match ?m with Ok _ => _ | Err _ => _ end] => destruct m as [f0 | e]
    end; [ | same_slots s Hs].
    eapply stored_matches_ext;
      [ | | | apply (addImageToHistory_matches c s
                      (setError None (setIsLoading true s)) f0 Hs Hca eq_refl eq_refl)];
      reflexivity.
  - (* RevertToOriginal *)
    unfold handleRevertToOriginal. rewrite Hc.
    destruct (activeSessionId s) as [a | ] eqn:Hact;
      [destruct (nonEmpty a) eqn:Hne | ]; unfold storedMatchesHistory; cbn; rewrite Hact.
    + intros _.
      apply (map_update_matches a []
               (fun x => mkSession (id x) (name x) (timestamp x) (thumbnail x)
                                   (Types.sceneImage x) (Types.originalDimensions x) [])).
      * intros x. split; reflexivity.
      * exact (stored_has_active s a Hs Hact Hne).
    + rewrite Hne. discriminate.
    + exact I.
  - (* SaveSketch *)
    unfold handleSaveSketch. destruct (fetchBlob (browser E) _); [ | exact Hs].
    same_slots s Hs.
  - (* SaveCanvasEdit *)
    subst c. unfold handleSaveCanvasEdit.
    destruct (getImageDimensions E newFile) as [dimensions | e]; [ | same_slots s Hs].
    destruct (activeSessionId s) as [a | ] eqn:Hact;
      [destruct (nonEmpty a) eqn:Hne | ]; unfold storedMatchesHistory; cbn; rewrite Hact.
    + intros _.
      apply (map_update_matches a []
               (fun x => mkSession (id x) (name x) (timestamp x) (thumbnail x)
                                   newFile dimensions [])).
      * intros x. split; reflexivity.
      * exact (stored_has_active s a Hs Hact Hne).
    + rewrite Hne. discriminate.
    + exact I.
  - (* Undo *)
    subst c. unfold handleUndo. destruct (historyIndex s >=? 0); [ | exact Hs].
    same_slots s Hs.
  - (* Redo *)
    subst c. unfold handleRedo.
    destruct (historyIndex s <? len (history s) - 1); [ | exact Hs].
    same_slots s Hs.
Qed.

(** X16. Along every run of the component (the stored sessions installed
    first, then events handled one at a time, each by a handler from a
    render that [useCallback] can have kept, the current one or a stale
    one) what is stored for the active session is the history that undo and
    redo walk through: some session with the active id has the working
    history as its generations. *)
Theorem stored_generations_match_history (s : AppState) :
  run s -> storedMatchesHistory s.
Proof.
  induction 1 as [loaded | E ev c s Hev Hc Hr IH].
  - unfold sessionsLoaded. destruct loaded as [[ | first l] | e]; exact I.
  - now apply dispatch_keeps_match.
Qed.

(** The second rotation over a sketch runs with the handler of the render
    that had no history yet: the first rotated image is dropped. *)
Lemma rotatedTwiceOverSketch_run :
  run rotatedTwiceOverSketch /\ history rotatedTwiceOverSketch = [rotatedFile 3000].
Proof.
  split; [ | vm_compute; reflexivity].
  unfold rotatedTwiceOverSketch. cbv zeta.
  apply run_step; [reflexivity | cbn [closureOf]; vm_compute; reflexivity | ].
  apply run_step; [reflexivity | reflexivity | ].
  apply run_step; [reflexivity | exact I | ].
  apply run_step; [reflexivity | reflexivity | ].
  exact (run_mount (Ok [])).
Defined.

Lemma stored_generations_match_history_witness :
  storedMatchesHistory rotatedTwiceOverSketch.
Proof.
  exact (stored_generations_match_history rotatedTwiceOverSketch
           (proj1 rotatedTwiceOverSketch_run)).
Defined.

Lemma filter_removes_id (sessionId : string) (l : list DesignSession) :
  ~ In sessionId (map id (filter (fun x => negb (String.eqb (id x) sessionId)) l)).
Proof.
  intros Hin. apply in_map_iff in Hin. destruct Hin as [x [Hx Hin]].
  apply filter_In in Hin. destruct Hin as [_ Hne].
  rewrite Hx, String.eqb_refl in Hne. discriminate.
Qed.

(** X17. Deleting a session removes every session with that id and keeps
    the others in order. When the deleted session was not the active one the
    working state is untouched. When it was, the first remaining session is
    loaded with its base image, dimensions and generations, the cursor on
    the last generation and the pending inputs cleared; when none remains
    the working state is emptied and no session is active. *)
Theorem delete_session (s : AppState) (sessionId : string) :
  let s' := handleDeleteSession s sessionId s in
  sessions s' = filter (fun x => negb (String.eqb (id x) sessionId)) (sessions s) /\
  ~ In sessionId (sessionIds s') /\
  (isActive (activeSessionId s) sessionId = false -> s' = setSessions (sessions s') s) /\
  (isActive (activeSessionId s) sessionId = true ->
   match sessions s' with
   | first :: _ =>
       activeSessionId s' = Some (id first) /\
       sceneImage s' = Some (Types.sceneImage first) /\
       originalDimensions s' = Some (Types.originalDimensions first) /\
       history s' = generations first /\
       historyIndex s' = len (generations first) - 1 /\
       inputsCleared s'
   | [] =>
       activeSessionId s' = None /\ sceneImage s' = None /\
       originalDimensions s' = None /\
       history s' = [] /\ historyIndex s' = -1 /\ inputsCleared s'
   end).
Proof.
  cbv zeta.
  assert (Hsess : sessions (handleDeleteSession s sessionId s)
                  = filter (fun x => negb (String.eqb (id x) sessionId)) (sessions s)).
  { unfold handleDeleteSession, handleSelectSession.
    repeat match goal with
           | |- context [match ?x with _ => _ end] => destruct x
           end; reflexivity. }
  split; [exact Hsess | ].
  split; [unfold sessionIds; rewrite Hsess; apply filter_removes_id | ].
  split.
  - intros Hact. rewrite Hsess. unfold handleDeleteSession. now rewrite Hact.
  - intros Hact. rewrite Hsess. unfold handleDeleteSession. rewrite Hact.
    destruct (filter (fun x => negb (String.eqb (id x) sessionId)) (sessions s))
      as [ | first rest] eqn:Hfil.
    + unfold inputsCleared. repeat split.
    + pose proof (find_first_of_filter sessionId (sessions s) rest first Hfil) as Hf.
      destruct (handleSelectSession_found s (id first) (setSessions (first :: rest) s)
                  first Hf) as [Ha [_ [_ [Hsc [Hd [Hh [Hi [Hc _]]]]]]]].
      repeat split; try assumption; apply Hc.
Qed.

Lemma at_index_end {A : Type} (l : list A) (d : A) :
  at_index l (len l - 1) = match l with [] => None | _ :: _ => Some (last l d) end.
Proof.
  destruct l as [ | a l]; [reflexivity | ].
  destruct (exists_last (l := a :: l)) as [l' [x Heq]]; [discriminate | ].
  rewrite Heq, last_last.
  pose proof (HistoryMore.at_index_last l' x) as H.
  rewrite H. now destruct l'.
Qed.

Lemma find_absent (sessionId : string) (l : list DesignSession) :
  ~ In sessionId (map id l) ->
  find (fun y => String.eqb (id y) sessionId) l = None.
Proof.
  induction l as [ | x l IH]; cbn; [reflexivity | ].
  intros Hn. destruct (String.eqb_spec (id x) sessionId) as [Heq | _].
  - exfalso. apply Hn. now left.
  - apply IH. intros H. apply Hn. now right.
Qed.

(** X18. Selecting an id that no session of the captured list has changes
    nothing. Selecting a known id loads the first session with that id: its
    base image and dimensions, its generations as history with the cursor on
    the last one, the pending inputs cleared and the session list untouched;
    the image then shown and worked on is the last generation, or the base
    image when there is none. *)
Theorem select_session (c : AppState) (sessionId : string) (s : AppState) :
  (~ In sessionId (sessionIds c) -> handleSelectSession c sessionId s = s) /\
  (forall x,
      find (fun y => String.eqb (id y) sessionId) (sessions c) = Some x ->
      let s' := handleSelectSession c sessionId s in
      activeSessionId s' = Some sessionId /\
      sessions s' = sessions s /\
      sceneImage s' = Some (Types.sceneImage x) /\
      originalDimensions s' = Some (Types.originalDimensions x) /\
      history s' = generations x /\
      historyIndex s' = len (generations x) - 1 /\
      inputsCleared s' /\
      currentWorkingImage s' = Some (last (generations x) (Types.sceneImage x)) /\
      displayImage s' = Some (last (generations x) (Types.sceneImage x))).
Proof.
  split.
  - intros Hn. unfold handleSelectSession, sessionIds in *.
    now rewrite (find_absent sessionId (sessions c) Hn).
  - intros x Hf. cbv zeta.
    destruct (handleSelectSession_found c sessionId s x Hf)
      as [Ha [Hid [Hss [Hsc [Hd [Hh [Hi [Hc _]]]]]]]].
    rewrite Hid in Ha.
    repeat split; try assumption; try apply Hc.
    + unfold currentWorkingImage, currentGeneratedImage.
      destruct Hc as [-> _]. rewrite Hh, Hi, Hsc.
      rewrite (at_index_end (generations x) (Types.sceneImage x)).
      now destruct (generations x).
    + unfold displayImage, currentGeneratedImage.
      destruct Hc as [-> _]. rewrite Hh, Hi, Hsc.
      rewrite (at_index_end (generations x) (Types.sceneImage x)).
      now destruct (generations x).
Qed.

(** X19. The mount effect runs [handleSelectSession] of the first render,
    whose session list is empty: whatever is loaded, the sessions are
    installed and nothing else changes, so no session becomes active and no
    image is shown until the user picks one. *)
Theorem mount_activates_nothing (c : AppState) (loaded : result (list DesignSession))
    (s : AppState) :
  sessions c = [] ->
  let s' := sessionsLoaded c loaded s in
  s' = match loaded with Ok l => setSessions l s | Err _ => s end /\
  activeSessionId s' = activeSessionId s /\
  sceneImage s' = sceneImage s /\
  history s' = history s /\ historyIndex s' = historyIndex s.
Proof.
  intros Hc. cbv zeta. unfold sessionsLoaded, handleSelectSession. rewrite Hc.
  destruct loaded as [[ | first l] | e]; repeat split.
Qed.

Lemma mount_activates_nothing_witness :
  let s' := sessionsLoaded initialState (Ok threeSessions) initialState in
  sessions s' = threeSessions /\ activeSessionId s' = None /\ sceneImage s' = None.
Proof.
  cbv zeta.
  destruct (mount_activates_nothing initialState (Ok threeSessions) initialState eq_refl)
    as [Hs [Ha [Hsc _]]].
  rewrite Hs. repeat split.
Defined.

(** X20. A successful instant start creates a session from the sample
    image, puts it at the front and makes it active, and leaves the prompt
    empty: [thumbnailReader.onload] runs after the default prompt was set
    and resets it. When the thumbnail cannot be read, the default prompt
    stays and no session is created. *)
Theorem instant_start_prompt (E : AppEnv) (nowId nowTimestamp : Z) (c s : AppState)
    (blob : string) (dimensions : Dimensions) :
  let file := mkFile "exterior.jpeg" "image/jpeg" blob in
  fetch (browser E) defaultImageUrl = Ok (true, blob) ->
  getImageDimensions E file = Ok dimensions ->
  let s' := handleInstantStart E nowId nowTimestamp c s in
  (forall thumbnail,
      readAsDataURL (browser E) file = Ok thumbnail ->
      prompt s' = "" /\
      sceneImage s' = Some file /\
      activeSessionId s' = Some (toString nowId) /\
      sessions s'
      = mkSession (toString nowId) ("Design " ++ toString (len (sessions c) + 1))
                  nowTimestamp thumbnail file dimensions [] :: sessions s) /\
  (forall e,
      readAsDataURL (browser E) file = Err e ->
      prompt s' = defaultPrompt /\ sessions s' = sessions s /\
      sceneImage s' = sceneImage s).
Proof.
  cbv zeta. intros Hf Hd. unfold handleInstantStart. rewrite Hf, Hd.
  split.
  - intros thumbnail ->. repeat split.
  - intros e ->. repeat split.
Qed.

Lemma instant_start_prompt_witness :
  let s' := handleInstantStart Demo.demoEnv 1000 1000 initialState initialState in
  prompt s' = "" /\ map name (sessions s') = ["Design 1"].
Proof.
  cbv zeta.
  destruct (proj1 (instant_start_prompt Demo.demoEnv 1000 1000 initialState initialState
                     "RkVUQ0hFRA==" Demo.dims512 eq_refl eq_refl)
              "data:image/jpeg;base64,RkVUQ0hFRA==" eq_refl) as [Hp [_ [_ Hs]]].
  split; [exact Hp | ]. rewrite Hs. reflexivity.
Defined.

(** X21. The image on screen and the image the next request works on are
    the same unless a sketch and a generated image are both present: then
    the screen shows the generated image while the request takes the
    sketch. *)
Theorem displayed_and_working_image (s : AppState) :
  (sketchedImage s = None \/ currentGeneratedImage s = None ->
   displayImage s = currentWorkingImage s) /\
  (forall sketch generated,
      sketchedImage s = Some sketch ->
      currentGeneratedImage s = Some generated ->
      displayImage s = Some generated /\ currentWorkingImage s = Some sketch).
Proof.
  unfold displayImage, currentWorkingImage. split.
  - intros [-> | ->]; [reflexivity | ].
    now destruct (sketchedImage s).
  - intros sketch generated -> ->. split; reflexivity.
Qed.

Lemma displayed_and_working_image_witness :
  displayImage sketchOverEdit
  = Some (mkFile "generated-scene-2000.jpeg" "image/jpeg" "RkVUQ0hFRA==") /\
  currentWorkingImage sketchOverEdit
  = Some (mkFile "sketch-9.png" "image/png" "RkVUQ0hFRA==").
Proof.
  apply (proj2 (displayed_and_working_image sketchOverEdit)); vm_compute; reflexivity.
Defined.

(** X22. A successful [handleGenerate] from the current render appends one
    file named after the clock reading, which becomes the current generated
    image, the image shown and the image the next request works on; the
    sketch, the product, the background and the prompt are consumed; the
    debug image and prompt of the request are kept; no error is shown and
    loading is over; the base image and its dimensions stay. *)
Theorem generate_success (E : AppEnv) (now : Z) (s : AppState) (image : File)
    (dims : Dimensions) (r : GeminiService.RedesignResult) (blob : string) :
  currentWorkingImage s = Some image ->
  nonEmpty (prompt s) = true ->
  originalDimensions s = Some dims ->
  GeminiService.redesignRoom (browser E) image (width dims) (height dims) (prompt s)
    (productImage s) (backgroundImage s) (truthy (sketchedImage s)) = Ok r ->
  fetchBlob (browser E) (GeminiService.finalImageUrl r) = Ok blob ->
  let file := mkFile ("generated-scene-" ++ toString now ++ ".jpeg") "image/jpeg" blob in
  let s' := handleGenerate E now s s in
  history s' = (slice0 (history s) (historyIndex s + 1) ++ [file])%list /\
  currentGeneratedImage s' = Some file /\
  displayImage s' = Some file /\
  currentWorkingImage s' = Some file /\
  inputsCleared s' /\
  debugImageUrl s' = Some (GeminiService.debugImageUrl r) /\
  debugPrompt s' = Some (GeminiService.finalPrompt r) /\
  error s' = None /\ isLoading s' = false /\
  sceneImage s' = sceneImage s /\ originalDimensions s' = originalDimensions s.
Proof.
  intros Hw Hp Hd Hr Hf. cbv zeta.
  unfold handleGenerate, afterRedesign. rewrite Hw, Hp, Hd, Hr. cbn [bind]. rewrite Hf.
  cbn [bind].
  set (file := mkFile ("generated-scene-" ++ toString now ++ ".jpeg") "image/jpeg" blob).
  set (s0 := setError None (setIsLoading true s)).
  pose proof (HistoryFacts.addImageToHistory_history s file s0) as Hh.
  pose proof (HistoryFacts.addImageToHistory_cursor s file s0) as Hi.
  assert (Hg : currentGeneratedImage (addImageToHistory s file s0) = Some file).
  { unfold currentGeneratedImage. rewrite Hi, Hh. apply HistoryMore.at_index_last. }
  assert (Hsc : sceneImage (addImageToHistory s file s0) = sceneImage s
                /\ originalDimensions (addImageToHistory s file s0) = originalDimensions s
                /\ error (addImageToHistory s file s0) = None).
  { unfold addImageToHistory.
    destruct (activeSessionId s) as [a | ]; [destruct (nonEmpty a) | ];
      repeat split; reflexivity. }
  unfold displayImage, currentWorkingImage, currentGeneratedImage, inputsCleared in *.
  cbn [history historyIndex sketchedImage productImage backgroundImage prompt sceneImage
       originalDimensions debugImageUrl debugPrompt error isLoading
       setIsLoading setDebugPrompt setDebugImageUrl setPrompt setBackgroundImage
       setProductImage setSketchedImage].
  rewrite Hg. cbn [orElse]. destruct Hsc as [Hs1 [Hs2 Hs3]].
  repeat split; try reflexivity; try assumption.
  now rewrite Hs2.
Qed.

Lemma prompted_passes_guard :
  currentWorkingImage (handleRemoveSketch Demo.prompted) = Some Demo.sceneFile.
Proof. reflexivity. Qed.

Lemma generate_success_witness :
  let s := handleRemoveSketch Demo.prompted in
  let s' := handleGenerate Demo.demoEnv 4000 s s in
  map file_name (history s') = ["generated-scene-4000.jpeg"] /\ inputsCleared s'.
Proof.
  cbv zeta.
  destruct (GeminiService.redesignRoom (browser Demo.demoEnv) Demo.sceneFile
              512%float 256%float "Add a pool" (Some Demo.productFile)
              (Some Demo.backgroundFile) false) as [r | e] eqn:Hr;
    [ | exfalso; unfold GeminiService.redesignRoom in Hr; discriminate Hr].
  destruct (generate_success Demo.demoEnv 4000 (handleRemoveSketch Demo.prompted)
              Demo.sceneFile Demo.dims512 r "RkVUQ0hFRA=="
              prompted_passes_guard eq_refl eq_refl Hr eq_refl)
    as [Hh [_ [_ [_ [Hc _]]]]].
  split; [rewrite Hh; reflexivity | exact Hc].
Defined.

(** X23. Without a working image, a non-empty prompt (for a redesign) and
    the original dimensions the handlers do nothing but show their message:
    the state is the one before with the error slot set, whatever the
    browser and the model would have answered. *)
Theorem handlers_guard_inputs (E : AppEnv) (now : Z) (c s : AppState)
    (direction : GeminiService.Direction) :
  (currentWorkingImage c = None \/ prompt c = "" \/ originalDimensions c = None ->
   handleGenerate E now c s = setError (Some generateGuardMessage) s) /\
  (currentWorkingImage c = None \/ originalDimensions c = None ->
   handleRotateView E now c direction s = setError (Some rotateGuardMessage) s).
Proof.
  unfold handleGenerate, handleRotateView. split.
  - intros [-> | [-> | ->]]; [reflexivity | | ].
    + now destruct (currentWorkingImage c).
    + destruct (currentWorkingImage c); [ | reflexivity].
      now destruct (nonEmpty (prompt c)).
  - intros [-> | ->]; [reflexivity | ].
    now destruct (currentWorkingImage c).
Qed.

(** X24. A failed generation or rotation costs the user nothing: the history,
    the cursor, the sessions, the sketch, the product, the background and the
    prompt are as before, loading is over, and the error slot holds the
    handler's prefix followed by the message of the error, or by the
    unknown-error text when what was thrown is not an [Error]. *)
Theorem failed_generation_keeps_inputs (E : AppEnv) (now : Z) (s : AppState)
    (image : File) (dims : Dimensions) (direction : GeminiService.Direction)
    (e : Thrown) :
  currentWorkingImage s = Some image ->
  originalDimensions s = Some dims ->
  (nonEmpty (prompt s) = true ->
   GeminiService.redesignRoom (browser E) image (width dims) (height dims) (prompt s)
     (productImage s) (backgroundImage s) (truthy (sketchedImage s)) = Err e ->
   handleGenerate E now s s
   = setIsLoading false
       (setError (Some ("Failed to generate the image. " ++ errorMessage e)) s)) /\
  (GeminiService.generateRotatedView (browser E) image (width dims) (height dims)
     direction = Err e ->
   handleRotateView E now s direction s
   = setIsLoading false
       (setError (Some ("Failed to generate the rotated view. " ++ errorMessage e)) s)).
Proof.
  intros Hw Hd. unfold handleGenerate, handleRotateView, afterRedesign.
  rewrite Hw, Hd. split.
  - intros -> ->. reflexivity.
  - intros ->. reflexivity.
Qed.

Lemma failed_generation_keeps_inputs_witness :
  let s := Demo.prompted in
  let s' := handleGenerate Demo.silentEnv 3000 s s in
  error s' = Some ("Failed to generate the image. " ++ GeminiService.noImageMessage) /\
  productImage s' = Some Demo.productFile /\ prompt s' = "Add a pool".
Proof.
  cbv zeta.
  assert (Hw : currentWorkingImage Demo.prompted
               = Some (mkFile "sketch-7.png" "image/png" "RkVUQ0hFRA=="))
    by reflexivity.
  rewrite (proj1 (failed_generation_keeps_inputs Demo.silentEnv 3000 Demo.prompted
                    (mkFile "sketch-7.png" "image/png" "RkVUQ0hFRA==") Demo.dims512
                    GeminiService.left (JsError GeminiService.noImageMessage)
                    Hw eq_refl) eq_refl eq_refl).
  repeat split.
Defined.

(** X25. [handleRotateView] writes only the history, the cursor, the stored
    generations, the loading flag and the error slot: the product, the
    background, the prompt, the debug view, the base image, its dimensions and
    the active session are as before, both when it succeeds and when it
    fails. *)
Theorem rotation_consumes_nothing (E : AppEnv) (now : Z) (c : AppState)
    (direction : GeminiService.Direction) (s : AppState) :
  let s' := handleRotateView E now c direction s in
  productImage s' = productImage s /\
  backgroundImage s' = backgroundImage s /\
  prompt s' = prompt s /\
  debugImageUrl s' = debugImageUrl s /\ debugPrompt s' = debugPrompt s /\
  sceneImage s' = sceneImage s /\
  originalDimensions s' = originalDimensions s /\
  activeSessionId s' = activeSessionId s /\
  map id (sessions s') = map id (sessions s).
Proof.
  cbv zeta. unfold handleRotateView, addImageToHistory.
  assert (Hmap : forall a gens l,
             map id (map (fun x => if String.eqb (id x) a
                                   then mkSession (id x) (name x) (timestamp x)
                                          (thumbnail x) (Types.sceneImage x)
                                          (Types.originalDimensions x) gens
                                   else x) l) = map id l).
  { intros a gens l. rewrite map_map. apply map_ext. intros x.
    now destruct (String.eqb (id x) a). }
  repeat match goal with
         | |- context [match ?x with _ => _ end] => destruct x
         end; cbn; rewrite ?Hmap; repeat split.
Qed.

(** X26. An upload that can be read creates the session from the file, its
    dimensions and its thumbnail, named after the number of sessions the
    handler's render knew, puts it in front, makes it active and resets the
    working state to that file. When the dimensions cannot be read only the
    error is set; when the thumbnail cannot be read nothing happens at all,
    not even an error. *)
Theorem scene_upload (E : AppEnv) (nowId nowTimestamp : Z) (c : AppState) (file : File)
    (s : AppState) :
  let s' := handleSceneImageUpload E nowId nowTimestamp c file s in
  (forall dimensions thumbnail,
      getImageDimensions E file = Ok dimensions ->
      readAsDataURL (browser E) file = Ok thumbnail ->
      sessions s'
      = mkSession (toString nowId) ("Design " ++ toString (len (sessions c) + 1))
                  nowTimestamp thumbnail file dimensions [] :: sessions s /\
      activeSessionId s' = Some (toString nowId) /\
      sceneImage s' = Some file /\ originalDimensions s' = Some dimensions /\
      history s' = [] /\ historyIndex s' = -1 /\ inputsCleared s' /\
      error s' = None /\
      currentWorkingImage s' = Some file) /\
  (forall e,
      getImageDimensions E file = Err e ->
      s' = setError
             (Some "Could not read image dimensions. Please try a different image.") s) /\
  (forall dimensions e,
      getImageDimensions E file = Ok dimensions ->
      readAsDataURL (browser E) file = Err e ->
      s' = s).
Proof.
  cbv zeta. unfold handleSceneImageUpload. split; [ | split].
  - intros dimensions thumbnail -> ->. unfold inputsCleared. repeat split.
  - intros e ->. reflexivity.
  - intros dimensions e -> ->. reflexivity.
Qed.

End SessionMore.

(** ** The ends of the pipeline: resizing and rotating *)

Module PipelineFacts.

Import Canvas Geometry Browser Types App Properties Coverage GeminiService.

(** X12. [resizeImage] resolves only when the file was read to a non-empty
    data URL, the image was decoded, a 2D context was there and the canvas
    could be encoded. The file it resolves with carries the name of the input
    file, is of type [image/jpeg] whatever the input's type was, and holds the
    encoding of a canvas that is 1024 x 1024 for the edge 1024. *)
Theorem resizeImage_resolves (B : Env) (file resized : File) :
  resizeImage B file MAX_DIMENSION = Ok resized ->
  file_name resized = file_name file /\
  file_type resized = "image/jpeg" /\
  exists (url : string) (img : Image),
    readAsDataURL B file = Ok url /\ nonEmpty url = true /\
    loadImage B url = Ok img /\
    getContext2d B = true /\
    toBlob B (resizeCanvas img MAX_DIMENSION) "image/jpeg" quality
    = Some (file_bits resized) /\
    cwidth (resizeCanvas img MAX_DIMENSION) = 1024%Z /\
    cheight (resizeCanvas img MAX_DIMENSION) = 1024%Z.
Proof.
  unfold resizeImage.
  destruct (readAsDataURL B file) as [url | e]; [ | discriminate].
  destruct (nonEmpty url) eqn:Hu; cbn [negb]; [ | discriminate].
  destruct (loadImage B url) as [img | e] eqn:Hl; [ | discriminate].
  destruct (getContext2d B) eqn:Hc; cbn [negb]; [ | discriminate].
  destruct (toBlob B (resizeCanvas img MAX_DIMENSION) "image/jpeg" quality)
    as [blob | ] eqn:Hb; [ | discriminate].
  intros [= <-]. cbn [file_name file_type file_bits].
  split; [reflexivity | split; [reflexivity | ]].
  exists url, img. repeat split; try assumption.
  - unfold resizeCanvas.
    destruct (1 <? toNumber (Canvas.width img) / toNumber (Canvas.height img))%float;
      reflexivity.
  - unfold resizeCanvas.
    destruct (1 <? toNumber (Canvas.width img) / toNumber (Canvas.height img))%float;
      reflexivity.
Qed.

Lemma resizeImage_resolves_witness :
  resizeImage (browser Demo.demoEnv) Demo.sceneFile MAX_DIMENSION
  = Ok (mkFile "house.png" "image/jpeg" "U1FVQVJF") /\
  file_type Demo.sceneFile = "image/png".
Proof.
  split; [ | reflexivity].
  destruct (resizeImage (browser Demo.demoEnv) Demo.sceneFile MAX_DIMENSION)
    as [resized | e] eqn:Hr;
    [ | exfalso; unfold resizeImage in Hr; discriminate Hr].
  destruct (resizeImage_resolves (browser Demo.demoEnv) Demo.sceneFile resized Hr)
    as [Hn [Ht [url [img [_ [_ [_ [_ [Hb _]]]]]]]]].
  destruct resized as [n t b]. cbn [file_name file_type file_bits] in *.
  subst n t. f_equal. f_equal.
  unfold resizeImage in Hr. cbn in Hr. now injection Hr.
Defined.

(** X13. [generateRotatedView] resolves only when every step did, and what
    it sends is always the part of the resized image followed by the
    rotation prompt for the chosen direction: exactly one image part and
    one text part. The result is the crop of the first inline image of the
    answer to the rectangle given by the original dimensions. *)
Theorem generateRotatedView_resolves (B : Env) (currentImage : File)
    (originalWidth originalHeight : number) (direction : Direction) (url : string) :
  generateRotatedView B currentImage originalWidth originalHeight direction = Ok url ->
  exists (resized : File) (imagePart : Part) (response : GenerateContentResponse)
         (i : InlineData) (square : Image),
    resizeImage B currentImage MAX_DIMENSION = Ok resized /\
    fileToPart B resized = Ok imagePart /\
    isImagePart imagePart = true /\
    generateContent B model
      [imagePart; TextPart (rotationPrompt (showDirection direction))] = Ok response /\
    imagePartFromResponse response = Some i /\
    loadImage B (dataUrl (mimeType i) (data i)) = Ok square /\
    getContext2d B = true /\
    url = toDataURL B (cropCanvas square originalWidth originalHeight MAX_DIMENSION)
                    "image/jpeg" quality.
Proof.
  unfold generateRotatedView, cropToOriginalAspectRatio.
  destruct (resizeImage B currentImage MAX_DIMENSION) as [resized | e];
    cbn [bind]; [ | discriminate].
  destruct (fileToPart B resized) as [imagePart | e] eqn:Hp; cbn [bind]; [ | discriminate].
  destruct (generateContent B model
              [imagePart; TextPart (rotationPrompt (showDirection direction))])
    as [response | e] eqn:Hg; cbn [bind]; [ | discriminate].
  destruct (imagePartFromResponse response) as [i | ] eqn:Hi; [ | discriminate].
  change ("data:" ++ mimeType i ++ ";base64," ++ data i)
    with (dataUrl (mimeType i) (data i)).
  destruct (loadImage B (dataUrl (mimeType i) (data i))) as [square | e] eqn:Hl;
    [ | discriminate].
  destruct (getContext2d B) eqn:Hc; cbn [negb]; [ | discriminate].
  intros [= <-]. exists resized, imagePart, response, i, square.
  repeat split; try assumption.
  exact (RequestFacts.fileToPart_image B resized imagePart Hp).
Qed.

Lemma generateRotatedView_resolves_witness :
  generateRotatedView (browser Demo.demoEnv) Demo.sceneFile 512%float 256%float right
  = Ok "data:image/jpeg;base64,Q1JPUFBFRA==".
Proof.
  destruct (generateRotatedView (browser Demo.demoEnv) Demo.sceneFile 512%float
              256%float right) as [url | e] eqn:Hr;
    [ | exfalso; unfold generateRotatedView in Hr; discriminate Hr].
  destruct (generateRotatedView_resolves (browser Demo.demoEnv) Demo.sceneFile
              512%float 256%float right url Hr)
    as [resized [p [response [i [square [_ [_ [_ [_ [_ [_ [_ Hu]]]]]]]]]]]].
  rewrite Hu. reflexivity.
Defined.

End PipelineFacts.

(** ** Answers with several candidates, and concrete sessions *)

Module CandidateFacts.

Import Geometry Browser Types App Properties Coverage GeminiService.

(** X8. Only the first candidate of an answer counts: when the request was
    built and sent and the first candidate holds no inline image,
    [redesignRoom] rejects with the no-image error even if another candidate
    of the same answer carries an image. *)
Theorem only_first_candidate_counts (B : Env) (imageToProcess : File)
    (originalWidth originalHeight : number) (userPrompt : string)
    (productImage backgroundImage : option File) (isSketched : bool)
    (req : RedesignRequest) (response : GenerateContentResponse) :
  redesignRequest B imageToProcess userPrompt productImage backgroundImage isSketched
  = Ok req ->
  generateContent B model (req_parts req) = Ok response ->
  Forall (fun q => inlineData q = None) (firstCandidateParts response) ->
  redesignRoom B imageToProcess originalWidth originalHeight userPrompt
               productImage backgroundImage isSketched
  = Err (JsError noImageMessage).
Proof.
  intros Hq Hg Hall. unfold redesignRoom. rewrite Hq. cbn [bind]. rewrite Hg. cbn [bind].
  now rewrite (ParseFacts.imagePartFromResponse_first_only response Hall).
Qed.

Lemma only_first_candidate_counts_witness :
  inlineImageCount lateImageResponse = 1%nat /\
  redesignRoom (browser (Demo.envAnswering lateImageResponse)) Demo.sceneFile
               512%float 256%float "Add a pool" None None false
  = Err (JsError noImageMessage).
Proof.
  split; [reflexivity | ].
  apply (only_first_candidate_counts (browser (Demo.envAnswering lateImageResponse))
           Demo.sceneFile 512%float 256%float "Add a pool" None None false
           (mkRequest "data:image/jpeg;base64,U1FVQVJF"
              [InlineDataPart "image/jpeg" "U1FVQVJF";
               TextPart (redesignPrompt "Add a pool" false false false)]
              (redesignPrompt "Add a pool" false false false))
           lateImageResponse eq_refl eq_refl).
  repeat constructor.
Defined.

Lemma delete_session_witness :
  let s := Demo.twoUploads in
  sessionIds s = ["1000"; "1000"] /\
  sessions (handleDeleteSession s "1000" s) = [] /\
  activeSessionId (handleDeleteSession s "1000" s) = None.
Proof.
  cbv zeta. split; [reflexivity | ].
  destruct (SessionMore.delete_session Demo.twoUploads "1000") as [Hs [_ [_ Ha]]].
  assert (Hnil : sessions (handleDeleteSession Demo.twoUploads "1000" Demo.twoUploads) = []).
  { rewrite Hs. reflexivity. }
  split; [exact Hnil | ].
  assert (Hact : isActive (activeSessionId Demo.twoUploads) "1000" = true) by reflexivity.
  specialize (Ha Hact). rewrite Hnil in Ha. exact (proj1 Ha).
Defined.

Lemma select_session_witness :
  let s := handleNewProject Demo.afterOneEdit in
  currentWorkingImage s = None /\
  currentWorkingImage (handleSelectSession s "1000" s)
  = Some (mkFile "generated-scene-2000.jpeg" "image/jpeg" "RkVUQ0hFRA==") /\
  handleSelectSession s "2000" s = s.
Proof.
  cbv zeta. split; [reflexivity | ].
  destruct (SessionMore.select_session (handleNewProject Demo.afterOneEdit) "1000"
              (handleNewProject Demo.afterOneEdit)) as [_ Hfound].
  destruct (SessionMore.select_session (handleNewProject Demo.afterOneEdit) "2000"
              (handleNewProject Demo.afterOneEdit)) as [Hmissing _].
  split.
  - destruct (find (fun y => String.eqb (id y) "1000")
                (sessions (handleNewProject Demo.afterOneEdit))) as [x | ] eqn:Hf;
      [ | vm_compute in Hf; discriminate].
    destruct (Hfound x eq_refl) as [_ [_ [_ [_ [_ [_ [_ [Hw _]]]]]]]].
    rewrite Hw.
    assert (Hx : find (fun y => String.eqb (id y) "1000")
                   (sessions (handleNewProject Demo.afterOneEdit))
                 = Some (mkSession "1000" "Design 1" 1000 "data:image/png;base64,SE9VU0U="
                           Demo.sceneFile Demo.dims512
                           [mkFile "generated-scene-2000.jpeg" "image/jpeg" "RkVUQ0hFRA=="]))
      by (vm_compute; reflexivity).
    rewrite Hx in Hf. injection Hf as <-. reflexivity.
  - apply Hmissing. vm_compute. intros [H | []]. discriminate.
Defined.

End CandidateFacts.
